(** * AOTInductor model runtime: a shallow embedding of
      [torch/csrc/inductor/aoti_runtime/model.h]

    The header is compiled in one of three ways, chosen by the macros
    [USE_CUDA] and [USE_XPU]; two further macros, [USE_MMAP_SELF] and
    [AOTI_USE_CREATE_TENSOR_FROM_BLOB_V1], select the payload accessor and
    the tensor constructor.  The embedding keeps these choices as a
    [Config] value that every operation takes, so that one development
    covers every way the header can be built.

    Integers of the source are [Z] with their wrap-around written out;
    [std::vector] is [list] with stdpp's lookup and insert, and
    [std::unordered_map<std::string, _>] is [gmap string _]. *)

From Stdlib Require Import ZArith String Ascii List Lia Bool.
From stdpp Require Import base option list gmap strings.

Local Open Scope Z_scope.

(** ** Build configuration *)

Inductive Target :=
| TargetCPU    (* neither USE_CUDA nor USE_XPU *)
| TargetCUDA   (* USE_CUDA *)
| TargetXPU.   (* USE_XPU *)

Record Config := {
  target : Target;
  use_mmap_self : bool;          (* USE_MMAP_SELF *)
  use_create_tensor_v1 : bool    (* AOTI_USE_CREATE_TENSOR_FROM_BLOB_V1 *)
}.

Definition use_cuda (cfg : Config) : bool :=
  match target cfg with TargetCUDA => true | _ => false end.

Definition use_xpu (cfg : Config) : bool :=
  match target cfg with TargetXPU => true | _ => false end.

Definition use_gpu (cfg : Config) : bool := use_cuda cfg || use_xpu cfg.

(** ** Exceptions and outcomes

    [AOTI_RUNTIME_CHECK] throws [std::runtime_error];
    [std::vector::at] and [stoi] throw [std::out_of_range];
    [AOTI_RUNTIME_DEVICE_CHECK] and [AOTI_TORCH_ERROR_CODE_CHECK] throw on a
    failing driver or ABI call.  [Undefined] stands for executions the C++
    standard gives no meaning to (a null [shared_ptr] dereferenced, a read
    outside a mapping). *)

Inductive exception :=
| runtime_error (what : string)
| out_of_range (what : string)
| device_error (code : Z)
| torch_error.

Inductive outcome (A : Type) :=
| Ok (a : A)
| Throw (e : exception)
| Undefined.
Arguments Ok {A} a.
Arguments Throw {A} e.
Arguments Undefined {A}.

Definition outcome_bind {A B} (f : A -> outcome B) (m : outcome A) : outcome B :=
  match m with
  | Ok a => f a
  | Throw e => Throw e
  | Undefined => Undefined
  end.

#[global] Instance outcome_ret : MRet outcome := fun A a => Ok a.
#[global] Instance outcome_mbind : MBind outcome := fun A B f m => outcome_bind f m.

Definition AOTI_RUNTIME_CHECK (ok : bool) (msg : string) : outcome unit :=
  if ok then Ok tt else Throw (runtime_error msg).

Definition throws {A} (m : outcome A) : Prop := exists e, m = Throw e.

(** ** Machine integers *)

Definition size_t_modulus : Z := 2 ^ 64.
Definition to_size_t (z : Z) : Z := z mod size_t_modulus.
Definition INT_MAX : Z := 2147483647.

(** ** Device strings: [parse_device_str] *)

Inductive DeviceType :=
| device_type_cpu
| device_type_cuda
| device_type_xpu.

#[global] Instance DeviceType_eq_dec : EqDecision DeviceType.
Proof. solve_decision. Defined.

Definition is_digit (c : ascii) : bool :=
  (48 <=? Z.of_nat (nat_of_ascii c)) && (Z.of_nat (nat_of_ascii c) <=? 57).

Fixpoint all_digits (s : string) : bool :=
  match s with
  | EmptyString => true
  | String c s' => is_digit c && all_digits s'
  end.

Fixpoint strip_prefix (p s : string) : option string :=
  match p with
  | EmptyString => Some s
  | String a p' =>
      match s with
      | EmptyString => None
      | String b s' => if Ascii.eqb a b then strip_prefix p' s' else None
      end
  end.

(** The sub-matches the code reads: [sm[1]] and [sm[3]] ([None] when the
    optional group did not take part in the match). *)
Record smatch := { sm1 : string; sm3 : option string }.

(** The tail [(:([0-9]+))?] anchored at the end of the input. *)
Definition match_index_suffix (rest : string) : option (option string) :=
  match rest with
  | EmptyString => Some None
  | String c ds =>
      if Ascii.eqb c ":"%char && negb (String.eqb ds "") && all_digits ds
      then Some (Some ds) else None
  end.

Definition match_alternative (kind s : string) : option smatch :=
  match strip_prefix kind s with
  | None => None
  | Some rest =>
      match match_index_suffix rest with
      | None => None
      | Some idx => Some {| sm1 := kind; sm3 := idx |}
      end
  end.

(** [std::regex_match(device_str, sm, "(cpu|cuda|xpu)(:([0-9]+))?")]: the
    alternatives are tried from left to right. *)
Definition regex_match (s : string) : option smatch :=
  match match_alternative "cpu" s with
  | Some m => Some m
  | None =>
      match match_alternative "cuda" s with
      | Some m => Some m
      | None => match_alternative "xpu" s
      end
  end.

Definition digit_value (c : ascii) : Z := Z.of_nat (nat_of_ascii c) - 48.

Fixpoint decimal_value (acc : Z) (s : string) : Z :=
  match s with
  | EmptyString => acc
  | String c s' => decimal_value (10 * acc + digit_value c) s'
  end.

(** [std::stoi] on a string of digits: the value, or [std::out_of_range]
    when it does not fit an [int]. *)
Definition stoi (ds : string) : outcome Z :=
  let v := decimal_value 0 ds in
  if v <=? INT_MAX then Ok v else Throw (out_of_range "stoi").

Definition invalid_device (device_str : string) : exception :=
  runtime_error ("Invalid device: " +:+ device_str).

Definition parse_device_str (cfg : Config) (device_str : string)
  : outcome (DeviceType * Z) :=
  match regex_match device_str with
  | None => Throw (invalid_device device_str)
  | Some sm =>
      device_type ←
        (if String.eqb (sm1 sm) "cpu" then Ok device_type_cpu
         else if String.eqb (sm1 sm) "cuda" then Ok device_type_cuda
         else if use_xpu cfg && String.eqb (sm1 sm) "xpu" then Ok device_type_xpu
         else Throw (invalid_device device_str));
      device_idx ←
        match sm3 sm with
        | Some ds => stoi ds
        | None => Ok (-1)
        end;
      Ok (device_type, device_idx)
  end.

(** The form [kind[:index]] in the words of the specification. *)
Definition device_kind (k : string) : Prop :=
  k = "cpu"%string \/ k = "cuda"%string \/ k = "xpu"%string.

Definition device_form (s : string) : Prop :=
  exists k, device_kind k /\
    (s = k \/
     exists ds, ds <> ""%string /\ all_digits ds = true /\
                s = (k +:+ ":" +:+ ds)%string).

(** ** Descriptors, pointers and tensor handles *)

Module ParamInfo.
Record t := { name : string }.
End ParamInfo.

Module ConstInfo.
Record t := {
  name : string;
  shape : list Z;
  stride : list Z;
  dtype : Z;
  offset : Z;
  data_size : Z;
  layout : Z;
  opaque_metadata : list Z;
  opaque_metadata_size : Z;
  original_fqn : string;
  from_folded : bool;
  type : Z
}.
End ConstInfo.

(** Where a byte pointer points: into the payload linked in at
    [_binary_constants_bin_start], into the mapping [self_mmap], or into a
    device allocation made by [RAII_gpuMalloc]. *)
Inductive region :=
| region_embedded
| region_mmap
| region_blob (id : nat).

Inductive pointer :=
| nullptr
| ptr (r : region) (off : Z).

(** [p + n] on [uint8_t*]; adding to a null pointer is defined for [0]
    only. *)
Definition ptr_add (p : pointer) (n : Z) : outcome pointer :=
  match p with
  | nullptr => if n =? 0 then Ok nullptr else Undefined
  | ptr r off => Ok (ptr r (off + n))
  end.

(** A tensor handle is identified with the arguments of the call of
    [aoti_torch_create_tensor_from_blob] (v1: no layout, no opaque
    metadata) or [aoti_torch_create_tensor_from_blob_v2] that made it. *)
Record AtenTensorHandle := {
  t_data : pointer;
  t_ndim : Z;
  t_sizes : list Z;
  t_strides : list Z;
  t_storage_offset : Z;
  t_dtype : Z;
  t_device_type : DeviceType;
  t_device_index : Z;
  t_layout : option Z;
  t_opaque_metadata : list Z;
  t_opaque_metadata_size : Z
}.

(** A default-constructed [ConstantHandle] holds no tensor. *)
Abbreviation ConstantHandle := (option AtenTensorHandle).

(** ** The device driver, the tensor ABI and the operating system

    The calls the header makes outside itself are recorded in a trace, and
    their results are read from an environment: what [dladdr], [open] and
    [mmap] answer and what the artifact and the linked-in symbol contain;
    the status codes of the driver calls; the status code of the tensor
    constructor. *)

Definition cudaSuccess : Z := 0.
Definition cudaErrorNotReady : Z := 600.

(** An event of the device runtime.  An event that captured work resolves
    with [status] once [latency] further polls have gone by; synchronizing
    waits the latency out. *)
Inductive Event :=
| event_created
| event_recorded (latency : nat) (status : Z).

Definition event_query (e : Event) : Z * Event :=
  match e with
  | event_created => (cudaSuccess, e)
  | event_recorded O status => (status, e)
  | event_recorded (S n) status => (cudaErrorNotReady, event_recorded n status)
  end.

Definition event_synchronize (e : Event) : Z * Event :=
  match e with
  | event_created => (cudaSuccess, e)
  | event_recorded _ status => (status, event_recorded O status)
  end.

Inductive effect :=
| eff_gpu_malloc (num_bytes : Z)
| eff_memcpy (dst src : pointer) (num_bytes : Z)
| eff_create_tensor (h : AtenTensorHandle)
| eff_mmap (length offset : Z).

Record Env := {
  (* operating system, for the self-mapped payload *)
  dladdr_ok : bool;
  open_fd : Z;
  so_file : list Z;
  mmap_denied : bool;
  constants_bin : list Z;
  (* device driver *)
  gpu_malloc_status : Z -> Z;
  memcpy_status : pointer -> pointer -> Z -> Z;
  event_create_status : Z;
  event_record_status : Z;
  current_device : Z;
  get_device_status : Z;
  set_device_status : Z -> Z;
  (* tensor ABI: [AOTI_TORCH_SUCCESS] is [0] *)
  create_tensor_status : AtenTensorHandle -> Z
}.

(** ** The model instance

    The data members of [AOTInductorModelBase] that the member functions
    below read or write ([in_spec_], [out_spec_] and [cubin_dir_] are left
    out).  A [shared_ptr] is an [option], [None] for the null pointer; the
    pointee is held by value, which is enough as long as one instance is
    looked at.  [constant_blob_] names the allocation it owns, and
    [self_mmap] holds the bytes of the mapping it points to. *)

Record Model := {
  inputs_info_ : list ParamInfo.t;
  outputs_info_ : list ParamInfo.t;
  constants_info_ : list ConstInfo.t;
  constants_map_ : option (gmap string AtenTensorHandle);
  constants_ : option (list ConstantHandle);
  constant_blob_ : option nat;
  self_mmap : option (list Z);
  include_weights : bool;
  run_finished_ : bool;                  (* the member of the CPU build *)
  run_finished_event_ : option Event;    (* the member of the CUDA and XPU builds *)
  device_type_ : DeviceType;
  device_idx_ : Z;
  effects_ : list effect                 (* ghost: outside calls made, latest first *)
}.

Definition set_constants_map_ (v : option (gmap string AtenTensorHandle)) (m : Model) : Model :=
  {| inputs_info_ := inputs_info_ m; outputs_info_ := outputs_info_ m;
     constants_info_ := constants_info_ m; constants_map_ := v;
     constants_ := constants_ m; constant_blob_ := constant_blob_ m;
     self_mmap := self_mmap m; include_weights := include_weights m;
     run_finished_ := run_finished_ m; run_finished_event_ := run_finished_event_ m;
     device_type_ := device_type_ m; device_idx_ := device_idx_ m;
     effects_ := effects_ m |}.

Definition set_constants_ (v : option (list ConstantHandle)) (m : Model) : Model :=
  {| inputs_info_ := inputs_info_ m; outputs_info_ := outputs_info_ m;
     constants_info_ := constants_info_ m; constants_map_ := constants_map_ m;
     constants_ := v; constant_blob_ := constant_blob_ m;
     self_mmap := self_mmap m; include_weights := include_weights m;
     run_finished_ := run_finished_ m; run_finished_event_ := run_finished_event_ m;
     device_type_ := device_type_ m; device_idx_ := device_idx_ m;
     effects_ := effects_ m |}.

Definition set_constant_blob_ (v : option nat) (m : Model) : Model :=
  {| inputs_info_ := inputs_info_ m; outputs_info_ := outputs_info_ m;
     constants_info_ := constants_info_ m; constants_map_ := constants_map_ m;
     constants_ := constants_ m; constant_blob_ := v;
     self_mmap := self_mmap m; include_weights := include_weights m;
     run_finished_ := run_finished_ m; run_finished_event_ := run_finished_event_ m;
     device_type_ := device_type_ m; device_idx_ := device_idx_ m;
     effects_ := effects_ m |}.

Definition set_self_mmap (v : option (list Z)) (m : Model) : Model :=
  {| inputs_info_ := inputs_info_ m; outputs_info_ := outputs_info_ m;
     constants_info_ := constants_info_ m; constants_map_ := constants_map_ m;
     constants_ := constants_ m; constant_blob_ := constant_blob_ m;
     self_mmap := v; include_weights := include_weights m;
     run_finished_ := run_finished_ m; run_finished_event_ := run_finished_event_ m;
     device_type_ := device_type_ m; device_idx_ := device_idx_ m;
     effects_ := effects_ m |}.

Definition set_run_finished_ (v : bool) (m : Model) : Model :=
  {| inputs_info_ := inputs_info_ m; outputs_info_ := outputs_info_ m;
     constants_info_ := constants_info_ m; constants_map_ := constants_map_ m;
     constants_ := constants_ m; constant_blob_ := constant_blob_ m;
     self_mmap := self_mmap m; include_weights := include_weights m;
     run_finished_ := v; run_finished_event_ := run_finished_event_ m;
     device_type_ := device_type_ m; device_idx_ := device_idx_ m;
     effects_ := effects_ m |}.

Definition set_run_finished_event_ (v : option Event) (m : Model) : Model :=
  {| inputs_info_ := inputs_info_ m; outputs_info_ := outputs_info_ m;
     constants_info_ := constants_info_ m; constants_map_ := constants_map_ m;
     constants_ := constants_ m; constant_blob_ := constant_blob_ m;
     self_mmap := self_mmap m; include_weights := include_weights m;
     run_finished_ := run_finished_ m; run_finished_event_ := v;
     device_type_ := device_type_ m; device_idx_ := device_idx_ m;
     effects_ := effects_ m |}.

Definition set_effects_ (v : list effect) (m : Model) : Model :=
  {| inputs_info_ := inputs_info_ m; outputs_info_ := outputs_info_ m;
     constants_info_ := constants_info_ m; constants_map_ := constants_map_ m;
     constants_ := constants_ m; constant_blob_ := constant_blob_ m;
     self_mmap := self_mmap m; include_weights := include_weights m;
     run_finished_ := run_finished_ m; run_finished_event_ := run_finished_event_ m;
     device_type_ := device_type_ m; device_idx_ := device_idx_ m;
     effects_ := v |}.

(** Member functions run in a state monad over the instance; a throwing
    call keeps the writes made before the throw. *)
Definition M (A : Type) : Type := Model -> outcome A * Model.

Definition M_ret {A} (a : A) : M A := fun m => (Ok a, m).

Definition M_bind {A B} (f : A -> M B) (c : M A) : M B :=
  fun m =>
    match c m with
    | (Ok a, m') => f a m'
    | (Throw e, m') => (Throw e, m')
    | (Undefined, m') => (Undefined, m')
    end.

#[global] Instance M_mret : MRet M := @M_ret.
#[global] Instance M_mbind : MBind M := @M_bind.

Definition lift {A} (o : outcome A) : M A := fun m => (o, m).
Definition gets {A} (f : Model -> A) : M A := fun m => (Ok (f m), m).
Definition modify (f : Model -> Model) : M unit := fun m => (Ok tt, f m).
Definition emit (e : effect) : M unit :=
  modify (fun m => set_effects_ (e :: effects_ m) m).

Definition AOTI_RUNTIME_DEVICE_CHECK (code : Z) : outcome unit :=
  if code =? cudaSuccess then Ok tt else Throw (device_error code).

Definition AOTI_TORCH_ERROR_CODE_CHECK (code : Z) : outcome unit :=
  if code =? 0 then Ok tt else Throw torch_error.

Definition call {A} (f : Model -> outcome A) : M A := fun m => (f m, m).

(** ** Metadata accessors *)

(** [std::vector::at] called with an [int64_t]: the index is converted to
    [size_t] and checked against the size. *)
Definition vector_at {A} (v : list A) (idx : Z) : outcome A :=
  let n := to_size_t idx in
  if Z.of_nat (length v) <=? n then Throw (out_of_range "vector::_M_range_check")
  else match v !! Z.to_nat n with
       | Some x => Ok x
       | None => Undefined
       end.

Definition num_inputs (m : Model) : Z := Z.of_nat (length (inputs_info_ m)).
Definition num_outputs (m : Model) : Z := Z.of_nat (length (outputs_info_ m)).
Definition num_constants (m : Model) : Z := Z.of_nat (length (constants_info_ m)).

Definition input_name (idx : Z) (m : Model) : outcome string :=
  info ← vector_at (inputs_info_ m) idx; Ok (ParamInfo.name info).

Definition output_name (idx : Z) (m : Model) : outcome string :=
  info ← vector_at (outputs_info_ m) idx; Ok (ParamInfo.name info).

Definition constant_name (idx : Z) (m : Model) : outcome string :=
  info ← vector_at (constants_info_ m) idx; Ok (ConstInfo.name info).

Definition constant_ndim (idx : Z) (m : Model) : outcome Z :=
  info ← vector_at (constants_info_ m) idx;
  Ok (Z.of_nat (length (ConstInfo.shape info))).

Definition constant_shape (idx : Z) (m : Model) : outcome (list Z) :=
  info ← vector_at (constants_info_ m) idx; Ok (ConstInfo.shape info).

Definition constant_stride (idx : Z) (m : Model) : outcome (list Z) :=
  info ← vector_at (constants_info_ m) idx; Ok (ConstInfo.stride info).

Definition constant_dtype (idx : Z) (m : Model) : outcome Z :=
  info ← vector_at (constants_info_ m) idx; Ok (ConstInfo.dtype info).

Definition constant_layout (idx : Z) (m : Model) : outcome Z :=
  info ← vector_at (constants_info_ m) idx; Ok (ConstInfo.layout info).

Definition constant_offset (idx : Z) (m : Model) : outcome Z :=
  info ← vector_at (constants_info_ m) idx; Ok (to_size_t (ConstInfo.offset info)).

Definition constant_data_size (idx : Z) (m : Model) : outcome Z :=
  info ← vector_at (constants_info_ m) idx; Ok (ConstInfo.data_size info).

Definition constant_original_fqn (idx : Z) (m : Model) : outcome string :=
  info ← vector_at (constants_info_ m) idx; Ok (ConstInfo.original_fqn info).

Definition opaque_metadata (idx : Z) (m : Model) : outcome (list Z) :=
  info ← vector_at (constants_info_ m) idx; Ok (ConstInfo.opaque_metadata info).

Definition opaque_metadata_size (idx : Z) (m : Model) : outcome Z :=
  info ← vector_at (constants_info_ m) idx;
  Ok (Z.of_nat (length (ConstInfo.opaque_metadata info))).

Definition constant_from_folded (idx : Z) (m : Model) : outcome bool :=
  info ← vector_at (constants_info_ m) idx; Ok (ConstInfo.from_folded info).

Definition constant_type (idx : Z) (m : Model) : outcome Z :=
  info ← vector_at (constants_info_ m) idx; Ok (ConstInfo.type info).

(** ** Construction *)

Definition default_ParamInfo : ParamInfo.t := {| ParamInfo.name := "" |}.

Definition default_ConstInfo : ConstInfo.t :=
  {| ConstInfo.name := ""; ConstInfo.shape := []; ConstInfo.stride := [];
     ConstInfo.dtype := 0; ConstInfo.offset := 0; ConstInfo.data_size := 0;
     ConstInfo.layout := 0; ConstInfo.opaque_metadata := [];
     ConstInfo.opaque_metadata_size := 0; ConstInfo.original_fqn := "";
     ConstInfo.from_folded := false; ConstInfo.type := 0 |}.

(** The constructor of the base class.  The null [name] pointers of the
    value-initialized descriptors are rendered as empty strings; the
    generated subclass fills the descriptors in afterwards. *)
Definition AOTInductorModelBase (cfg : Config) (env : Env)
    (num_inputs num_outputs num_constants : nat) (device_str : string)
    (include_weights : bool) : outcome Model :=
  '(device_type, device_idx) ← parse_device_str cfg device_str;
  device_idx ←
    match target cfg with
    | TargetCUDA =>
        if device_idx =? -1
        then _ ← AOTI_RUNTIME_DEVICE_CHECK (get_device_status env);
             Ok (current_device env)
        else _ ← AOTI_RUNTIME_DEVICE_CHECK (set_device_status env device_idx);
             Ok device_idx
    | TargetXPU =>
        if device_idx =? -1 then Ok (current_device env) else Ok device_idx
    | TargetCPU => Ok device_idx
    end;
  Ok {| inputs_info_ := replicate num_inputs default_ParamInfo;
        outputs_info_ := replicate num_outputs default_ParamInfo;
        constants_info_ := replicate num_constants default_ConstInfo;
        constants_map_ := None;
        constants_ := None;
        constant_blob_ := None;
        self_mmap := None;
        include_weights := include_weights;
        run_finished_ := false;
        run_finished_event_ := None;
        device_type_ := device_type;
        device_idx_ := device_idx;
        effects_ := [] |}.

(** ** Device blob layout: [compute_gpu_constant_blob] *)

Definition AOTI_CONST_GPU_ALIGNMENT : Z := 64.

(** The body of the [if (data_size % AOTI_CONST_GPU_ALIGNMENT)] statement. *)
Definition align_data_size (data_size : Z) : Z :=
  if data_size mod AOTI_CONST_GPU_ALIGNMENT =? 0 then data_size
  else to_size_t (AOTI_CONST_GPU_ALIGNMENT +
                  (data_size / AOTI_CONST_GPU_ALIGNMENT) * AOTI_CONST_GPU_ALIGNMENT).

(** [v[i] = x] on a [std::vector]: no bounds check. *)
Definition vector_store {A} (v : list A) (i : nat) (x : A) : outcome (list A) :=
  if decide (i < length v)%nat then Ok (<[i := x]> v) else Undefined.

(** The loop [for (size_t i = 0; i < num_constants; i++)], with [count]
    iterations left to run from ordinal [i]. *)
Fixpoint compute_gpu_constant_blob_loop (m : Model) (count i : nat)
    (blob_size : Z) (constants_internal_offset : list Z)
  : outcome (Z * list Z) :=
  match count with
  | O => Ok (blob_size, constants_internal_offset)
  | S count' =>
      data_size ← constant_data_size (Z.of_nat i) m;
      let data_size := align_data_size data_size in
      constants_internal_offset ← vector_store constants_internal_offset i blob_size;
      compute_gpu_constant_blob_loop m count' (S i)
        (to_size_t (blob_size + data_size)) constants_internal_offset
  end.

(** The two reference parameters come back as the result. *)
Definition compute_gpu_constant_blob (cfg : Config) (m : Model)
    (blob_size : Z) (constants_internal_offset : list Z)
  : outcome (Z * list Z) :=
  if use_gpu cfg
  then compute_gpu_constant_blob_loop m (length (constants_info_ m)) 0 0
         constants_internal_offset
  else Ok (blob_size, constants_internal_offset).

(** The layout in the words of the specification: every size rounded up to
    the next multiple of 64, and the running total of the rounded sizes. *)
Definition round_up_64 (n : Z) : Z := ((n + 63) / 64) * 64.

Fixpoint aligned_total (infos : list ConstInfo.t) : Z :=
  match infos with
  | [] => 0
  | info :: rest => round_up_64 (ConstInfo.data_size info) + aligned_total rest
  end.

(** ** Payload accessor: [_get_constants_start] *)

(** A little-endian [uint64_t] read at byte offset [off]. *)
Definition read_u64 (bytes : list Z) (off : Z) : option Z :=
  if off <? 0 then None
  else
    let bs := take 8 (drop (Z.to_nat off) bytes) in
    if decide (length bs = 8%nat)
    then Some (fold_right (fun b acc => b + 256 * acc) 0 bs)
    else None.

(** [mmap(NULL, length, PROT_READ | PROT_WRITE, MAP_PRIVATE, fd, offset)] on
    the opened artifact: the bytes of the file from [offset] on, or [None]
    for [MAP_FAILED].  The offset is an [off_t], so values from [2^63] on
    are negative. *)
Definition mmap (env : Env) (length offset : Z) : option (list Z) :=
  let fsize := Z.of_nat (List.length (so_file env)) in
  if mmap_denied env || (length <=? 0) || (2 ^ 63 <=? offset)
     || (fsize <? offset + length)
  then None
  else Some (take (Z.to_nat length) (drop (Z.to_nat offset) (so_file env))).

Definition lseek_end (env : Env) : Z := Z.of_nat (length (so_file env)).

Definition weights_size (env : Env) : option Z := read_u64 (constants_bin env) 0.
Definition magic_number (env : Env) : option Z := read_u64 (constants_bin env) 8.

Definition weights_offset (fsize weights_size : Z) : Z :=
  to_size_t (fsize - weights_size).

Definition read_or_undefined {A} (o : option A) : outcome A :=
  match o with
  | Some a => Ok a
  | None => Undefined
  end.

Definition _get_constants_start (cfg : Config) (env : Env) : M pointer :=
  if negb (use_mmap_self cfg) then mret (ptr region_embedded 0)
  else
    mapped ← gets self_mmap;
    match mapped with
    | Some _ => mret (ptr region_mmap 0)
    | None =>
        _ ← lift (AOTI_RUNTIME_CHECK (dladdr_ok env) "Can't find shared library name");
        let fd := open_fd env in
        _ ← lift (AOTI_RUNTIME_CHECK (0 <=? fd) "Shared library file cannot be opened");
        let fsize := lseek_end env in
        weights_size ← lift (read_or_undefined (weights_size env));
        magic_number ← lift (read_or_undefined (magic_number env));
        let weights_offset := weights_offset fsize weights_size in
        _ ← lift (AOTI_RUNTIME_CHECK (Z.land weights_offset 16383 =? 0)
                    "weights_offset must be aligned to 16K boundary");
        _ ← emit (eff_mmap weights_size weights_offset);
        match mmap env weights_size weights_offset with
        | None => lift (Throw (runtime_error "mmap() failed"))
        | Some bytes =>
            _ ← modify (set_self_mmap (Some bytes));
            trailer ← lift (read_or_undefined (read_u64 bytes (weights_size - 8)));
            _ ← lift (AOTI_RUNTIME_CHECK (trailer =? magic_number)
                        "Weigths data seems corrupt");
            mret (ptr region_mmap 0)
        end
    end.

(** ** Constant registry: [update_constants_array_from_map],
       [update_constants_map], [update_constants_array] *)

(** [v.resize(n)]: new slots are default-constructed. *)
Definition vector_resize (n : nat) (v : list ConstantHandle) : list ConstantHandle :=
  resize n None v.

(** [v.at(idx) = x]. *)
Definition vector_at_assign {A} (v : list A) (idx : Z) (x : A) : outcome (list A) :=
  let n := to_size_t idx in
  if Z.of_nat (length v) <=? n then Throw (out_of_range "vector::_M_range_check")
  else Ok (<[Z.to_nat n := x]> v).

(** The range-for over [constants_info_], with the counter [idx]. *)
Fixpoint update_constants_array_loop (cmap : gmap string AtenTensorHandle)
    (infos : list ConstInfo.t) (idx : Z) (constants : list ConstantHandle)
  : outcome (list ConstantHandle) :=
  match infos with
  | [] => Ok constants
  | info :: rest =>
      constants ←
        match cmap !! ConstInfo.name info with
        | Some handle => vector_at_assign constants idx (Some handle)
        | None => Ok constants
        end;
      update_constants_array_loop cmap rest (idx + 1) constants
  end.

Definition update_constants_array_from_map : M unit :=
  cmap ← gets constants_map_;
  match cmap with
  | None =>
      lift (Throw (runtime_error
        "constants_map_ was not ready when constants_ is trying to be constructed from it!"))
  | Some cmap =>
      n ← gets (fun m => length (constants_info_ m));
      old ← gets constants_;
      let constants :=
        match old with
        | None => replicate n None
        | Some v => vector_resize n v
        end in
      _ ← modify (set_constants_ (Some constants));
      infos ← gets constants_info_;
      constants ← lift (update_constants_array_loop cmap infos 0 constants);
      modify (set_constants_ (Some constants))
  end.

Definition update_constants_map
    (constants_map : option (gmap string AtenTensorHandle))
    (remap_constants_array : bool) : M unit :=
  _ ← modify (set_constants_map_ constants_map);
  if remap_constants_array then update_constants_array_from_map else mret tt.

Definition update_constants_array (constants_array : option (list ConstantHandle))
  : M unit :=
  modify (set_constants_ constants_array).

Definition get_constants_array : M (option (list ConstantHandle)) :=
  gets constants_.

(** ** Constant loader: [RAII_gpuMalloc], [constant_ptr], [load_constants] *)

(** [cudaMalloc] is checked; [sycl::malloc_device] hands back a null pointer
    when it fails.  A new allocation is named by its position in the
    trace. *)
Definition RAII_gpuMalloc (cfg : Config) (env : Env) (num_bytes : Z)
  : M (option nat) :=
  id ← gets (fun m => length (effects_ m));
  _ ← emit (eff_gpu_malloc num_bytes);
  if use_cuda cfg
  then _ ← lift (AOTI_RUNTIME_DEVICE_CHECK (gpu_malloc_status env num_bytes));
       mret (Some id)
  else mret (if gpu_malloc_status env num_bytes =? 0 then Some id else None).

Definition constant_ptr (cfg : Config) (env : Env)
    (constant_offset bytes_read data_size : Z) (skip_copy : bool) : M pointer :=
  if use_gpu cfg then
    blob ← gets constant_blob_;
    let constants_ptr :=
      match blob with
      | Some id => ptr (region_blob id) 0
      | None => nullptr
      end in
    internal_ptr ← lift (ptr_add constants_ptr constant_offset);
    _ ← (if negb skip_copy then
           start ← _get_constants_start cfg env;
           src ← lift (ptr_add start bytes_read);
           _ ← emit (eff_memcpy internal_ptr src data_size);
           lift (AOTI_RUNTIME_DEVICE_CHECK
                   (memcpy_status env internal_ptr src data_size))
         else mret tt);
    mret internal_ptr
  else
    _ ← lift (AOTI_RUNTIME_CHECK (negb skip_copy)
                "pure cpu mode doesn't support skip copy");
    start ← _get_constants_start cfg env;
    lift (ptr_add start bytes_read).

(** [m.emplace(name, handle)] on the [unordered_map]: an existing entry is
    kept. *)
Definition map_emplace (name : string) (handle : AtenTensorHandle)
    (cmap : gmap string AtenTensorHandle) : gmap string AtenTensorHandle :=
  match cmap !! name with
  | Some _ => cmap
  | None => <[name := handle]> cmap
  end.

Definition constants_map_emplace (name : string) (handle : AtenTensorHandle)
  : M unit :=
  cmap ← gets constants_map_;
  match cmap with
  | None => lift Undefined
  | Some cmap => modify (set_constants_map_ (Some (map_emplace name handle cmap)))
  end.

(** The call of the tensor ABI at the end of the loop body. *)
Definition create_tensor_from_blob (cfg : Config) (env : Env)
    (internal_ptr : pointer) (ndim : Z) (size stride : list Z) (offset dtype : Z)
    (layout : Z) (opaque_metadata_ptr : list Z) (opaque_metadata_size : Z)
  : M AtenTensorHandle :=
  device_type ← gets device_type_;
  device_idx ← gets device_idx_;
  if use_create_tensor_v1 cfg then
    _ ← lift (AOTI_RUNTIME_CHECK (opaque_metadata_size =? 0)
      "Expect opaque_metadata_size to be 0 when AOTI_USE_CREATE_TENSOR_FROM_BLOB_V1 is defined");
    let handle :=
      {| t_data := internal_ptr; t_ndim := ndim; t_sizes := size;
         t_strides := stride; t_storage_offset := offset; t_dtype := dtype;
         t_device_type := device_type; t_device_index := device_idx;
         t_layout := None; t_opaque_metadata := [];
         t_opaque_metadata_size := 0 |} in
    _ ← emit (eff_create_tensor handle);
    _ ← lift (AOTI_TORCH_ERROR_CODE_CHECK (create_tensor_status env handle));
    mret handle
  else
    let handle :=
      {| t_data := internal_ptr; t_ndim := ndim; t_sizes := size;
         t_strides := stride; t_storage_offset := offset; t_dtype := dtype;
         t_device_type := device_type; t_device_index := device_idx;
         t_layout := Some layout; t_opaque_metadata := opaque_metadata_ptr;
         t_opaque_metadata_size := opaque_metadata_size |} in
    _ ← emit (eff_create_tensor handle);
    _ ← lift (AOTI_TORCH_ERROR_CODE_CHECK (create_tensor_status env handle));
    mret handle.

(** One iteration of the loop of [load_constants] at ordinal [i]; the
    local [bytes_read] goes in and comes out. *)
Definition load_constants_body (cfg : Config) (env : Env)
    (constants_internal_offset : list Z) (i : nat) (bytes_read : Z) : M Z :=
  from_folded ← call (constant_from_folded (Z.of_nat i));
  if negb (use_gpu cfg) && from_folded then
    (* We do not reallocate and copy for CPU. *)
    mret bytes_read
  else
    name ← call (constant_name (Z.of_nat i));
    data_size ← call (constant_data_size (Z.of_nat i));
    internal_ptr ←
      (if negb (data_size =? 0) then
         constant_offset ← lift (read_or_undefined (constants_internal_offset !! i));
         constant_ptr cfg env constant_offset bytes_read data_size from_folded
       else mret nullptr);
    let bytes_read := to_size_t (bytes_read + data_size) in
    dtype ← call (constant_dtype (Z.of_nat i));
    ndim ← call (constant_ndim (Z.of_nat i));
    size ← call (constant_shape (Z.of_nat i));
    stride ← call (constant_stride (Z.of_nat i));
    offset ← call (constant_offset (Z.of_nat i));
    layout ← call (constant_layout (Z.of_nat i));
    opaque_metadata_ptr ← call (opaque_metadata (Z.of_nat i));
    opaque_metadata_size ← call (opaque_metadata_size (Z.of_nat i));
    tensor_handle ← create_tensor_from_blob cfg env internal_ptr ndim size stride
                      offset dtype layout opaque_metadata_ptr opaque_metadata_size;
    _ ← constants_map_emplace name tensor_handle;
    mret bytes_read.

Fixpoint load_constants_loop (cfg : Config) (env : Env)
    (constants_internal_offset : list Z) (count i : nat) (bytes_read : Z) : M Z :=
  match count with
  | O => mret bytes_read
  | S count' =>
      bytes_read ← load_constants_body cfg env constants_internal_offset i bytes_read;
      load_constants_loop cfg env constants_internal_offset count' (S i) bytes_read
  end.

Definition load_constants (cfg : Config) (env : Env) : M unit :=
  num_constants ← gets (fun m => length (constants_info_ m));
  (* constants_map_->reserve(num_constants) *)
  cmap ← gets constants_map_;
  _ ← lift (match cmap with Some _ => Ok tt | None => Undefined end);
  let constants_internal_offset := replicate num_constants 0 in
  device_type ← gets device_type_;
  constants_internal_offset ←
    (if decide (device_type <> device_type_cpu) then
       '(blob_size, constants_internal_offset) ←
         call (fun m => compute_gpu_constant_blob cfg m 0 constants_internal_offset);
       _ ← (if use_gpu cfg then
              blob ← RAII_gpuMalloc cfg env blob_size;
              modify (set_constant_blob_ blob)
            else mret tt);
       mret constants_internal_offset
     else mret constants_internal_offset);
  include_weights ← gets include_weights;
  if negb include_weights then mret tt
  else
    _ ← load_constants_loop cfg env constants_internal_offset num_constants 0 0;
    cmap ← gets constants_map_;
    match cmap with
    | Some _ => update_constants_array_from_map
    | None => mret tt
    end.

(** ** Execution lifecycle: [run], [run_const_fold], [is_finished],
       [wait_for_completion] *)

(** [sycl::event::wait_and_throw]. *)
Definition wait_and_throw (e : Event) : outcome unit * Event :=
  let '(status, e') := event_synchronize e in
  (AOTI_RUNTIME_DEVICE_CHECK status, e').

(** The part of [run] and [run_const_fold] before the generated routine. *)
Definition run_prologue (cfg : Config) (env : Env) : M unit :=
  match target cfg with
  | TargetCUDA =>
      ev ← gets run_finished_event_;
      match ev with
      | None =>
          _ ← lift (AOTI_RUNTIME_DEVICE_CHECK (event_create_status env));
          modify (set_run_finished_event_ (Some event_created))
      | Some _ => mret tt
      end
  | TargetXPU =>
      ev ← gets run_finished_event_;
      match ev with
      | Some e =>
          let '(waited, e') := wait_and_throw e in
          _ ← modify (set_run_finished_event_ (Some e'));
          _ ← lift waited;
          modify (set_run_finished_event_ None)
      | None => mret tt
      end
  | TargetCPU => modify (set_run_finished_ false)
  end.

(** The part after it.  The work just put on the stream resolves with
    [work_status] after [work_latency] polls. *)
Definition run_epilogue (cfg : Config) (env : Env)
    (work_latency : nat) (work_status : Z) : M unit :=
  match target cfg with
  | TargetCUDA =>
      ev ← gets run_finished_event_;
      match ev with
      | None => lift Undefined
      | Some _ =>
          _ ← lift (AOTI_RUNTIME_DEVICE_CHECK (event_record_status env));
          modify (set_run_finished_event_
                    (Some (event_recorded work_latency work_status)))
      end
  | TargetXPU =>
      modify (set_run_finished_event_
                (Some (event_recorded work_latency work_status)))
  | TargetCPU => modify (set_run_finished_ true)
  end.

(** [run_impl] is the generated routine: the model keeps whether it returns
    or throws, and how the work it puts on the stream resolves. *)
Definition run (cfg : Config) (env : Env) (run_impl : outcome unit)
    (work_latency : nat) (work_status : Z) : M unit :=
  _ ← run_prologue cfg env;
  _ ← lift run_impl;
  run_epilogue cfg env work_latency work_status.

Definition run_const_fold (cfg : Config) (env : Env)
    (const_run_impl : outcome (gmap string AtenTensorHandle))
    (work_latency : nat) (work_status : Z) : M (gmap string AtenTensorHandle) :=
  _ ← run_prologue cfg env;
  folded_constants ← lift const_run_impl;
  _ ← run_epilogue cfg env work_latency work_status;
  mret folded_constants.

Definition is_finished (cfg : Config) : M bool :=
  match target cfg with
  | TargetCUDA =>
      ev ← gets run_finished_event_;
      match ev with
      | None => lift (Throw (runtime_error "Model CUDA event was not initialized"))
      | Some e =>
          let '(event_status, e') := event_query e in
          _ ← modify (set_run_finished_event_ (Some e'));
          if event_status =? cudaSuccess then mret true
          else if event_status =? cudaErrorNotReady then mret false
          else lift (Throw (runtime_error
                 "The model did not finish successfully. Error: "))
      end
  | TargetXPU =>
      ev ← gets run_finished_event_;
      match ev with
      | None => lift (Throw (runtime_error "Model XPU event was not initialized"))
      | Some e =>
          let '(event_status, e') := event_query e in
          _ ← modify (set_run_finished_event_ (Some e'));
          mret (negb (event_status =? cudaErrorNotReady))
      end
  | TargetCPU => gets run_finished_
  end.

Definition wait_for_completion (cfg : Config) : M unit :=
  match target cfg with
  | TargetCUDA =>
      ev ← gets run_finished_event_;
      match ev with
      | None => lift (Throw (runtime_error "Model event was not initialized"))
      | Some e =>
          let '(status, e') := event_synchronize e in
          _ ← modify (set_run_finished_event_ (Some e'));
          lift (AOTI_RUNTIME_DEVICE_CHECK status)
      end
  | TargetXPU =>
      ev ← gets run_finished_event_;
      match ev with
      | None => lift (Throw (runtime_error "Model event was not initialized"))
      | Some e =>
          let '(waited, e') := wait_and_throw e in
          _ ← modify (set_run_finished_event_ (Some e'));
          lift waited
      end
  | TargetCPU => mret tt
  end.

(** ** Ranges the C++ types impose *)

Definition int64 (z : Z) : Prop := - 2 ^ 63 <= z < 2 ^ 63.

(** A [std::vector] holds fewer than [2^63] elements ([max_size]). *)
Definition vector_sized {A} (v : list A) : Prop := Z.of_nat (length v) < 2 ^ 63.

(** [data_size] is a [size_t]. *)
Definition valid_descriptors (infos : list ConstInfo.t) : Prop :=
  vector_sized infos /\
  Forall (fun info => 0 <= ConstInfo.data_size info < size_t_modulus) infos.

(** What a range-checked accessor does at [idx], for a vector [infos] and
    the field [f] it reads. *)
Definition range_checked {I A} (infos : list I) (f : I -> A) (idx : Z)
    (r : outcome A) : Prop :=
  (0 <= idx < Z.of_nat (length infos) ->
     exists info, infos !! Z.to_nat idx = Some info /\ r = Ok (f info)) /\
  (~ (0 <= idx < Z.of_nat (length infos)) ->
     r = Throw (out_of_range "vector::_M_range_check")).

(** What slot [i] of the indexed array holds before a rebuild: nothing
    where there is no array yet or the array is too short. *)
Definition slot_before (m : Model) (i : nat) : ConstantHandle :=
  match constants_ m with
  | Some v => default None (v !! i)
  | None => None
  end.

Definition unset_slots (constants : list ConstantHandle) : nat :=
  length (filter (fun slot => slot = None) constants).



(** ** Notions used to state what [load_constants] does *)

(** The constants the loop passes over: [from_folded] ones, in a build
    without [USE_CUDA] and [USE_XPU]. *)
Definition skipped (cfg : Config) (info : ConstInfo.t) : bool :=
  negb (use_gpu cfg) && ConstInfo.from_folded info.

(** The sum of the declared sizes of all the constants of a list (the read
    cursor in the words of the specification), and the sum over those the
    loop does not pass over. *)
Fixpoint declared_total (infos : list ConstInfo.t) : Z :=
  match infos with
  | [] => 0
  | info :: rest => ConstInfo.data_size info + declared_total rest
  end.

Fixpoint read_cursor (cfg : Config) (infos : list ConstInfo.t) : Z :=
  match infos with
  | [] => 0
  | info :: rest =>
      (if skipped cfg info then 0 else ConstInfo.data_size info)
      + read_cursor cfg rest
  end.

(** The names under which the loop makes registry entries. *)
Definition loaded_names (cfg : Config) (infos : list ConstInfo.t) : list string :=
  ConstInfo.name <$> filter (fun info => skipped cfg info = false) infos.

(** The handle the loop body asks the tensor ABI for, for descriptor [info]
    and data pointer [p]. *)
Definition tensor_for (cfg : Config) (m : Model) (info : ConstInfo.t)
    (p : pointer) : AtenTensorHandle :=
  {| t_data := p;
     t_ndim := Z.of_nat (length (ConstInfo.shape info));
     t_sizes := ConstInfo.shape info;
     t_strides := ConstInfo.stride info;
     t_storage_offset := to_size_t (ConstInfo.offset info);
     t_dtype := ConstInfo.dtype info;
     t_device_type := device_type_ m;
     t_device_index := device_idx_ m;
     t_layout := if use_create_tensor_v1 cfg then None
                 else Some (ConstInfo.layout info);
     t_opaque_metadata := if use_create_tensor_v1 cfg then []
                          else ConstInfo.opaque_metadata info;
     t_opaque_metadata_size :=
       if use_create_tensor_v1 cfg then 0
       else Z.of_nat (length (ConstInfo.opaque_metadata info)) |}.

(** The outside calls the loop may make: no allocation; copies only in a
    build with [USE_CUDA] or [USE_XPU]; a mapping only with
    [USE_MMAP_SELF]. *)
Definition loader_effect (cfg : Config) (e : effect) : Prop :=
  match e with
  | eff_gpu_malloc _ => False
  | eff_memcpy _ _ _ => use_gpu cfg = true
  | eff_create_tensor _ => True
  | eff_mmap _ _ => use_mmap_self cfg = true
  end.

(** The registry after some iterations, against the registry before: the
    old entries are all kept, and new ones appear under [names] only. *)
Definition registry_extends (names : list string)
    (old new : option (gmap string AtenTensorHandle)) : Prop :=
  match old, new with
  | Some a, Some b => a ⊆ b /\ forall k, k ∉ names -> b !! k = a !! k
  | None, None => True
  | _, _ => False
  end.

(** What iterations of the loop leave alone, and what they may change. *)
Definition loader_step (cfg : Config) (names : list string) (m m' : Model) : Prop :=
  constants_info_ m' = constants_info_ m /\
  device_type_ m' = device_type_ m /\
  device_idx_ m' = device_idx_ m /\
  constants_ m' = constants_ m /\
  constant_blob_ m' = constant_blob_ m /\
  include_weights m' = include_weights m /\
  (exists new, effects_ m' = new ++ effects_ m /\ Forall (loader_effect cfg) new) /\
  registry_extends names (constants_map_ m) (constants_map_ m').

(** A computation whose every run from [m] ends in a state related to [m]. *)
Definition keeps_at {A} (R : Model -> Model -> Prop) (c : M A) (m : Model) : Prop :=
  forall r m', c m = (r, m') -> R m m'.

Definition expect_no_opaque_metadata : exception :=
  runtime_error
    "Expect opaque_metadata_size to be 0 when AOTI_USE_CREATE_TENSOR_FROM_BLOB_V1 is defined".

(** Where the payload starts, and the pointer to the device blob. *)
Definition payload_region (cfg : Config) : region :=
  if use_mmap_self cfg then region_mmap else region_embedded.

Definition blob_pointer (m : Model) : pointer :=
  match constant_blob_ m with
  | Some id => ptr (region_blob id) 0
  | None => nullptr
  end.

(** No device memory is allocated and nothing is copied. *)
Definition no_copy_no_alloc (e : effect) : Prop :=
  match e with
  | eff_gpu_malloc _ | eff_memcpy _ _ _ => False
  | eff_create_tensor _ | eff_mmap _ _ => True
  end.


(** ** Notions used to state further properties *)

(** The device type a kind names. *)
Definition device_type_of (kind : string) : DeviceType :=
  if String.eqb kind "cpu" then device_type_cpu
  else if String.eqb kind "cuda" then device_type_cuda
  else device_type_xpu.

Definition weights_corrupt : exception :=
  runtime_error "Weigths data seems corrupt".

Definition cuda_event_not_initialized : exception :=
  runtime_error "Model CUDA event was not initialized".
Definition xpu_event_not_initialized : exception :=
  runtime_error "Model XPU event was not initialized".
Definition event_not_initialized : exception :=
  runtime_error "Model event was not initialized".

(** The index the constructor settles on, for the index [device_idx] that
    the device string gave. *)
Definition resolved_device_idx (cfg : Config) (env : Env) (device_idx : Z) : Z :=
  if use_gpu cfg && (device_idx =? -1) then current_device env else device_idx.

(** What a whole call of [load_constants] leaves alone: the descriptors,
    the device and the entries the registry map holds. *)
Definition registry_kept (m m' : Model) : Prop :=
  constants_info_ m' = constants_info_ m /\
  device_type_ m' = device_type_ m /\
  device_idx_ m' = device_idx_ m /\
  include_weights m' = include_weights m /\
  match constants_map_ m, constants_map_ m' with
  | Some a, Some b => a ⊆ b
  | None, None => True
  | _, _ => False
  end.

(** ** Sample configurations and instances *)

Definition cfg_cpu : Config :=
  {| target := TargetCPU; use_mmap_self := false; use_create_tensor_v1 := false |}.

Definition cfg_cuda : Config :=
  {| target := TargetCUDA; use_mmap_self := false; use_create_tensor_v1 := false |}.

Definition cfg_xpu : Config :=
  {| target := TargetXPU; use_mmap_self := false; use_create_tensor_v1 := false |}.

Definition cfg_cpu_mmap : Config :=
  {| target := TargetCPU; use_mmap_self := true; use_create_tensor_v1 := false |}.

(** An environment in which every outside call succeeds. *)
Definition env_ok : Env :=
  {| dladdr_ok := true; open_fd := 3; so_file := []; mmap_denied := false;
     constants_bin := [];
     gpu_malloc_status := fun _ => 0;
     memcpy_status := fun _ _ _ => 0;
     event_create_status := 0;
     event_record_status := 0;
     current_device := 0;
     get_device_status := 0;
     set_device_status := fun _ => 0;
     create_tensor_status := fun _ => 0 |}.

Definition mk_const (name : string) (data_size : Z) (from_folded : bool)
  : ConstInfo.t :=
  {| ConstInfo.name := name; ConstInfo.shape := [data_size];
     ConstInfo.stride := [1]; ConstInfo.dtype := 1; ConstInfo.offset := 0;
     ConstInfo.data_size := data_size; ConstInfo.layout := 0;
     ConstInfo.opaque_metadata := []; ConstInfo.opaque_metadata_size := 0;
     ConstInfo.original_fqn := name; ConstInfo.from_folded := from_folded;
     ConstInfo.type := 1 |}.

Definition mk_model (device : DeviceType) (include_weights : bool)
    (infos : list ConstInfo.t)
    (cmap : option (gmap string AtenTensorHandle))
    (constants : option (list ConstantHandle)) : Model :=
  {| inputs_info_ := []; outputs_info_ := []; constants_info_ := infos;
     constants_map_ := cmap; constants_ := constants; constant_blob_ := None;
     self_mmap := None; include_weights := include_weights;
     run_finished_ := false; run_finished_event_ := None;
     device_type_ := device; device_idx_ := 0; effects_ := [] |}.

Definition mk_handle (p : pointer) (dtype : Z) : AtenTensorHandle :=
  {| t_data := p; t_ndim := 1; t_sizes := [4]; t_strides := [1];
     t_storage_offset := 0; t_dtype := dtype; t_device_type := device_type_cpu;
     t_device_index := 0; t_layout := Some 0; t_opaque_metadata := [];
     t_opaque_metadata_size := 0 |}.

Definition registry_infos : list ConstInfo.t :=
  [mk_const "a" 4 false; mk_const "b" 4 false].

Definition handle_a : AtenTensorHandle := mk_handle (ptr region_embedded 0) 1.
Definition handle_b : AtenTensorHandle := mk_handle (ptr region_embedded 4) 1.
Definition handle_a2 : AtenTensorHandle := mk_handle (ptr region_embedded 64) 1.

Definition registry_full : gmap string AtenTensorHandle :=
  <["b" := handle_b]> {["a" := handle_a]}.

Definition registry_without_b : gmap string AtenTensorHandle :=
  {["a" := handle_a2]}.

(** A little-endian encoding on [n] bytes, to build sample artifacts. *)
Fixpoint le_bytes (n : nat) (v : Z) : list Z :=
  match n with
  | O => []
  | S n' => v mod 256 :: le_bytes n' (v / 256)
  end.

(** An artifact of 16 KiB followed by a payload of 1024 bytes that ends in
    [trailer]; the header announces 1024 bytes and the magic number
    [0xABCD]. *)
Definition env_self_map (trailer : Z) : Env :=
  {| dladdr_ok := true; open_fd := 3;
     so_file := replicate (Z.to_nat 16384) 0 ++ replicate (Z.to_nat 1016) 0
                ++ le_bytes 8 trailer;
     mmap_denied := false;
     constants_bin := le_bytes 8 1024 ++ le_bytes 8 43981;
     gpu_malloc_status := fun _ => 0;
     memcpy_status := fun _ _ _ => 0;
     event_create_status := 0;
     event_record_status := 0;
     current_device := 0;
     get_device_status := 0;
     set_device_status := fun _ => 0;
     create_tensor_status := fun _ => 0 |}.

(** An environment in which [dladdr] does not find the artifact. *)
Definition env_not_found : Env :=
  {| dladdr_ok := false; open_fd := 3; so_file := []; mmap_denied := false;
     constants_bin := le_bytes 8 1024 ++ le_bytes 8 43981;
     gpu_malloc_status := fun _ => 0;
     memcpy_status := fun _ _ _ => 0;
     event_create_status := 0;
     event_record_status := 0;
     current_device := 0;
     get_device_status := 0;
     set_device_status := fun _ => 0;
     create_tensor_status := fun _ => 0 |}.

(** An environment in which the device allocator fails
    ([cudaErrorMemoryAllocation] is 2). *)
Definition env_out_of_memory : Env :=
  {| dladdr_ok := true; open_fd := 3; so_file := []; mmap_denied := false;
     constants_bin := [];
     gpu_malloc_status := fun _ => 2;
     memcpy_status := fun _ _ _ => 0;
     event_create_status := 0;
     event_record_status := 0;
     current_device := 0;
     get_device_status := 0;
     set_device_status := fun _ => 0;
     create_tensor_status := fun _ => 0 |}.

(** * Properties *)

(** ** Device strings *)

Lemma strip_prefix_Some p s r :
  strip_prefix p s = Some r <-> s = (p +:+ r)%string.
Proof.
  revert s; induction p as [|a p IH]; intros s; simpl.
  - split; [intros [= ->] | intros ->]; reflexivity.
  - destruct s as [|b s]; [split; discriminate|].
    destruct (Ascii.eqb_spec a b) as [->|Hne].
    + rewrite IH. split; [intros ->; reflexivity | intros [= ->]; reflexivity].
    + split; [discriminate | intros [= Hab _]; congruence].
Qed.

Lemma append_cancel_l p a b : (p +:+ a)%string = (p +:+ b)%string -> a = b.
Proof. apply (inj (String.append p)). Qed.

Lemma append_empty_r p : (p +:+ "")%string = p.
Proof.
  induction p as [|c p IH]; [reflexivity|].
  change (String c (p +:+ "") = String c p)%string. by rewrite IH.
Qed.

Lemma match_index_suffix_Some rest idx :
  match_index_suffix rest = Some idx <->
  (rest = ""%string /\ idx = None) \/
  (exists ds, ds <> ""%string /\ all_digits ds = true /\
              rest = String ":" ds /\ idx = Some ds).
Proof.
  unfold match_index_suffix. destruct rest as [|c ds].
  - split.
    + intros [= <-]; left; split; reflexivity.
    + intros [[_ ->]|(ds & _ & _ & Hd & _)]; [reflexivity | discriminate].
  - destruct (Ascii.eqb_spec c ":"%char) as [->|Hc]; simpl.
    + destruct (String.eqb_spec ds "") as [->|Hds]; simpl.
      * split; [discriminate|].
        intros [[Hd _]|(ds & Hne & _ & Hd & _)]; [discriminate | congruence].
      * destruct (all_digits ds) eqn:Hall.
        -- split.
           ++ intros [= <-]. right. exists ds. repeat split; assumption.
           ++ intros [[Hd _]|(ds' & _ & _ & Hd & ->)]; [discriminate | congruence].
        -- split; [discriminate|].
           intros [[Hd _]|(ds' & _ & Hall' & Hd & _)]; [discriminate | congruence].
    + split; [discriminate|].
      intros [[Hd _]|(ds' & _ & _ & Hd & _)]; [discriminate | congruence].
Qed.

Lemma match_alternative_Some kind s sm :
  match_alternative kind s = Some sm <->
  sm1 sm = kind /\
  ((s = kind /\ sm3 sm = None) \/
   (exists ds, ds <> ""%string /\ all_digits ds = true /\
               s = (kind +:+ String ":" ds)%string /\ sm3 sm = Some ds)).
Proof.
  unfold match_alternative. split.
  - destruct (strip_prefix kind s) as [rest|] eqn:Hp; [|discriminate].
    apply strip_prefix_Some in Hp. subst s.
    destruct (match_index_suffix rest) as [idx|] eqn:Hi; [|discriminate].
    apply match_index_suffix_Some in Hi. intros [= <-]; simpl.
    split; [reflexivity|].
    destruct Hi as [[-> ->]|(ds & Hne & Hall & -> & ->)].
    + left. split; [apply append_empty_r | reflexivity].
    + right. exists ds. repeat split; assumption.
  - intros [Hk Hs]. destruct sm as [k i]; simpl in *. subst k.
    assert (Hrest : exists rest, s = (kind +:+ rest)%string /\
                                 match_index_suffix rest = Some i).
    { destruct Hs as [[-> ->]|(ds & Hne & Hall & -> & ->)].
      - exists ""%string. split; [symmetry; apply append_empty_r|].
        apply match_index_suffix_Some. left. split; reflexivity.
      - exists (String ":" ds). split; [reflexivity|].
        apply match_index_suffix_Some. right. exists ds. repeat split; assumption. }
    destruct Hrest as (rest & -> & Hi).
    assert (Hp : strip_prefix kind (kind +:+ rest) = Some rest)
      by (apply strip_prefix_Some; reflexivity).
    rewrite Hp, Hi. reflexivity.
Qed.

Lemma regex_match_Some s sm :
  regex_match s = Some sm ->
  device_kind (sm1 sm) /\
  ((s = sm1 sm /\ sm3 sm = None) \/
   (exists ds, ds <> ""%string /\ all_digits ds = true /\
               s = (sm1 sm +:+ String ":" ds)%string /\ sm3 sm = Some ds)).
Proof.
  unfold regex_match, device_kind.
  destruct (match_alternative "cpu" s) as [m|] eqn:H1.
  { intros [= <-]. apply match_alternative_Some in H1 as [Hk Hs].
    rewrite Hk. split; [auto | exact Hs]. }
  destruct (match_alternative "cuda" s) as [m|] eqn:H2.
  { intros [= <-]. apply match_alternative_Some in H2 as [Hk Hs].
    rewrite Hk. split; [auto | exact Hs]. }
  intros H3. apply match_alternative_Some in H3 as [Hk Hs].
  rewrite Hk. split; [auto | exact Hs].
Qed.

Lemma regex_match_form s : is_Some (regex_match s) <-> device_form s.
Proof.
  split.
  - intros [sm Hsm]. apply regex_match_Some in Hsm as [Hk Hs].
    exists (sm1 sm). split; [exact Hk|].
    destruct Hs as [[-> _]|(ds & Hne & Hall & -> & _)]; [left; reflexivity|].
    right. exists ds. repeat split; assumption.
  - intros (k & Hk & Hs).
    assert (Halt : exists sm, match_alternative k s = Some sm).
    { destruct Hs as [->|(ds & Hne & Hall & ->)].
      - exists {| sm1 := k; sm3 := None |}. apply match_alternative_Some.
        simpl. split; [reflexivity | left; split; reflexivity].
      - exists {| sm1 := k; sm3 := Some ds |}. apply match_alternative_Some.
        simpl. split; [reflexivity|]. right. exists ds. repeat split; assumption. }
    destruct Halt as [sm Halt]. unfold regex_match.
    destruct Hk as [-> | [-> | ->]].
    + rewrite Halt. eexists; reflexivity.
    + destruct (match_alternative "cpu" s); [eexists; reflexivity|].
      rewrite Halt. eexists; reflexivity.
    + destruct (match_alternative "cpu" s); [eexists; reflexivity|].
      destruct (match_alternative "cuda" s); [eexists; reflexivity|].
      rewrite Halt. eexists; reflexivity.
Qed.

(** C4, as stated, fails where the header is built without [USE_XPU]: the
    string [xpu] passes the regular expression and is then rejected. *)
Lemma parse_device_str_xpu_rejected :
  parse_device_str cfg_cpu "xpu" = Throw (runtime_error "Invalid device: xpu") /\
  parse_device_str cfg_cuda "xpu" = Throw (runtime_error "Invalid device: xpu") /\
  parse_device_str cfg_cpu "xpu" <> Ok (device_type_xpu, -1).
Proof. split; [reflexivity | split; [reflexivity | discriminate]]. Qed.

(** C4 (amended): [cpu] parses to the CPU device with index [-1] (no index),
    [cuda:1] to the CUDA device with index [1]; [xpu] parses to the XPU
    device with index [-1] in a build with [USE_XPU] and is an invalid
    device in every other build; [tpu], and every string that is not of the
    form [kind[:index]], is an invalid device. *)
Theorem parse_device_str_cases (cfg : Config) :
  parse_device_str cfg "cpu" = Ok (device_type_cpu, -1) /\
  parse_device_str cfg "cuda:1" = Ok (device_type_cuda, 1) /\
  parse_device_str cfg "xpu" =
    (if use_xpu cfg then Ok (device_type_xpu, -1)
     else Throw (invalid_device "xpu")) /\
  parse_device_str cfg "tpu" = Throw (invalid_device "tpu") /\
  (forall s, ~ device_form s -> parse_device_str cfg s = Throw (invalid_device s)).
Proof.
  repeat split; try reflexivity.
  - unfold parse_device_str; simpl. destruct (use_xpu cfg); reflexivity.
  - intros s Hs. unfold parse_device_str.
    destruct (regex_match s) as [sm|] eqn:Hm; [|reflexivity].
    exfalso. apply Hs, regex_match_form. eexists; exact Hm.
Qed.

Lemma parse_device_str_cases_witness :
  ~ device_form "gpu:0" /\
  parse_device_str cfg_cuda "gpu:0" = Throw (invalid_device "gpu:0").
Proof.
  assert (H : ~ device_form "gpu:0").
  { intros (k & [-> | [-> | ->]] & [Hs | (ds & _ & _ & Hs)]); discriminate Hs. }
  split; [exact H|].
  exact (proj2 (proj2 (proj2 (proj2 (parse_device_str_cases cfg_cuda)))) "gpu:0" H).
Defined.

(** ** Metadata accessors *)

Lemma to_size_t_small z : 0 <= z < size_t_modulus -> to_size_t z = z.
Proof. intros H. unfold to_size_t. apply Z.mod_small. exact H. Qed.

Lemma to_size_t_range z : 0 <= to_size_t z < size_t_modulus.
Proof. unfold to_size_t, size_t_modulus. apply Z.mod_pos_bound. lia. Qed.

Lemma vector_at_lookup {A} (v : list A) (i : nat) (x : A) :
  vector_sized v -> v !! i = Some x -> vector_at v (Z.of_nat i) = Ok x.
Proof.
  unfold vector_sized, vector_at. intros Hv Hx.
  pose proof (lookup_lt_Some _ _ _ Hx) as Hi.
  rewrite to_size_t_small by (unfold size_t_modulus; lia).
  destruct (Z.leb_spec (Z.of_nat (length v)) (Z.of_nat i)); [lia|].
  rewrite Nat2Z.id, Hx. reflexivity.
Qed.

Lemma vector_at_range_checked {I A} (infos : list I) (f : I -> A) (idx : Z) :
  vector_sized infos -> int64 idx ->
  range_checked infos f idx (info ← vector_at infos idx; Ok (f info)).
Proof.
  unfold vector_sized, int64, range_checked. intros Hv Hidx. split.
  - intros Hr.
    destruct (lookup_lt_is_Some_2 infos (Z.to_nat idx)) as [info Hinfo]; [lia|].
    exists info. split; [exact Hinfo|].
    replace idx with (Z.of_nat (Z.to_nat idx)) at 1 by lia.
    rewrite (vector_at_lookup infos _ info Hv Hinfo). reflexivity.
  - intros Hr. unfold vector_at.
    destruct (Z.leb_spec (Z.of_nat (length infos)) (to_size_t idx)) as [_|Hlt];
      [reflexivity|].
    exfalso. apply Hr. unfold to_size_t, size_t_modulus in Hlt.
    destruct (Z_lt_le_dec idx 0) as [Hneg|Hpos].
    + assert (Hwrap : idx mod 2 ^ 64 = idx + 2 ^ 64).
      { rewrite <- (Z.mod_add idx 1) by lia. apply Z.mod_small. lia. }
      lia.
    + rewrite Z.mod_small in Hlt by lia. lia.
Qed.

Lemma AOTInductorModelBase_counts cfg env n_in n_out n_const device_str iw m :
  AOTInductorModelBase cfg env n_in n_out n_const device_str iw = Ok m ->
  num_inputs m = Z.of_nat n_in /\ num_outputs m = Z.of_nat n_out /\
  num_constants m = Z.of_nat n_const /\ include_weights m = iw.
Proof.
  unfold AOTInductorModelBase, num_inputs, num_outputs, num_constants.
  cbv [mbind outcome_mbind outcome_bind].
  destruct (parse_device_str cfg device_str) as [[ty idx]| |]; try discriminate.
  destruct (target cfg); [|destruct (idx =? -1)..];
    repeat match goal with
           | |- context [AOTI_RUNTIME_DEVICE_CHECK ?c] =>
               destruct (AOTI_RUNTIME_DEVICE_CHECK c)
           end;
    try discriminate;
    intros [= <-]; simpl; rewrite !length_replicate; auto.
Qed.

(** C9: every per-input, per-output and per-constant accessor checks its
    ordinal: called with an ordinal outside [0 .. count-1] it throws
    [std::out_of_range], and called with an ordinal in range it returns the
    field of the descriptor at that ordinal. *)
Theorem accessors_range_checked (m : Model) (idx : Z) :
  int64 idx ->
  vector_sized (inputs_info_ m) ->
  vector_sized (outputs_info_ m) ->
  vector_sized (constants_info_ m) ->
  range_checked (inputs_info_ m) ParamInfo.name idx (input_name idx m) /\
  range_checked (outputs_info_ m) ParamInfo.name idx (output_name idx m) /\
  range_checked (constants_info_ m) ConstInfo.name idx (constant_name idx m) /\
  range_checked (constants_info_ m)
    (fun info => Z.of_nat (length (ConstInfo.shape info))) idx (constant_ndim idx m) /\
  range_checked (constants_info_ m) ConstInfo.shape idx (constant_shape idx m) /\
  range_checked (constants_info_ m) ConstInfo.stride idx (constant_stride idx m) /\
  range_checked (constants_info_ m) ConstInfo.dtype idx (constant_dtype idx m) /\
  range_checked (constants_info_ m) ConstInfo.layout idx (constant_layout idx m) /\
  range_checked (constants_info_ m)
    (fun info => to_size_t (ConstInfo.offset info)) idx (constant_offset idx m) /\
  range_checked (constants_info_ m) ConstInfo.data_size idx (constant_data_size idx m) /\
  range_checked (constants_info_ m) ConstInfo.original_fqn idx
    (constant_original_fqn idx m) /\
  range_checked (constants_info_ m) ConstInfo.opaque_metadata idx
    (opaque_metadata idx m) /\
  range_checked (constants_info_ m)
    (fun info => Z.of_nat (length (ConstInfo.opaque_metadata info))) idx
    (opaque_metadata_size idx m) /\
  range_checked (constants_info_ m) ConstInfo.from_folded idx
    (constant_from_folded idx m) /\
  range_checked (constants_info_ m) ConstInfo.type idx (constant_type idx m).
Proof.
  intros Hidx Hin Hout Hconst.
  repeat split_and; by apply vector_at_range_checked.
Qed.

Lemma accessors_range_checked_witness :
  constant_data_size 1
    (mk_model device_type_cpu true [mk_const "a" 8 false; mk_const "b" 5 false]
       None None) = Ok 5 /\
  constant_name (-1)
    (mk_model device_type_cpu true [mk_const "a" 8 false; mk_const "b" 5 false]
       None None) = Throw (out_of_range "vector::_M_range_check") /\
  constant_name 2
    (mk_model device_type_cpu true [mk_const "a" 8 false; mk_const "b" 5 false]
       None None) = Throw (out_of_range "vector::_M_range_check").
Proof.
  set (m := mk_model device_type_cpu true
              [mk_const "a" 8 false; mk_const "b" 5 false] None None).
  assert (Hv : forall A (v : list A), (length v <= 2)%nat -> vector_sized v).
  { intros A v Hlen. unfold vector_sized. lia. }
  assert (Hi : forall z, -1 <= z <= 2 -> int64 z).
  { intros z Hz. unfold int64. lia. }
  split; [|split].
  - destruct (accessors_range_checked m 1 (Hi 1 ltac:(lia))
                (Hv _ (inputs_info_ m) ltac:(vm_compute; lia))
                (Hv _ (outputs_info_ m) ltac:(vm_compute; lia))
                (Hv _ (constants_info_ m) ltac:(vm_compute; lia)))
      as (_ & _ & _ & _ & _ & _ & _ & _ & _ & [Hin _] & _).
    destruct Hin as (info & Hinfo & ->); [vm_compute; split; congruence|].
    vm_compute in Hinfo. injection Hinfo as <-. reflexivity.
  - destruct (accessors_range_checked m (-1) (Hi (-1) ltac:(lia))
                (Hv _ (inputs_info_ m) ltac:(vm_compute; lia))
                (Hv _ (outputs_info_ m) ltac:(vm_compute; lia))
                (Hv _ (constants_info_ m) ltac:(vm_compute; lia)))
      as (_ & _ & [_ Hout] & _).
    apply Hout. vm_compute. intros [H1 H2]; congruence.
  - destruct (accessors_range_checked m 2 (Hi 2 ltac:(lia))
                (Hv _ (inputs_info_ m) ltac:(vm_compute; lia))
                (Hv _ (outputs_info_ m) ltac:(vm_compute; lia))
                (Hv _ (constants_info_ m) ltac:(vm_compute; lia)))
      as (_ & _ & [_ Hout] & _).
    apply Hout. vm_compute. intros [H1 H2]; congruence.
Defined.

(** ** Device blob layout *)

Lemma round_up_64_bounds d :
  0 <= d -> d <= round_up_64 d < d + 64 /\ round_up_64 d mod 64 = 0.
Proof.
  intros Hd. unfold round_up_64.
  pose proof (Z.div_mod (d + 63) 64 ltac:(lia)) as Hdm.
  pose proof (Z.mod_pos_bound (d + 63) 64 ltac:(lia)) as Hb.
  split; [lia|]. apply Z.mod_mul. lia.
Qed.

Lemma round_up_64_pos d : 0 < d -> 0 < round_up_64 d.
Proof. intros Hd. pose proof (round_up_64_bounds d ltac:(lia)). lia. Qed.

Lemma align_data_size_round_up d :
  0 <= d -> round_up_64 d < size_t_modulus -> align_data_size d = round_up_64 d.
Proof.
  intros Hd Hr. unfold align_data_size, AOTI_CONST_GPU_ALIGNMENT.
  pose proof (Z.div_mod d 64 ltac:(lia)) as Hdm.
  pose proof (Z.mod_pos_bound d 64 ltac:(lia)) as Hb.
  unfold round_up_64 in *.
  destruct (Z.eqb_spec (d mod 64) 0) as [Hz|Hnz].
  - assert (Hq : (d + 63) / 64 = d / 64).
    { symmetry. apply Z.div_unique with (r := 63); lia. }
    rewrite Hq. lia.
  - assert (Hq : (d + 63) / 64 = d / 64 + 1).
    { symmetry. apply Z.div_unique with (r := d mod 64 - 1); lia. }
    rewrite Hq in *. rewrite to_size_t_small; lia.
Qed.

Lemma aligned_total_app a b :
  aligned_total (a ++ b) = aligned_total a + aligned_total b.
Proof. induction a as [|x a IH]; simpl; [reflexivity | rewrite IH; lia]. Qed.

Lemma aligned_total_nonneg infos :
  Forall (fun info => 0 <= ConstInfo.data_size info < size_t_modulus) infos ->
  0 <= aligned_total infos.
Proof.
  induction 1 as [|x l Hx _ IH]; simpl; [lia|].
  pose proof (round_up_64_bounds _ (proj1 Hx)). lia.
Qed.

Lemma aligned_total_mod infos :
  Forall (fun info => 0 <= ConstInfo.data_size info < size_t_modulus) infos ->
  aligned_total infos mod 64 = 0.
Proof.
  induction 1 as [|x l Hx _ IH]; simpl; [reflexivity|].
  pose proof (round_up_64_bounds _ (proj1 Hx)) as [_ Hm].
  rewrite Z.add_mod, Hm, IH by lia. reflexivity.
Qed.

Lemma aligned_total_take_le infos i j :
  Forall (fun info => 0 <= ConstInfo.data_size info < size_t_modulus) infos ->
  (i <= j)%nat ->
  aligned_total (take i infos) <= aligned_total (take j infos).
Proof.
  intros Hall Hij.
  replace j with (i + (j - i))%nat by lia.
  rewrite <- take_take_drop, aligned_total_app.
  assert (0 <= aligned_total (take (j - i) (drop i infos))); [|lia].
  apply aligned_total_nonneg, Forall_take, Forall_drop, Hall. 
Qed.

Lemma aligned_total_take_S infos i info :
  infos !! i = Some info ->
  aligned_total (take (S i) infos) =
  aligned_total (take i infos) + round_up_64 (ConstInfo.data_size info).
Proof.
  intros Hi. rewrite (take_S_r _ _ _ Hi), aligned_total_app. simpl. lia.
Qed.

Lemma compute_gpu_constant_blob_loop_spec m count :
  forall i blob offs,
  valid_descriptors (constants_info_ m) ->
  (i + count = length (constants_info_ m))%nat ->
  length offs = length (constants_info_ m) ->
  0 <= blob ->
  blob + aligned_total (drop i (constants_info_ m)) < size_t_modulus ->
  exists offs',
    compute_gpu_constant_blob_loop m count i blob offs =
      Ok (blob + aligned_total (drop i (constants_info_ m)), offs') /\
    length offs' = length offs /\
    (forall k, (k < i)%nat -> offs' !! k = offs !! k) /\
    (forall k, (i <= k < length offs)%nat ->
       offs' !! k =
       Some (blob + aligned_total (take (k - i) (drop i (constants_info_ m))))).
Proof.
  induction count as [|count IH]; intros i blob offs Hvalid Hlen Hoffs Hblob Hsum.
  - exists offs. rewrite drop_ge by lia. simpl.
    repeat split; [f_equal; f_equal; lia | lia..].
  - destruct Hvalid as [Hsized Hall].
    destruct (lookup_lt_is_Some_2 (constants_info_ m) i ltac:(lia)) as [info Hinfo].
    rewrite (drop_S _ _ _ Hinfo) in *. simpl in Hsum.
    assert (Hd : 0 <= ConstInfo.data_size info < size_t_modulus).
    { eapply Forall_lookup_1 in Hall; [exact Hall | exact Hinfo]. }
    pose proof (round_up_64_bounds _ (proj1 Hd)) as [Hr _].
    pose proof (aligned_total_nonneg (drop (S i) (constants_info_ m))
                  (Forall_drop _ _ _ Hall)) as Hrest.
    cbn [compute_gpu_constant_blob_loop].
    unfold constant_data_size.
    rewrite (vector_at_lookup _ _ _ Hsized Hinfo).
    cbn [mbind outcome_mbind outcome_bind].
    unfold vector_store. destruct (decide (i < length offs)%nat) as [Hi|Hi]; [|lia].
    rewrite align_data_size_round_up by lia.
    rewrite to_size_t_small by lia.
    destruct (IH (S i) (blob + round_up_64 (ConstInfo.data_size info))
                (<[i := blob]> offs)) as (offs' & Hrun & Hlen' & Hlow & Hhigh).
    + split; assumption.
    + lia.
    + rewrite length_insert. exact Hoffs.
    + lia.
    + lia.
    + exists offs'. rewrite length_insert in *. simpl.
      split; [rewrite Hrun; f_equal; f_equal; lia|].
      split; [exact Hlen'|]. split.
      * intros k Hk. rewrite Hlow by lia. apply list_lookup_insert_ne. lia.
      * intros k Hk. destruct (decide (k = i)) as [->|Hne].
        -- rewrite Hlow by lia. rewrite list_lookup_insert_eq by lia.
           rewrite Nat.sub_diag. simpl. f_equal. lia.
        -- rewrite Hhigh by lia.
           replace (k - i)%nat with (S (k - S i)) by lia. simpl. f_equal. lia.
Qed.

(** The whole layout, for descriptors whose rounded sizes do not overflow. *)
Lemma compute_gpu_constant_blob_offsets cfg m blob_size offs0 :
  use_gpu cfg = true ->
  valid_descriptors (constants_info_ m) ->
  length offs0 = length (constants_info_ m) ->
  aligned_total (constants_info_ m) < size_t_modulus ->
  exists offs,
    compute_gpu_constant_blob cfg m blob_size offs0 =
      Ok (aligned_total (constants_info_ m), offs) /\
    length offs = length (constants_info_ m) /\
    (forall i o, offs !! i = Some o ->
       o = aligned_total (take i (constants_info_ m))).
Proof.
  intros Hgpu Hvalid Hlen Hsum. unfold compute_gpu_constant_blob. rewrite Hgpu.
  destruct (compute_gpu_constant_blob_loop_spec m (length (constants_info_ m))
              0%nat 0 offs0 Hvalid ltac:(lia) Hlen ltac:(lia))
    as (offs & Hrun & Hlen' & _ & Hhigh).
  { rewrite drop_0. lia. }
  rewrite drop_0 in Hrun. simpl in Hrun.
  exists offs. split; [exact Hrun|]. split; [lia|].
  intros i o Hi. pose proof (lookup_lt_Some _ _ _ Hi) as Hlt.
  rewrite Hhigh in Hi by lia. rewrite Nat.sub_0_r, drop_0 in Hi.
  injection Hi as <-. lia.
Qed.

(** C3, as stated, fails for a constant of size zero: the constant after
    it is given the same offset. *)
Lemma compute_gpu_constant_blob_equal_offsets :
  compute_gpu_constant_blob cfg_cuda
    (mk_model device_type_cuda true [mk_const "a" 0 false; mk_const "b" 5 false]
       None None) 0 [0; 0] = Ok (64, [0; 0]) /\
  ~ (0 < 0).
Proof. split; [reflexivity | lia]. Qed.

(** In a build without [USE_CUDA] and [USE_XPU] the function is empty. *)
Lemma compute_gpu_constant_blob_cpu cfg m blob_size offs :
  use_gpu cfg = false ->
  compute_gpu_constant_blob cfg m blob_size offs = Ok (blob_size, offs).
Proof. intros H. unfold compute_gpu_constant_blob. rewrite H. reflexivity. Qed.

(** C3 (amended): in a build with [USE_CUDA] or [USE_XPU], for descriptors
    whose rounded sizes sum to less than [2^64], the layout is a function of
    the descriptors alone; the offset of each constant is the sum of the
    sizes, rounded up to the next multiple of 64, of the constants before
    it, and so a multiple of 64; the offsets never decrease in ordinal
    order, and grow strictly past every constant of non-zero size; the blob
    size is the sum of all rounded sizes. *)
Theorem compute_gpu_constant_blob_layout (cfg : Config) (m : Model)
    (blob_size : Z) (offs0 : list Z) :
  use_gpu cfg = true ->
  valid_descriptors (constants_info_ m) ->
  length offs0 = length (constants_info_ m) ->
  aligned_total (constants_info_ m) < size_t_modulus ->
  exists offs,
    compute_gpu_constant_blob cfg m blob_size offs0 =
      Ok (aligned_total (constants_info_ m), offs) /\
    length offs = length (constants_info_ m) /\
    (forall i o, offs !! i = Some o ->
       o = aligned_total (take i (constants_info_ m)) /\ o mod 64 = 0) /\
    (forall i j oi oj, (i < j)%nat ->
       offs !! i = Some oi -> offs !! j = Some oj -> oi <= oj) /\
    (forall i j oi oj info, (i < j)%nat ->
       offs !! i = Some oi -> offs !! j = Some oj ->
       constants_info_ m !! i = Some info -> ConstInfo.data_size info <> 0 ->
       oi < oj).
Proof.
  intros Hgpu Hvalid Hlen Hsum.
  destruct (compute_gpu_constant_blob_offsets cfg m blob_size offs0
              Hgpu Hvalid Hlen Hsum) as (offs & Hrun & Hlen' & Hoff).
  destruct Hvalid as [Hsized Hall].
  exists offs. split; [exact Hrun|]. split; [lia|]. split; [|split].
  - intros i o Hi. split; [by apply Hoff|].
    rewrite (Hoff _ _ Hi). apply aligned_total_mod, Forall_take, Hall.
  - intros i j oi oj Hij Hi Hj. rewrite (Hoff _ _ Hi), (Hoff _ _ Hj).
    apply aligned_total_take_le; [exact Hall | lia].
  - intros i j oi oj info Hij Hi Hj Hinfo Hnz.
    rewrite (Hoff _ _ Hi), (Hoff _ _ Hj).
    pose proof (aligned_total_take_le _ (S i) j Hall ltac:(lia)) as Hle.
    rewrite (aligned_total_take_S _ _ _ Hinfo) in Hle.
    assert (Hd : 0 <= ConstInfo.data_size info < size_t_modulus).
    { eapply Forall_lookup_1 in Hall; [exact Hall | exact Hinfo]. }
    pose proof (round_up_64_pos (ConstInfo.data_size info) ltac:(lia)). lia.
Qed.

Lemma compute_gpu_constant_blob_layout_witness :
  exists offs,
    compute_gpu_constant_blob cfg_cuda
      (mk_model device_type_cuda true
         [mk_const "a" 0 false; mk_const "b" 5 false; mk_const "c" 64 false;
          mk_const "d" 65 false] None None) 7 [9; 9; 9; 9] = Ok (256, offs) /\
    length offs = 4%nat.
Proof.
  destruct (compute_gpu_constant_blob_layout cfg_cuda
              (mk_model device_type_cuda true
                 [mk_const "a" 0 false; mk_const "b" 5 false; mk_const "c" 64 false;
                  mk_const "d" 65 false] None None) 7 [9; 9; 9; 9])
    as (offs & Hrun & Hlen & _).
  - reflexivity.
  - split; [unfold vector_sized; simpl; lia|].
    repeat constructor; simpl; unfold size_t_modulus; lia.
  - reflexivity.
  - vm_compute. reflexivity.
  - exists offs. split; [exact Hrun | exact Hlen].
Defined.

(** ** Constant registry *)

Lemma update_constants_array_loop_spec cmap infos :
  forall (idx : nat) (arr : list ConstantHandle),
  (idx + length infos <= length arr)%nat ->
  vector_sized arr ->
  exists arr',
    update_constants_array_loop cmap infos (Z.of_nat idx) arr = Ok arr' /\
    length arr' = length arr /\
    (forall k, (k < idx)%nat -> arr' !! k = arr !! k) /\
    (forall k info, infos !! k = Some info ->
       arr' !! (idx + k)%nat =
       match cmap !! ConstInfo.name info with
       | Some handle => Some (Some handle)
       | None => arr !! (idx + k)%nat
       end).
Proof.
  induction infos as [|info infos IH]; intros idx arr Hlen Hsized.
  - exists arr. simpl. split; [reflexivity|]. split; [reflexivity|].
    split; [reflexivity | discriminate].
  - simpl in Hlen. cbn [update_constants_array_loop].
    set (arr1 := match cmap !! ConstInfo.name info with
                 | Some handle => <[idx := Some handle]> arr
                 | None => arr
                 end).
    assert (Hstep : match cmap !! ConstInfo.name info with
                    | Some handle => vector_at_assign arr (Z.of_nat idx) (Some handle)
                    | None => Ok arr
                    end = Ok arr1).
    { subst arr1. destruct (cmap !! ConstInfo.name info); [|reflexivity].
      unfold vector_at_assign. unfold vector_sized in Hsized.
      rewrite to_size_t_small by (unfold size_t_modulus; lia).
      destruct (Z.leb_spec (Z.of_nat (length arr)) (Z.of_nat idx)); [lia|].
      rewrite Nat2Z.id. reflexivity. }
    rewrite Hstep. cbn [mbind outcome_mbind outcome_bind].
    assert (Hlen1 : length arr1 = length arr).
    { subst arr1. destruct (cmap !! ConstInfo.name info);
        [apply length_insert | reflexivity]. }
    destruct (IH (S idx) arr1) as (arr' & Hrun & Hlen' & Hlow & Hhigh).
    + rewrite Hlen1. lia.
    + unfold vector_sized in *. rewrite Hlen1. exact Hsized.
    + exists arr'. replace (Z.of_nat idx + 1) with (Z.of_nat (S idx)) by lia.
      split; [exact Hrun|]. split; [lia|]. split.
      * intros k Hk. rewrite Hlow by lia. subst arr1.
        destruct (cmap !! ConstInfo.name info); [|reflexivity].
        apply list_lookup_insert_ne. lia.
      * intros [|k] info' Hk; simpl in Hk.
        -- injection Hk as <-. rewrite Nat.add_0_r, Hlow by lia. subst arr1.
           destruct (cmap !! ConstInfo.name info); [|reflexivity].
           apply list_lookup_insert_eq. lia.
        -- replace (idx + S k)%nat with (S idx + k)%nat by lia.
           rewrite (Hhigh _ _ Hk). destruct (cmap !! ConstInfo.name info'); [reflexivity|].
           subst arr1. destruct (cmap !! ConstInfo.name info); [|reflexivity].
           apply list_lookup_insert_ne. lia.
Qed.

Lemma update_constants_array_from_map_spec (m : Model) cmap :
  constants_map_ m = Some cmap ->
  vector_sized (constants_info_ m) ->
  exists arr,
    update_constants_array_from_map m = (Ok tt, set_constants_ (Some arr) m) /\
    length arr = length (constants_info_ m) /\
    (forall i info, constants_info_ m !! i = Some info ->
       arr !! i =
       Some (match cmap !! ConstInfo.name info with
             | Some handle => Some handle
             | None => slot_before m i
             end)).
Proof.
  intros Hmap Hsized.
  set (n := length (constants_info_ m)).
  set (arr0 := match constants_ m with
               | None => replicate n None
               | Some v => vector_resize n v
               end).
  assert (Hlen0 : length arr0 = n).
  { subst arr0. destruct (constants_ m);
      [apply length_resize | apply length_replicate]. }
  assert (Hslot : forall i, (i < n)%nat -> arr0 !! i = Some (slot_before m i)).
  { intros i Hi. subst arr0. unfold slot_before, vector_resize.
    destruct (constants_ m) as [v|].
    - destruct (decide (i < length v)%nat) as [Hv|Hv].
      + rewrite lookup_resize by lia.
        destruct (lookup_lt_is_Some_2 v i Hv) as [x ->]. reflexivity.
      + rewrite lookup_resize_new by lia.
        rewrite (lookup_ge_None_2 v i) by lia. reflexivity.
    - rewrite lookup_replicate_2 by lia. reflexivity. }
  destruct (update_constants_array_loop_spec cmap (constants_info_ m) 0 arr0)
    as (arr & Hrun & Hlen & _ & Hhigh).
  { rewrite Hlen0. subst n. lia. }
  { unfold vector_sized in *. rewrite Hlen0. exact Hsized. }
  exists arr. split; [|split].
  - unfold update_constants_array_from_map.
    cbv [mbind M_mbind M_bind gets modify lift]. rewrite Hmap.
    cbn [constants_info_ constants_ set_constants_].
    fold n. fold arr0. change (Z.of_nat 0) with 0 in Hrun. rewrite Hrun.
    reflexivity.
  - rewrite Hlen. exact Hlen0.
  - intros i info Hi. specialize (Hhigh i info Hi). simpl in Hhigh.
    rewrite Hhigh. pose proof (lookup_lt_Some _ _ _ Hi) as Hlt.
    destruct (cmap !! ConstInfo.name info); [reflexivity|].
    apply Hslot. exact Hlt.
Qed.

(** C1, as stated, fails on an instance whose array is already filled: the
    slot of the constant that the new map lacks keeps its old handle, and no
    slot is unset. *)
Lemma update_constants_map_keeps_stale_slot :
  let m0 := mk_model device_type_cpu true registry_infos None None in
  let m1 := snd (update_constants_map (Some registry_full) true m0) in
  let m2 := snd (update_constants_map (Some registry_without_b) true m1) in
  constants_ m1 = Some [Some handle_a; Some handle_b] /\
  registry_without_b !! "b" = None /\
  fst (update_constants_map (Some registry_without_b) true m1) = Ok tt /\
  constants_ m2 = Some [Some handle_a2; Some handle_b] /\
  unset_slots [Some handle_a2; Some handle_b] = 0%nat.
Proof. vm_compute. repeat split. Qed.

(** C1 (amended): after [update_constants_map] installs a map and rebuilds
    the array, the array has one slot per constant; the slot of every
    constant whose name is in the map holds the handle stored under that
    name; the slot of every constant whose name is not in the map holds
    what it held before the rebuild, and is unset when the instance had no
    array before. *)
Theorem update_constants_map_rebuilds_array (m : Model)
    (cmap : gmap string AtenTensorHandle) :
  vector_sized (constants_info_ m) ->
  exists arr,
    update_constants_map (Some cmap) true m =
      (Ok tt, set_constants_ (Some arr) (set_constants_map_ (Some cmap) m)) /\
    length arr = length (constants_info_ m) /\
    (forall i info handle, constants_info_ m !! i = Some info ->
       cmap !! ConstInfo.name info = Some handle ->
       arr !! i = Some (Some handle)) /\
    (forall i info, constants_info_ m !! i = Some info ->
       cmap !! ConstInfo.name info = None ->
       arr !! i = Some (slot_before m i) /\
       (constants_ m = None -> arr !! i = Some None)).
Proof.
  intros Hsized.
  destruct (update_constants_array_from_map_spec
              (set_constants_map_ (Some cmap) m) cmap eq_refl Hsized)
    as (arr & Hrun & Hlen & Hslots).
  exists arr. split; [|split; [exact Hlen|split]].
  - unfold update_constants_map. cbv [mbind M_mbind M_bind modify].
    rewrite Hrun. reflexivity.
  - intros i info handle Hi Hh. rewrite (Hslots i info Hi), Hh. reflexivity.
  - intros i info Hi Hh. specialize (Hslots i info Hi). rewrite Hh in Hslots.
    change (slot_before (set_constants_map_ (Some cmap) m) i)
      with (slot_before m i) in Hslots.
    split; [exact Hslots|]. intros Hnone. rewrite Hslots.
    unfold slot_before. rewrite Hnone. reflexivity.
Qed.

Lemma update_constants_map_rebuilds_array_witness :
  exists arr,
    update_constants_map (Some registry_without_b) true
      (mk_model device_type_cpu true registry_infos None None) =
      (Ok tt,
       set_constants_ (Some arr)
         (set_constants_map_ (Some registry_without_b)
            (mk_model device_type_cpu true registry_infos None None))) /\
    arr !! 0%nat = Some (Some handle_a2) /\ arr !! 1%nat = Some None.
Proof.
  destruct (update_constants_map_rebuilds_array
              (mk_model device_type_cpu true registry_infos None None)
              registry_without_b)
    as (arr & Hrun & _ & Hin & Hout).
  - unfold vector_sized. simpl. lia.
  - exists arr. split; [exact Hrun|]. split.
    + apply (Hin 0%nat (mk_const "a" 4 false)); reflexivity.
    + apply (Hout 1%nat (mk_const "b" 4 false)); reflexivity.
Defined.

(** ** Payload accessor *)

Lemma land_16383 z : 0 <= z -> Z.land z 16383 = z mod 16384.
Proof. intros Hz. change 16383 with (Z.ones 14). by rewrite Z.land_ones. Qed.

Lemma mmap_length env len off bytes :
  0 <= off -> mmap env len off = Some bytes -> Z.of_nat (length bytes) = len.
Proof.
  unfold mmap. intros Hoff.
  destruct (mmap_denied env); [discriminate|]. simpl.
  destruct (Z.leb_spec len 0); [discriminate|]. simpl.
  destruct (2 ^ 63 <=? off); [discriminate|]. simpl.
  destruct (Z.ltb_spec (Z.of_nat (length (so_file env))) (off + len));
    [discriminate|].
  intros [= <-]. rewrite length_take, length_drop.
  lia.
Qed.

(** The first call in self-map mode, step by step. *)
Lemma get_constants_start_first_call cfg env m ws magic :
  use_mmap_self cfg = true ->
  self_mmap m = None ->
  weights_size env = Some ws ->
  magic_number env = Some magic ->
  let off := weights_offset (lseek_end env) ws in
  let m1 := set_effects_ (eff_mmap ws off :: effects_ m) m in
  _get_constants_start cfg env m =
    if negb (dladdr_ok env)
    then (Throw (runtime_error "Can't find shared library name"), m)
    else if negb (0 <=? open_fd env)
    then (Throw (runtime_error "Shared library file cannot be opened"), m)
    else if negb (Z.land off 16383 =? 0)
    then (Throw (runtime_error "weights_offset must be aligned to 16K boundary"), m)
    else match mmap env ws off with
         | None => (Throw (runtime_error "mmap() failed"), m1)
         | Some bytes =>
             match read_u64 bytes (ws - 8) with
             | None => (Undefined, set_self_mmap (Some bytes) m1)
             | Some trailer =>
                 if trailer =? magic
                 then (Ok (ptr region_mmap 0), set_self_mmap (Some bytes) m1)
                 else (Throw (runtime_error "Weigths data seems corrupt"),
                       set_self_mmap (Some bytes) m1)
             end
         end.
Proof.
  intros Hcfg Hself Hws Hmagic off m1. subst off m1.
  unfold _get_constants_start. rewrite Hcfg. cbn [negb].
  cbv [mbind M_mbind M_bind gets lift modify emit mret M_mret M_ret].
  rewrite Hself, Hws, Hmagic. cbn [read_or_undefined].
  destruct (dladdr_ok env); cbn [AOTI_RUNTIME_CHECK negb]; [|reflexivity].
  destruct (0 <=? open_fd env); cbn [AOTI_RUNTIME_CHECK negb]; [|reflexivity].
  destruct (Z.land (weights_offset (lseek_end env) ws) 16383 =? 0);
    cbn [AOTI_RUNTIME_CHECK negb]; [|reflexivity].
  destruct (mmap env ws (weights_offset (lseek_end env) ws)) as [bytes|];
    [|reflexivity].
  destruct (read_u64 bytes (ws - 8)) as [trailer|]; cbn [read_or_undefined];
    [|reflexivity].
  destruct (trailer =? magic); reflexivity.
Qed.

(** Without [USE_MMAP_SELF] the payload is the linked-in symbol; with it, a
    call after the first returns the mapping already made. *)
Lemma get_constants_start_direct cfg env m :
  use_mmap_self cfg = false ->
  _get_constants_start cfg env m = (Ok (ptr region_embedded 0), m).
Proof. intros Hcfg. unfold _get_constants_start. rewrite Hcfg. reflexivity. Qed.

Lemma get_constants_start_memoized cfg env m bytes :
  use_mmap_self cfg = true ->
  self_mmap m = Some bytes ->
  _get_constants_start cfg env m = (Ok (ptr region_mmap 0), m).
Proof.
  intros Hcfg Hself. unfold _get_constants_start. rewrite Hcfg. cbn [negb].
  cbv [mbind M_mbind M_bind gets]. rewrite Hself. reflexivity.
Qed.

(** X22: in self-map mode a call on an instance that holds no mapping yet
    computes [weights_offset = file_size - payload_size] from the two header
    fields, throws unless that offset is a multiple of 16 KiB, throws unless
    the last eight bytes of the mapped payload equal the magic number of the
    header, and, when the artifact was found, opened and mapped and both
    checks pass, returns the start of a mapping of exactly [payload_size]
    bytes. *)
Theorem get_constants_start_self_map (cfg : Config) (env : Env) (m : Model)
    (ws magic : Z) :
  use_mmap_self cfg = true ->
  self_mmap m = None ->
  weights_size env = Some ws ->
  magic_number env = Some magic ->
  let off := weights_offset (lseek_end env) ws in
  (0 <= ws <= lseek_end env -> lseek_end env < 2 ^ 63 ->
     off = lseek_end env - ws) /\
  (off mod 16384 <> 0 -> throws (fst (_get_constants_start cfg env m))) /\
  (forall bytes trailer,
     mmap env ws off = Some bytes ->
     read_u64 bytes (ws - 8) = Some trailer ->
     trailer <> magic ->
     throws (fst (_get_constants_start cfg env m))) /\
  (forall bytes,
     dladdr_ok env = true -> 0 <= open_fd env ->
     off mod 16384 = 0 ->
     mmap env ws off = Some bytes ->
     read_u64 bytes (ws - 8) = Some magic ->
     _get_constants_start cfg env m =
       (Ok (ptr region_mmap 0),
        set_self_mmap (Some bytes)
          (set_effects_ (eff_mmap ws off :: effects_ m) m)) /\
     Z.of_nat (length bytes) = ws).
Proof.
  intros Hcfg Hself Hws Hmagic off.
  pose proof (to_size_t_range (lseek_end env - ws)) as Hoff.
  fold (weights_offset (lseek_end env) ws) in Hoff. fold off in Hoff.
  rewrite (get_constants_start_first_call cfg env m ws magic Hcfg Hself Hws Hmagic).
  fold off. rewrite (land_16383 off) by lia.
  split; [|split; [|split]].
  - intros Hle Hfs. subst off. unfold weights_offset. apply to_size_t_small.
    unfold size_t_modulus. lia.
  - intros Hmis.
    destruct (dladdr_ok env); cbn [negb]; [|eexists; reflexivity].
    destruct (0 <=? open_fd env); cbn [negb]; [|eexists; reflexivity].
    destruct (Z.eqb_spec (off mod 16384) 0) as [Heq|_]; [contradiction|].
    eexists; reflexivity.
  - intros bytes trailer Hmap Hread Hne. rewrite Hmap, Hread.
    destruct (dladdr_ok env); cbn [negb]; [|eexists; reflexivity].
    destruct (0 <=? open_fd env); cbn [negb]; [|eexists; reflexivity].
    destruct (off mod 16384 =? 0); cbn [negb]; [|eexists; reflexivity].
    destruct (Z.eqb_spec trailer magic) as [Heq|_]; [contradiction|].
    eexists; reflexivity.
  - intros bytes Hdl Hfd Halign Hmap Hread.
    rewrite Hdl, Hmap, Hread, Halign. cbn [negb].
    destruct (Z.leb_spec 0 (open_fd env)); [|lia]. cbn [negb].
    rewrite !Z.eqb_refl. cbn [negb].
    split; [reflexivity|]. apply (mmap_length env ws off bytes); [lia | exact Hmap].
Qed.

Lemma get_constants_start_self_map_witness :
  (exists m',
     _get_constants_start cfg_cpu_mmap (env_self_map 43981)
       (mk_model device_type_cpu true [] None None) = (Ok (ptr region_mmap 0), m') /\
     exists bytes, self_mmap m' = Some bytes /\ Z.of_nat (length bytes) = 1024) /\
  throws (fst (_get_constants_start cfg_cpu_mmap (env_self_map 0)
                 (mk_model device_type_cpu true [] None None))).
Proof.
  split.
  - destruct (get_constants_start_self_map cfg_cpu_mmap (env_self_map 43981)
                (mk_model device_type_cpu true [] None None) 1024 43981
                eq_refl eq_refl ltac:(vm_compute; reflexivity)
                ltac:(vm_compute; reflexivity))
      as (_ & _ & _ & Hok).
    destruct (Hok (replicate (Z.to_nat 1016) 0 ++ le_bytes 8 43981))
      as [Hrun Hlen].
    + reflexivity.
    + vm_compute. discriminate.
    + vm_compute. reflexivity.
    + vm_compute. reflexivity.
    + vm_compute. reflexivity.
    + eexists. split; [exact Hrun|].
      eexists. split; [reflexivity | exact Hlen].
  - destruct (get_constants_start_self_map cfg_cpu_mmap (env_self_map 0)
                (mk_model device_type_cpu true [] None None) 1024 43981
                eq_refl eq_refl ltac:(vm_compute; reflexivity)
                ltac:(vm_compute; reflexivity))
      as (_ & _ & Hbad & _).
    apply (Hbad (replicate (Z.to_nat 1016) 0 ++ le_bytes 8 0) 0).
    + vm_compute. reflexivity.
    + vm_compute. reflexivity.
    + discriminate.
Defined.

(** C5: the check of the trailing magic number does not hold for every call.
    On an artifact whose header announces 1024 bytes and the magic number
    43981 and whose payload ends in 0, the first call maps the payload,
    stores the mapping in [self_mmap] and only then throws for the corrupt
    trailer.  A second call on the same instance finds the mapping stored
    and returns its start without looking at the trailer; so does
    [load_constants]: its first call throws, a second one returns and
    leaves in the array a handle on the bytes that failed the check. *)
Theorem get_constants_start_retry_unchecked :
  let env := env_self_map 0 in
  let m := mk_model device_type_cpu true [mk_const "w" 4 false] (Some ∅) None in
  let first := _get_constants_start cfg_cpu_mmap env m in
  let second := _get_constants_start cfg_cpu_mmap env (snd first) in
  let load1 := load_constants cfg_cpu_mmap env m in
  let load2 := load_constants cfg_cpu_mmap env (snd load1) in
  magic_number env = Some 43981 /\
  fst first = Throw weights_corrupt /\
  (exists bytes, self_mmap (snd first) = Some bytes /\
                 read_u64 bytes (1024 - 8) = Some 0) /\
  second = (Ok (ptr region_mmap 0), snd first) /\
  fst load1 = Throw weights_corrupt /\
  fst load2 = Ok tt /\
  constants_ (snd load2) =
    Some [Some (tensor_for cfg_cpu_mmap m (mk_const "w" 4 false)
                  (ptr region_mmap 0))].
Proof.
  intros env m first second load1 load2.
  split; [vm_compute; reflexivity|].
  split; [vm_compute; reflexivity|].
  split.
  { exists (replicate (Z.to_nat 1016) 0 ++ le_bytes 8 0).
    split; vm_compute; reflexivity. }
  split; [vm_compute; reflexivity|].
  split; [vm_compute; reflexivity|].
  split; vm_compute; reflexivity.
Qed.

(** ** Execution lifecycle *)




(** In a CPU build nothing makes [wait_for_completion] wait for a run: on
    an instance that never ran, [is_finished] still answers [false]
    after it. *)
Lemma is_finished_false_without_run :
  let m := mk_model device_type_cpu true [] None None in
  wait_for_completion cfg_cpu m = (Ok tt, m) /\
  fst (is_finished cfg_cpu m) = Ok false.
Proof. split; reflexivity. Qed.



(** ** Constant loader *)

Lemma M_bind_Ok {A B} (c : M A) (f : A -> M B) m b m' :
  (c ≫= f) m = (Ok b, m') ->
  exists a m1, c m = (Ok a, m1) /\ f a m1 = (Ok b, m').
Proof.
  cbv [mbind M_mbind M_bind]. destruct (c m) as [[a| |] m1]; try discriminate.
  intros H. exists a, m1. split; [reflexivity | exact H].
Qed.

Lemma keeps_at_bind {A B} (R : Model -> Model -> Prop) (c : M A) (f : A -> M B) m :
  (forall x y z, R x y -> R y z -> R x z) ->
  keeps_at R c m ->
  (forall a m1, c m = (Ok a, m1) -> R m m1 -> keeps_at R (f a) m1) ->
  keeps_at R (c ≫= f) m.
Proof.
  intros Htrans Hc Hf r m'. cbv [mbind M_mbind M_bind].
  destruct (c m) as [[a| |] m1] eqn:Hcm.
  - intros Hfa. pose proof (Hc _ _ Hcm) as Hm1.
    exact (Htrans _ _ _ Hm1 (Hf a m1 eq_refl Hm1 _ _ Hfa)).
  - intros [= <- <-]. exact (Hc _ _ Hcm).
  - intros [= <- <-]. exact (Hc _ _ Hcm).
Qed.

Lemma keeps_at_pure {A} (R : Model -> Model -> Prop) (c : M A) m :
  (forall x, R x x) -> (forall x, snd (c x) = x) -> keeps_at R c m.
Proof.
  intros Hrefl Hpure r m' Hrun. pose proof (Hpure m) as Hm.
  rewrite Hrun in Hm. simpl in Hm. subst m'. apply Hrefl.
Qed.

Lemma registry_extends_refl names o : registry_extends names o o.
Proof. destruct o; simpl; [split; [reflexivity | auto] | exact I]. Qed.

Lemma registry_extends_trans names o1 o2 o3 :
  registry_extends names o1 o2 -> registry_extends names o2 o3 ->
  registry_extends names o1 o3.
Proof.
  destruct o1, o2, o3; simpl; try tauto.
  intros [Hs1 Hk1] [Hs2 Hk2]. split; [by etrans|].
  intros k Hk. rewrite Hk2, Hk1; auto.
Qed.

Lemma registry_extends_weaken names names' o1 o2 :
  (forall k, k ∈ names -> k ∈ names') ->
  registry_extends names o1 o2 -> registry_extends names' o1 o2.
Proof.
  intros Hsub. destruct o1, o2; simpl; try tauto.
  intros [Hs Hk]. split; [exact Hs|]. intros k Hn. apply Hk. auto.
Qed.

Lemma loader_step_refl cfg names m : loader_step cfg names m m.
Proof.
  unfold loader_step. repeat split_and; try reflexivity.
  - exists []. split; [reflexivity | constructor].
  - apply registry_extends_refl.
Qed.

Lemma loader_step_trans cfg names m1 m2 m3 :
  loader_step cfg names m1 m2 -> loader_step cfg names m2 m3 ->
  loader_step cfg names m1 m3.
Proof.
  intros (H1 & H2 & H3 & H4 & H5 & H6 & (n1 & He1 & Hf1) & Hr1)
         (G1 & G2 & G3 & G4 & G5 & G6 & (n2 & He2 & Hf2) & Hr2).
  unfold loader_step. repeat split_and; try congruence.
  - exists (n2 ++ n1). split; [rewrite He2, He1; apply app_assoc|].
    apply Forall_app; auto.
  - eapply registry_extends_trans; eauto.
Qed.

Lemma loader_step_weaken cfg names names' m m' :
  (forall k, k ∈ names -> k ∈ names') ->
  loader_step cfg names m m' -> loader_step cfg names' m m'.
Proof.
  intros Hsub (H1 & H2 & H3 & H4 & H5 & H6 & He & Hr).
  unfold loader_step. repeat split_and; try assumption.
  eapply registry_extends_weaken; eauto.
Qed.

Lemma loader_step_emit cfg names e m :
  loader_effect cfg e -> loader_step cfg names m (set_effects_ (e :: effects_ m) m).
Proof.
  intros He. unfold loader_step. simpl. repeat split_and; try reflexivity.
  - exists [e]. split; [reflexivity | by constructor].
  - apply registry_extends_refl.
Qed.

Lemma loader_step_set_self_mmap cfg names v m :
  loader_step cfg names m (set_self_mmap v m).
Proof.
  unfold loader_step. simpl. repeat split_and; try reflexivity.
  - exists []. split; [reflexivity | constructor].
  - apply registry_extends_refl.
Qed.

Lemma map_emplace_extends name (handle : AtenTensorHandle)
    (cmap : gmap string AtenTensorHandle) :
  cmap ⊆ map_emplace name handle cmap /\
  (forall k, k <> name -> map_emplace name handle cmap !! k = cmap !! k) /\
  is_Some (map_emplace name handle cmap !! name) /\
  (cmap !! name = None -> map_emplace name handle cmap !! name = Some handle).
Proof.
  unfold map_emplace. destruct (cmap !! name) as [old|] eqn:Hold.
  - repeat split_and; [reflexivity | auto | rewrite Hold; eauto | discriminate].
  - repeat split_and.
    + by apply insert_subseteq.
    + intros k Hk. by apply lookup_insert_ne.
    + rewrite lookup_insert_eq. eauto.
    + intros _. apply lookup_insert_eq.
Qed.

Lemma constants_map_emplace_keeps cfg names name handle m :
  name ∈ names ->
  keeps_at (loader_step cfg names) (constants_map_emplace name handle) m.
Proof.
  intros Hin r m'. unfold constants_map_emplace.
  cbv [mbind M_mbind M_bind gets lift modify].
  destruct (constants_map_ m) as [cmap|] eqn:Hmap; intros [= <- <-].
  - unfold loader_step. simpl. repeat split_and; try reflexivity.
    + exists []. split; [reflexivity | constructor].
    + rewrite Hmap. simpl.
      destruct (map_emplace_extends name handle cmap) as (Hsub & Hother & _).
      split; [exact Hsub|]. intros k Hk. apply Hother. intros ->. contradiction.
  - apply loader_step_refl.
Qed.

Lemma get_constants_start_keeps cfg env names m :
  keeps_at (loader_step cfg names) (_get_constants_start cfg env) m.
Proof.
  intros r m'. unfold _get_constants_start.
  destruct (use_mmap_self cfg) eqn:Hcfg; cbn [negb];
    [|intros [= <- <-]; apply loader_step_refl].
  cbv [mbind M_mbind M_bind gets lift modify emit mret M_mret M_ret].
  destruct (self_mmap m); [intros [= <- <-]; apply loader_step_refl|].
  destruct (AOTI_RUNTIME_CHECK (dladdr_ok env) _);
    [|intros [= <- <-]; apply loader_step_refl..].
  destruct (AOTI_RUNTIME_CHECK (0 <=? open_fd env) _);
    [|intros [= <- <-]; apply loader_step_refl..].
  destruct (read_or_undefined (weights_size env)) as [ws| |];
    [|intros [= <- <-]; apply loader_step_refl..].
  destruct (read_or_undefined (magic_number env)) as [magic| |];
    [|intros [= <- <-]; apply loader_step_refl..].
  destruct (AOTI_RUNTIME_CHECK (Z.land _ 16383 =? 0) _);
    [|intros [= <- <-]; apply loader_step_refl..].
  assert (Hemit : loader_step cfg names m
            (set_effects_ (eff_mmap ws (weights_offset (lseek_end env) ws)
                           :: effects_ m) m))
    by (apply loader_step_emit; exact Hcfg).
  destruct (mmap env ws _) as [bytes|]; [|intros [= <- <-]; exact Hemit].
  assert (Hmapped : loader_step cfg names m
            (set_self_mmap (Some bytes)
               (set_effects_ (eff_mmap ws (weights_offset (lseek_end env) ws)
                              :: effects_ m) m))).
  { eapply loader_step_trans; [exact Hemit | apply loader_step_set_self_mmap]. }
  destruct (read_or_undefined (read_u64 bytes (ws - 8))) as [trailer| |];
    [|intros [= <- <-]; exact Hmapped..].
  destruct (AOTI_RUNTIME_CHECK (trailer =? magic) _);
    intros [= <- <-]; exact Hmapped.
Qed.

Lemma get_constants_start_Ok cfg env m start m' :
  _get_constants_start cfg env m = (Ok start, m') ->
  start = (if use_mmap_self cfg then ptr region_mmap 0 else ptr region_embedded 0).
Proof.
  unfold _get_constants_start.
  destruct (use_mmap_self cfg) eqn:Hcfg; cbn [negb]; [|by intros [= <- _]].
  cbv [mbind M_mbind M_bind gets lift modify emit mret M_mret M_ret].
  destruct (self_mmap m); [by intros [= <- _]|].
  destruct (AOTI_RUNTIME_CHECK (dladdr_ok env) _); try discriminate.
  destruct (AOTI_RUNTIME_CHECK (0 <=? open_fd env) _); try discriminate.
  destruct (read_or_undefined (weights_size env)) as [ws| |]; try discriminate.
  destruct (read_or_undefined (magic_number env)) as [magic| |]; try discriminate.
  destruct (AOTI_RUNTIME_CHECK (Z.land _ 16383 =? 0) _); try discriminate.
  destruct (mmap env ws _) as [bytes|]; try discriminate.
  destruct (read_or_undefined (read_u64 bytes (ws - 8))) as [trailer| |];
    try discriminate.
  destruct (AOTI_RUNTIME_CHECK (trailer =? magic) _); try discriminate.
  by intros [= <- _].
Qed.

Ltac keeps_pure :=
  apply keeps_at_pure; [intros; apply loader_step_refl | intros; reflexivity].

Ltac keeps_bind :=
  apply keeps_at_bind; [intros ? ? ?; apply loader_step_trans | |].

Lemma emit_keeps cfg names e m :
  loader_effect cfg e -> keeps_at (loader_step cfg names) (emit e) m.
Proof. intros He r m' [= <- <-]. by apply loader_step_emit. Qed.

Lemma constant_ptr_keeps cfg env names constant_offset bytes_read data_size skip m :
  keeps_at (loader_step cfg names)
    (constant_ptr cfg env constant_offset bytes_read data_size skip) m.
Proof.
  unfold constant_ptr. destruct (use_gpu cfg) eqn:Hgpu.
  - keeps_bind; [keeps_pure|]. intros blob m1 _ _.
    keeps_bind; [keeps_pure|]. intros internal_ptr m2 _ _.
    keeps_bind; [|intros; keeps_pure].
    destruct skip; cbn [negb]; [keeps_pure|].
    keeps_bind; [apply get_constants_start_keeps|]. intros start m3 _ _.
    keeps_bind; [keeps_pure|]. intros src m4 _ _.
    keeps_bind; [apply emit_keeps; exact Hgpu|]. intros; keeps_pure.
  - keeps_bind; [keeps_pure|]. intros _ m1 _ _.
    keeps_bind; [apply get_constants_start_keeps|]. intros; keeps_pure.
Qed.

Lemma create_tensor_from_blob_keeps cfg env names p ndim size stride offset dtype
    layout opaque opaque_size m :
  keeps_at (loader_step cfg names)
    (create_tensor_from_blob cfg env p ndim size stride offset dtype layout
       opaque opaque_size) m.
Proof.
  unfold create_tensor_from_blob.
  keeps_bind; [keeps_pure|]. intros device_type m1 _ _.
  keeps_bind; [keeps_pure|]. intros device_idx m2 _ _.
  destruct (use_create_tensor_v1 cfg).
  - keeps_bind; [keeps_pure|]. intros _ m3 _ _.
    keeps_bind; [apply emit_keeps; exact I|]. intros _ m4 _ _.
    keeps_bind; [keeps_pure|]. intros; keeps_pure.
  - keeps_bind; [apply emit_keeps; exact I|]. intros _ m4 _ _.
    keeps_bind; [keeps_pure|]. intros; keeps_pure.
Qed.

Lemma call_Ok {A} (f : Model -> outcome A) m a m1 :
  call f m = (Ok a, m1) -> f m = Ok a /\ m1 = m.
Proof. unfold call. intros [= -> <-]. auto. Qed.

Lemma load_constants_body_keeps cfg env names offs i b m info :
  vector_sized (constants_info_ m) ->
  constants_info_ m !! i = Some info ->
  (skipped cfg info = false -> ConstInfo.name info ∈ names) ->
  keeps_at (loader_step cfg names) (load_constants_body cfg env offs i b) m.
Proof.
  intros Hsized Hinfo Hname. unfold load_constants_body.
  keeps_bind; [keeps_pure|]. intros from_folded m1 Hcall _.
  apply call_Ok in Hcall as [Hff ->]. unfold constant_from_folded in Hff.
  rewrite (vector_at_lookup _ _ _ Hsized Hinfo) in Hff. injection Hff as <-.
  fold (skipped cfg info). destruct (skipped cfg info) eqn:Hskip; [keeps_pure|].
  keeps_bind; [keeps_pure|]. intros name m1 Hcall _.
  apply call_Ok in Hcall as [Hn ->]. unfold constant_name in Hn.
  rewrite (vector_at_lookup _ _ _ Hsized Hinfo) in Hn. injection Hn as <-.
  keeps_bind; [keeps_pure|]. intros data_size m1 _ _.
  keeps_bind.
  { destruct (negb (data_size =? 0)); [|keeps_pure].
    keeps_bind; [keeps_pure|]. intros; apply constant_ptr_keeps. }
  intros internal_ptr m2 _ _.
  do 8 (keeps_bind; [keeps_pure|]; intros ? ? _ _).
  keeps_bind; [apply create_tensor_from_blob_keeps|]. intros handle ? _ _.
  keeps_bind; [apply constants_map_emplace_keeps; auto|]. intros; keeps_pure.
Qed.

Lemma M_bind_run {A B} (c : M A) (f : A -> M B) m a m1 :
  c m = (Ok a, m1) -> (c ≫= f) m = f a m1.
Proof. intros H. cbv [mbind M_mbind M_bind]. rewrite H. reflexivity. Qed.

Ltac run_call Hat :=
  erewrite M_bind_run
    by (unfold call, constant_from_folded, constant_name, constant_data_size,
          constant_dtype, constant_ndim, constant_shape, constant_stride,
          constant_offset, constant_layout, opaque_metadata,
          opaque_metadata_size;
        rewrite Hat; reflexivity);
  cbv beta.

(** The loop body from the point where the data pointer [p] is known. *)
Lemma load_constants_body_run cfg env offs i b m info p m1 :
  vector_sized (constants_info_ m) ->
  constants_info_ m !! i = Some info ->
  skipped cfg info = false ->
  (if negb (ConstInfo.data_size info =? 0)
   then constant_offset ← lift (read_or_undefined (offs !! i));
        constant_ptr cfg env constant_offset b (ConstInfo.data_size info)
          (ConstInfo.from_folded info)
   else mret nullptr) m = (Ok p, m1) ->
  load_constants_body cfg env offs i b m =
    let h := tensor_for cfg m info p in
    let m2 := set_effects_ (eff_create_tensor h :: effects_ m1) m1 in
    if use_create_tensor_v1 cfg
       && negb (Z.of_nat (length (ConstInfo.opaque_metadata info)) =? 0)
    then (Throw expect_no_opaque_metadata, m1)
    else if create_tensor_status env h =? 0
    then match constants_map_ m1 with
         | Some cmap =>
             (Ok (to_size_t (b + ConstInfo.data_size info)),
              set_constants_map_
                (Some (map_emplace (ConstInfo.name info) h cmap)) m2)
         | None => (Undefined, m2)
         end
    else (Throw torch_error, m2).
Proof.
  intros Hsized Hinfo Hskip Hptr.
  assert (Hstep : loader_step cfg [] m m1).
  { revert Hptr. generalize (Ok p) as r. intros r Hptr. revert r m1 Hptr.
    change (keeps_at (loader_step cfg [])
              (if negb (ConstInfo.data_size info =? 0)
               then constant_offset ← lift (read_or_undefined (offs !! i));
                    constant_ptr cfg env constant_offset b
                      (ConstInfo.data_size info) (ConstInfo.from_folded info)
               else mret nullptr) m).
    destruct (negb (ConstInfo.data_size info =? 0)); [|keeps_pure].
    keeps_bind; [keeps_pure|]. intros; apply constant_ptr_keeps. }
  destruct Hstep as (Hinfos & Hty & Hidx & _).
  assert (Hat : vector_at (constants_info_ m) (Z.of_nat i) = Ok info)
    by exact (vector_at_lookup _ _ _ Hsized Hinfo).
  assert (Hat1 : vector_at (constants_info_ m1) (Z.of_nat i) = Ok info)
    by (rewrite Hinfos; exact Hat).
  unfold skipped in Hskip. unfold load_constants_body.
  run_call Hat. rewrite Hskip.
  do 2 run_call Hat.
  erewrite M_bind_run by exact Hptr. cbv beta.
  do 8 run_call Hat1.
  unfold create_tensor_from_blob, constants_map_emplace, tensor_for,
    expect_no_opaque_metadata.
  cbv [mbind M_mbind M_bind gets lift modify emit mret M_mret M_ret].
  rewrite Hty, Hidx.
  destruct (use_create_tensor_v1 cfg); cbn [andb].
  - destruct (Z.of_nat (length (ConstInfo.opaque_metadata info)) =? 0);
      cbn [negb AOTI_RUNTIME_CHECK]; [|reflexivity].
    match goal with
    | |- context [AOTI_TORCH_ERROR_CODE_CHECK (create_tensor_status env ?h)] =>
        unfold AOTI_TORCH_ERROR_CODE_CHECK;
        destruct (create_tensor_status env h =? 0)
    end; [|reflexivity].
    cbn [constants_map_ set_effects_].
    destruct (constants_map_ m1); reflexivity.
  - match goal with
    | |- context [AOTI_TORCH_ERROR_CODE_CHECK (create_tensor_status env ?h)] =>
        unfold AOTI_TORCH_ERROR_CODE_CHECK;
        destruct (create_tensor_status env h =? 0)
    end; [|reflexivity].
    cbn [constants_map_ set_effects_].
    destruct (constants_map_ m1); reflexivity.
Qed.

Lemma load_constants_body_skipped cfg env offs i b m info :
  vector_sized (constants_info_ m) ->
  constants_info_ m !! i = Some info ->
  skipped cfg info = true ->
  load_constants_body cfg env offs i b m = (Ok b, m).
Proof.
  intros Hsized Hinfo Hskip.
  assert (Hat : vector_at (constants_info_ m) (Z.of_nat i) = Ok info)
    by exact (vector_at_lookup _ _ _ Hsized Hinfo).
  unfold skipped in Hskip. unfold load_constants_body.
  run_call Hat. rewrite Hskip. reflexivity.
Qed.

Lemma load_constants_body_Ok_ptr cfg env offs i b m info b1 m' :
  vector_sized (constants_info_ m) ->
  constants_info_ m !! i = Some info ->
  skipped cfg info = false ->
  load_constants_body cfg env offs i b m = (Ok b1, m') ->
  exists p mp,
    (if negb (ConstInfo.data_size info =? 0)
     then constant_offset ← lift (read_or_undefined (offs !! i));
          constant_ptr cfg env constant_offset b (ConstInfo.data_size info)
            (ConstInfo.from_folded info)
     else mret nullptr) m = (Ok p, mp).
Proof.
  intros Hsized Hinfo Hskip.
  assert (Hat : vector_at (constants_info_ m) (Z.of_nat i) = Ok info)
    by exact (vector_at_lookup _ _ _ Hsized Hinfo).
  unfold skipped in Hskip. unfold load_constants_body.
  run_call Hat. rewrite Hskip. do 2 run_call Hat.
  intros Hrun. apply M_bind_Ok in Hrun as (p & mp & Hptr & _).
  exists p, mp. exact Hptr.
Qed.

Lemma constant_ptr_Ok cfg env off b d skip m p m1 :
  constant_ptr cfg env off b d skip m = (Ok p, m1) ->
  if use_gpu cfg then
    ptr_add (blob_pointer m) off = Ok p /\
    (if skip then m1 = m
     else exists m0, loader_step cfg [] m m0 /\
            m1 = set_effects_
                   (eff_memcpy p (ptr (payload_region cfg) b) d :: effects_ m0) m0)
  else skip = false /\ p = ptr (payload_region cfg) b.
Proof.
  unfold constant_ptr, blob_pointer, payload_region.
  destruct (use_gpu cfg) eqn:Hgpu.
  - intros Hrun.
    apply M_bind_Ok in Hrun as (blob & ma & [= <- <-] & Hrun).
    apply M_bind_Ok in Hrun as (ip & mb & Hadd & Hrun).
    unfold lift in Hadd. injection Hadd as Hadd <-.
    apply M_bind_Ok in Hrun as ([] & mc & Hcopy & [= <- <-]).
    split; [exact Hadd|].
    destruct skip; cbn [negb] in Hcopy; [by injection Hcopy as <-|].
    apply M_bind_Ok in Hcopy as (start & m0 & Hstart & Hcopy).
    pose proof (get_constants_start_keeps cfg env [] m _ _ Hstart) as Hstep.
    apply get_constants_start_Ok in Hstart. subst start.
    apply M_bind_Ok in Hcopy as (src & md & Hsrc & Hcopy).
    unfold lift in Hsrc. injection Hsrc as Hsrc <-.
    apply M_bind_Ok in Hcopy as ([] & me & [= <-] & Hcopy).
    unfold lift in Hcopy. injection Hcopy as _ <-.
    exists m0. split; [exact Hstep|].
    destruct (use_mmap_self cfg); simpl in Hsrc; injection Hsrc as <-; reflexivity.
  - intros Hrun.
    apply M_bind_Ok in Hrun as ([] & ma & Hchk & Hrun).
    unfold lift in Hchk. injection Hchk as Hchk <-.
    apply M_bind_Ok in Hrun as (start & m0 & Hstart & Hadd).
    apply get_constants_start_Ok in Hstart. subst start.
    unfold lift in Hadd. injection Hadd as Hadd <-.
    split; [destruct skip; [discriminate | reflexivity]|].
    destruct (use_mmap_self cfg); simpl in Hadd; injection Hadd as <-; reflexivity.
Qed.

Lemma load_constants_body_cursor cfg env offs i b m info b1 m' :
  vector_sized (constants_info_ m) ->
  constants_info_ m !! i = Some info ->
  load_constants_body cfg env offs i b m = (Ok b1, m') ->
  b1 = if skipped cfg info then b else to_size_t (b + ConstInfo.data_size info).
Proof.
  intros Hsized Hinfo Hrun. destruct (skipped cfg info) eqn:Hskip.
  - rewrite (load_constants_body_skipped _ _ _ _ _ _ _ Hsized Hinfo Hskip) in Hrun.
    by injection Hrun as <- _.
  - destruct (load_constants_body_Ok_ptr _ _ _ _ _ _ _ _ _ Hsized Hinfo Hskip Hrun)
      as (p & mp & Hptr).
    rewrite (load_constants_body_run _ _ _ _ _ _ _ _ _ Hsized Hinfo Hskip Hptr)
      in Hrun.
    cbv zeta in Hrun.
    repeat match type of Hrun with
           | (if ?c then _ else _) = _ => destruct c
           | match ?c with _ => _ end = _ => destruct c
           end; try discriminate.
    by injection Hrun as <- _.
Qed.

Lemma loaded_names_cons cfg info infos :
  loaded_names cfg (info :: infos) =
  (if skipped cfg info then [] else [ConstInfo.name info]) ++ loaded_names cfg infos.
Proof.
  unfold loaded_names. rewrite filter_cons.
  destruct (decide (skipped cfg info = false)) as [Hs|Hs].
  - rewrite Hs. reflexivity.
  - destruct (skipped cfg info); [reflexivity | congruence].
Qed.

Lemma to_size_t_add_l a b : to_size_t (to_size_t a + b) = to_size_t (a + b).
Proof. unfold to_size_t. apply Zplus_mod_idemp_l. Qed.

Lemma load_constants_loop_spec cfg env offs count :
  forall i b m r m',
  vector_sized (constants_info_ m) ->
  (i + count <= length (constants_info_ m))%nat ->
  0 <= b < size_t_modulus ->
  load_constants_loop cfg env offs count i b m = (r, m') ->
  loader_step cfg (loaded_names cfg (take count (drop i (constants_info_ m)))) m m' /\
  (forall b', r = Ok b' ->
     b' = to_size_t (b + read_cursor cfg (take count (drop i (constants_info_ m))))).
Proof.
  induction count as [|count IH]; intros i b m r m' Hsized Hlen Hb.
  - simpl. intros [= <- <-]. split; [apply loader_step_refl|].
    intros b' [= <-]. rewrite Z.add_0_r. symmetry. by apply to_size_t_small.
  - destruct (lookup_lt_is_Some_2 (constants_info_ m) i ltac:(lia)) as [info Hinfo].
    rewrite (drop_S _ _ _ Hinfo). cbn [take read_cursor].
    rewrite loaded_names_cons. cbn [load_constants_loop].
    cbv [mbind M_mbind M_bind].
    destruct (load_constants_body cfg env offs i b m) as [r1 m1] eqn:Hbody.
    assert (Hstep1 : loader_step cfg
              ((if skipped cfg info then [] else [ConstInfo.name info])
               ++ loaded_names cfg (take count (drop (S i) (constants_info_ m))))
              m m1).
    { eapply (load_constants_body_keeps cfg env _ offs i b m info Hsized Hinfo);
        [|exact Hbody].
      intros ->. apply elem_of_app. left. by apply list_elem_of_singleton. }
    destruct r1 as [b1| |]; [|intros [= <- <-]; split; [exact Hstep1 | discriminate]..].
    pose proof (load_constants_body_cursor _ _ _ _ _ _ _ _ _ Hsized Hinfo Hbody)
      as Hb1.
    pose proof Hstep1 as (Hinfos & _).
    intros Hloop. destruct (IH (S i) b1 m1 r m') as [Hstep2 Hcur].
    + rewrite Hinfos. exact Hsized.
    + rewrite Hinfos. lia.
    + rewrite Hb1. destruct (skipped cfg info); [exact Hb | apply to_size_t_range].
    + exact Hloop.
    + rewrite Hinfos in Hstep2, Hcur. split.
      * eapply loader_step_trans; [exact Hstep1|].
        eapply loader_step_weaken; [|exact Hstep2].
        intros k Hk. apply elem_of_app. right. exact Hk.
      * intros b' Hr. rewrite (Hcur b' Hr), Hb1.
        destruct (skipped cfg info).
        -- f_equal; lia.
        -- rewrite to_size_t_add_l. f_equal; lia.
Qed.

(** The loop run for [c1 + c2] iterations is the loop run for [c1]
    iterations and then for [c2] more. *)
Lemma load_constants_loop_app cfg env offs c1 c2 :
  forall i b m,
  load_constants_loop cfg env offs (c1 + c2) i b m =
  (b1 ← load_constants_loop cfg env offs c1 i b;
   load_constants_loop cfg env offs c2 (i + c1) b1) m.
Proof.
  induction c1 as [|c1 IH]; intros i b m.
  - simpl. rewrite Nat.add_0_r. reflexivity.
  - cbn [Nat.add load_constants_loop]. cbv [mbind M_mbind M_bind].
    destruct (load_constants_body cfg env offs i b m) as [[b1| |] m1];
      [|reflexivity..].
    rewrite IH. cbv [mbind M_mbind M_bind].
    replace (S i + c1)%nat with (i + S c1)%nat by lia. reflexivity.
Qed.

(** The body at a constant of size 0, for a tensor ABI that grants the
    handle. *)
Lemma load_constants_body_zero_size_run cfg env offs i b m info cmap :
  vector_sized (constants_info_ m) ->
  constants_info_ m !! i = Some info ->
  ConstInfo.data_size info = 0 ->
  skipped cfg info = false ->
  constants_map_ m = Some cmap ->
  0 <= b < size_t_modulus ->
  (use_create_tensor_v1 cfg = true -> ConstInfo.opaque_metadata info = []) ->
  create_tensor_status env (tensor_for cfg m info nullptr) = 0 ->
  load_constants_body cfg env offs i b m =
    (Ok b,
     set_constants_map_
       (Some (map_emplace (ConstInfo.name info)
                (tensor_for cfg m info nullptr) cmap))
       (set_effects_
          (eff_create_tensor (tensor_for cfg m info nullptr) :: effects_ m) m)).
Proof.
  intros Hsized Hinfo Hzero Hskip Hmap Hb Hv1 Hcreate.
  rewrite (load_constants_body_run cfg env offs i b m info nullptr m
             Hsized Hinfo Hskip)
    by (rewrite Hzero; reflexivity).
  cbv zeta. rewrite Hcreate, Hmap, Hzero, Z.add_0_r.
  rewrite (to_size_t_small b Hb). simpl.
  destruct (use_create_tensor_v1 cfg); [|reflexivity].
  rewrite (Hv1 eq_refl). reflexivity.
Qed.

(** The body at a constant of size 0, when it returns. *)
Lemma load_constants_body_zero_size_Ok cfg env offs i b m info b1 m1 :
  vector_sized (constants_info_ m) ->
  constants_info_ m !! i = Some info ->
  ConstInfo.data_size info = 0 ->
  skipped cfg info = false ->
  0 <= b < size_t_modulus ->
  load_constants_body cfg env offs i b m = (Ok b1, m1) ->
  b1 = b /\
  exists cmap,
    constants_map_ m = Some cmap /\
    m1 = set_constants_map_
           (Some (map_emplace (ConstInfo.name info)
                    (tensor_for cfg m info nullptr) cmap))
           (set_effects_
              (eff_create_tensor (tensor_for cfg m info nullptr) :: effects_ m) m).
Proof.
  intros Hsized Hinfo Hzero Hskip Hb.
  rewrite (load_constants_body_run cfg env offs i b m info nullptr m
             Hsized Hinfo Hskip)
    by (rewrite Hzero; reflexivity).
  cbv zeta. rewrite Hzero, Z.add_0_r, (to_size_t_small b Hb).
  destruct (use_create_tensor_v1 cfg && _); [discriminate|].
  destruct (create_tensor_status env _ =? 0); [|discriminate].
  cbn [constants_map_ set_effects_].
  destruct (constants_map_ m) as [cmap|]; [|discriminate].
  intros [= <- <-]. split; [reflexivity|]. exists cmap. split; reflexivity.
Qed.




Lemma update_constants_array_from_map_frame m r m' :
  update_constants_array_from_map m = (r, m') ->
  constants_info_ m' = constants_info_ m /\
  constants_map_ m' = constants_map_ m /\
  constant_blob_ m' = constant_blob_ m /\
  self_mmap m' = self_mmap m /\
  effects_ m' = effects_ m.
Proof.
  unfold update_constants_array_from_map.
  cbv [mbind M_mbind M_bind gets lift modify].
  destruct (constants_map_ m) as [cmap|] eqn:Hmap.
  - cbn [constants_info_ constants_ set_constants_].
    destruct (update_constants_array_loop _ _ _ _); intros [= <- <-]; simpl; auto.
  - intros [= <- <-]. auto.
Qed.

(** In a build without [USE_CUDA] and [USE_XPU] the part of
    [load_constants] before the loop changes nothing. *)
Lemma load_constants_cpu_build cfg env m cmap :
  use_gpu cfg = false ->
  constants_map_ m = Some cmap ->
  load_constants cfg env m =
    if include_weights m then
      (_ ← load_constants_loop cfg env
             (replicate (length (constants_info_ m)) 0)
             (length (constants_info_ m)) 0 0;
       cmap ← gets constants_map_;
       match cmap with
       | Some _ => update_constants_array_from_map
       | None => mret tt
       end) m
    else (Ok tt, m).
Proof.
  intros Hgpu Hmap. unfold load_constants, compute_gpu_constant_blob.
  cbv [mbind M_mbind M_bind gets lift call mret M_mret M_ret].
  rewrite Hmap, Hgpu.
  destruct (decide (device_type_ m <> device_type_cpu));
    destruct (include_weights m); reflexivity.
Qed.

(** C2, as stated, fails on its last part: for a folded constant in a CPU
    build the loop makes no registry entry at all, so none points at the
    bytes of the constant; its slot of the array stays unset. *)
Lemma load_constants_folded_has_no_entry :
  let r := load_constants cfg_cpu env_ok
             (mk_model device_type_cpu true [mk_const "f" 8 true] (Some ∅) None) in
  fst r = Ok tt /\
  constants_map_ (snd r) ≫= (fun cmap => cmap !! "f") = None /\
  constants_ (snd r) = Some [None] /\
  effects_ (snd r) = [].
Proof. vm_compute. repeat split. Qed.

Lemma loaded_names_folded cfg infos info :
  use_gpu cfg = false ->
  ConstInfo.from_folded info = true ->
  (forall info', info' ∈ infos ->
     ConstInfo.name info' = ConstInfo.name info ->
     ConstInfo.from_folded info' = true) ->
  ConstInfo.name info ∉ loaded_names cfg infos.
Proof.
  intros Hgpu Hff Hsame Hin. unfold loaded_names in Hin.
  apply list_elem_of_fmap in Hin as (info' & Hname & Hin').
  apply list_elem_of_filter in Hin' as [Hskip Hin'].
  unfold skipped in Hskip. rewrite Hgpu in Hskip.
  rewrite (Hsame info' Hin' (eq_sym Hname)) in Hskip. discriminate.
Qed.

(** C2 (amended): in a build without [USE_CUDA] and [USE_XPU], the
    iteration of the loop of [load_constants] for a constant with
    [from_folded = true] does nothing: no byte is copied, nothing is
    allocated, no tensor is made, no registry entry is added and the read
    cursor stays.  Over the whole call nothing is copied or allocated, the
    registry keeps its entries, and the entry under the name of a folded
    constant (shared with folded constants only) is what it was before the
    call. *)
Theorem load_constants_cpu_folded (cfg : Config) (env : Env) (m : Model)
    (cmap : gmap string AtenTensorHandle) :
  use_gpu cfg = false ->
  vector_sized (constants_info_ m) ->
  constants_map_ m = Some cmap ->
  (forall offs i b info m1,
     constants_info_ m1 = constants_info_ m ->
     constants_info_ m !! i = Some info ->
     ConstInfo.from_folded info = true ->
     load_constants_body cfg env offs i b m1 = (Ok b, m1)) /\
  (forall r m',
     load_constants cfg env m = (r, m') ->
     constant_blob_ m' = constant_blob_ m /\
     (exists new, effects_ m' = new ++ effects_ m /\ Forall no_copy_no_alloc new) /\
     exists cmap',
       constants_map_ m' = Some cmap' /\ cmap ⊆ cmap' /\
       forall info,
         info ∈ constants_info_ m ->
         ConstInfo.from_folded info = true ->
         (forall info', info' ∈ constants_info_ m ->
            ConstInfo.name info' = ConstInfo.name info ->
            ConstInfo.from_folded info' = true) ->
         cmap' !! ConstInfo.name info = cmap !! ConstInfo.name info).
Proof.
  intros Hgpu Hsized Hmap. split.
  - intros offs i b info m1 Hinfos Hinfo Hff.
    apply (load_constants_body_skipped cfg env offs i b m1 info).
    + rewrite Hinfos. exact Hsized.
    + rewrite Hinfos. exact Hinfo.
    + unfold skipped. rewrite Hgpu, Hff. reflexivity.
  - intros r m'. rewrite (load_constants_cpu_build cfg env m cmap Hgpu Hmap).
    destruct (include_weights m).
    2: { intros [= <- <-]. split; [reflexivity|]. split.
         - exists []. split; [reflexivity | constructor].
         - exists cmap. split; [exact Hmap|]. split; [reflexivity | auto]. }
    cbv [mbind M_mbind M_bind gets].
    destruct (load_constants_loop cfg env _ _ 0 0 m) as [rl ml] eqn:Hloop.
    destruct (load_constants_loop_spec cfg env _ (length (constants_info_ m))
                0 0 m rl ml Hsized
                ltac:(lia) ltac:(unfold size_t_modulus; lia) Hloop)
      as [(Hinfos & _ & _ & _ & Hblob & _ & (new & Hnew & Hall) & Hreg) _].
    rewrite drop_0, firstn_all in Hreg. rewrite Hmap in Hreg.
    destruct (constants_map_ ml) as [cmap'|] eqn:Hmap'; [|contradiction].
    destruct Hreg as [Hsub Hother].
    assert (Hgoal :
      constant_blob_ ml = constant_blob_ m /\
      (exists new, effects_ ml = new ++ effects_ m /\ Forall no_copy_no_alloc new) /\
      exists cmap'0,
        constants_map_ ml = Some cmap'0 /\ cmap ⊆ cmap'0 /\
        forall info,
          info ∈ constants_info_ m ->
          ConstInfo.from_folded info = true ->
          (forall info', info' ∈ constants_info_ m ->
             ConstInfo.name info' = ConstInfo.name info ->
             ConstInfo.from_folded info' = true) ->
          cmap'0 !! ConstInfo.name info = cmap !! ConstInfo.name info).
    { split; [exact Hblob|]. split.
      - exists new. split; [exact Hnew|].
        eapply Forall_impl; [exact Hall|].
        intros [| | |]; simpl; auto. congruence.
      - exists cmap'. split; [exact Hmap'|]. split; [exact Hsub|].
        intros info Hin Hff Hsame. apply Hother.
        by apply loaded_names_folded. }
    destruct rl as [bl| |]; [|intros [= <- <-]; exact Hgoal..].
    intros Hrebuild.
    apply update_constants_array_from_map_frame in Hrebuild
      as (_ & Hm & Hb & _ & He).
    rewrite Hm, Hb, He. exact Hgoal.
Qed.

Lemma load_constants_cpu_folded_witness :
  let m := mk_model device_type_cpu true
             [mk_const "f" 8 true; mk_const "w" 4 false] (Some ∅) None in
  load_constants_body cfg_cpu env_ok [0; 0] 0 0 m = (Ok 0, m) /\
  constants_map_ (snd (load_constants cfg_cpu env_ok m))
    ≫= (fun cmap => cmap !! "f") = None.
Proof.
  intros m.
  destruct (load_constants_cpu_folded cfg_cpu env_ok m ∅) as [Hbody Hwhole].
  - reflexivity.
  - unfold vector_sized. simpl. lia.
  - reflexivity.
  - split.
    + apply (Hbody [0; 0] 0%nat 0 (mk_const "f" 8 true) m); reflexivity.
    + destruct (Hwhole _ _ (surjective_pairing (load_constants cfg_cpu env_ok m)))
        as (_ & _ & cmap' & Hmap' & _ & Hentry).
      rewrite Hmap'. simpl.
      pose proof (Hentry (mk_const "f" 8 true)) as He. simpl in He.
      rewrite He; [reflexivity | | reflexivity |].
      * apply list_elem_of_here.
      * intros info' Hin Hname.
        apply elem_of_cons in Hin as [->|Hin]; [reflexivity|].
        apply list_elem_of_singleton in Hin as ->. discriminate Hname.
Defined.




Lemma tensor_for_same_device cfg m m1 info p :
  device_type_ m1 = device_type_ m ->
  device_idx_ m1 = device_idx_ m ->
  tensor_for cfg m1 info p = tensor_for cfg m info p.
Proof. intros Hty Hidx. unfold tensor_for. rewrite Hty, Hidx. reflexivity. Qed.

(** In every run of the loop of [load_constants] that returns, a
    constant of declared size 0 that the CPU rule for folded constants does
    not pass over still gets a tensor handle, made on a null data pointer;
    the handle is emplaced in the registry map under the name of the
    constant (an entry already there is kept), so the name is bound when the
    loop ends; and the read cursor after the constant is the cursor before
    it. *)
Lemma load_constants_loop_zero_size (cfg : Config) (env : Env) (offs : list Z)
    (m : Model) (b : Z) (m' : Model) :
  vector_sized (constants_info_ m) ->
  load_constants_loop cfg env offs (length (constants_info_ m)) 0 0 m = (Ok b, m') ->
  forall i info,
    constants_info_ m !! i = Some info ->
    ConstInfo.data_size info = 0 ->
    skipped cfg info = false ->
    exists bi mi cmap_i,
      load_constants_loop cfg env offs i 0 0 m = (Ok bi, mi) /\
      constants_map_ mi = Some cmap_i /\
      t_data (tensor_for cfg m info nullptr) = nullptr /\
      load_constants_body cfg env offs i bi mi =
        (Ok bi,
         set_constants_map_
           (Some (map_emplace (ConstInfo.name info)
                    (tensor_for cfg m info nullptr) cmap_i))
           (set_effects_
              (eff_create_tensor (tensor_for cfg m info nullptr) :: effects_ mi)
              mi)) /\
      exists cmap',
        constants_map_ m' = Some cmap' /\
        is_Some (cmap' !! ConstInfo.name info) /\
        (cmap_i !! ConstInfo.name info = None ->
         cmap' !! ConstInfo.name info = Some (tensor_for cfg m info nullptr)).
Proof.
  intros Hsized Hloop i info Hinfo Hzero Hskip.
  pose proof (lookup_lt_Some _ _ _ Hinfo) as Hi.
  replace (length (constants_info_ m))
    with (i + S (length (constants_info_ m) - S i))%nat in Hloop by lia.
  rewrite load_constants_loop_app in Hloop.
  apply M_bind_Ok in Hloop as (bi & mi & Hprefix & Hrest).
  rewrite Nat.add_0_l in Hrest. cbn [load_constants_loop] in Hrest.
  apply M_bind_Ok in Hrest as (b1 & m1 & Hbody & Hsuffix).
  destruct (load_constants_loop_spec cfg env offs i 0 0 m (Ok bi) mi Hsized
              ltac:(lia) ltac:(unfold size_t_modulus; lia) Hprefix)
    as [(Hinfos & Hty & Hidx & _) Hcur].
  assert (Hbi : 0 <= bi < size_t_modulus).
  { rewrite (Hcur bi eq_refl). apply to_size_t_range. }
  assert (Hsized_i : vector_sized (constants_info_ mi))
    by (rewrite Hinfos; exact Hsized).
  assert (Hinfo_i : constants_info_ mi !! i = Some info)
    by (rewrite Hinfos; exact Hinfo).
  destruct (load_constants_body_zero_size_Ok cfg env offs i bi mi info b1 m1
              Hsized_i Hinfo_i Hzero Hskip Hbi Hbody)
    as (-> & cmap_i & Hmap_i & Hm1).
  rewrite (tensor_for_same_device cfg m mi info nullptr Hty Hidx) in Hm1.
  exists bi, mi, cmap_i.
  split; [exact Hprefix|]. split; [exact Hmap_i|]. split; [reflexivity|].
  split; [rewrite Hbody, Hm1; reflexivity|].
  assert (Hsized_1 : vector_sized (constants_info_ m1)).
  { rewrite Hm1. simpl. exact Hsized_i. }
  destruct (load_constants_loop_spec cfg env offs
              (length (constants_info_ m) - S i) (S i) bi m1 (Ok b) m'
              Hsized_1) as [(_ & _ & _ & _ & _ & _ & _ & Hreg) _].
  { rewrite Hm1. simpl. rewrite Hinfos. lia. }
  { exact Hbi. }
  { exact Hsuffix. }
  rewrite Hm1 in Hreg. cbn [constants_map_ set_constants_map_] in Hreg.
  destruct (constants_map_ m') as [cmap'|]; [|contradiction].
  destruct Hreg as [Hsub _].
  destruct (map_emplace_extends (ConstInfo.name info)
              (tensor_for cfg m info nullptr) cmap_i)
    as (_ & _ & [h Hh] & Hfresh).
  exists cmap'. split; [reflexivity|]. split.
  - exists h. eapply lookup_weaken; [exact Hh | exact Hsub].
  - intros Hnone. eapply lookup_weaken; [exact (Hfresh Hnone) | exact Hsub].
Qed.

Lemma load_constants_loop_zero_size_witness :
  let m := mk_model device_type_cuda true
             [mk_const "a" 8 false; mk_const "z" 0 false] (Some ∅) None in
  exists bi mi cmap_i,
    load_constants_loop cfg_cuda env_ok [0; 64] 1 0 0 m = (Ok bi, mi) /\
    constants_map_ mi = Some cmap_i /\
    fst (load_constants_body cfg_cuda env_ok [0; 64] 1 bi mi) = Ok bi.
Proof.
  intros m.
  destruct (load_constants_loop_zero_size cfg_cuda env_ok [0; 64] m 8
              (snd (load_constants_loop cfg_cuda env_ok [0; 64] 2 0 0 m)))
    with (i := 1%nat) (info := mk_const "z" 0 false)
    as (bi & mi & cmap_i & Hprefix & Hmap & _ & Hbody & _).
  - unfold vector_sized. simpl. lia.
  - vm_compute. reflexivity.
  - reflexivity.
  - reflexivity.
  - reflexivity.
  - exists bi, mi, cmap_i. split; [exact Hprefix|]. split; [exact Hmap|].
    rewrite Hbody. reflexivity.
Defined.

(** With weights, a call of [load_constants] that returns has run the loop
    over all the constants, from a state that differs from the initial one
    in the device blob and the trace only, and then rebuilt the array. *)
Lemma load_constants_runs_loop cfg env m m' :
  load_constants cfg env m = (Ok tt, m') ->
  include_weights m = true ->
  exists offs m0 b ml,
    constants_info_ m0 = constants_info_ m /\
    constants_map_ m0 = constants_map_ m /\
    constants_ m0 = constants_ m /\
    device_type_ m0 = device_type_ m /\
    device_idx_ m0 = device_idx_ m /\
    load_constants_loop cfg env offs (length (constants_info_ m)) 0 0 m0
      = (Ok b, ml) /\
    (is_Some (constants_map_ ml) ->
     update_constants_array_from_map ml = (Ok tt, m')).
Proof.
  unfold load_constants. intros Hrun Hiw.
  apply M_bind_Ok in Hrun as (n & ma & Hg & Hrun).
  unfold gets in Hg. injection Hg as <- <-.
  apply M_bind_Ok in Hrun as (cmap & mb & Hg & Hrun).
  unfold gets in Hg. injection Hg as <- <-.
  apply M_bind_Ok in Hrun as ([] & mc & Hc & Hrun).
  unfold lift in Hc. injection Hc as _ <-.
  apply M_bind_Ok in Hrun as (dt & md & Hg & Hrun).
  unfold gets in Hg. injection Hg as <- <-.
  apply M_bind_Ok in Hrun as (offs & m0 & Hprefix & Hrun).
  assert (Hframe :
    constants_info_ m0 = constants_info_ m /\
    constants_map_ m0 = constants_map_ m /\
    constants_ m0 = constants_ m /\
    device_type_ m0 = device_type_ m /\
    device_idx_ m0 = device_idx_ m /\
    include_weights m0 = include_weights m).
  { destruct (decide (device_type_ m <> device_type_cpu));
      [|injection Hprefix as _ <-; auto 10].
    apply M_bind_Ok in Hprefix as ([blob offs'] & ma & Hcall & Hprefix).
    apply call_Ok in Hcall as [_ ->].
    apply M_bind_Ok in Hprefix as ([] & mb & Halloc & Hret).
    injection Hret as _ <-.
    destruct (use_gpu cfg); [|injection Halloc as <-; auto 10].
    apply M_bind_Ok in Halloc as (id & mc & Hmalloc & Hset).
    unfold modify in Hset. injection Hset as <-.
    unfold RAII_gpuMalloc in Hmalloc.
    apply M_bind_Ok in Hmalloc as (k & md & Hg & Hmalloc).
    unfold gets in Hg. injection Hg as <- <-.
    apply M_bind_Ok in Hmalloc as ([] & me & Hemit & Hmalloc).
    unfold emit, modify in Hemit. injection Hemit as <-.
    destruct (use_cuda cfg).
    - apply M_bind_Ok in Hmalloc as ([] & mf & Hchk & Hret).
      unfold lift in Hchk. injection Hchk as _ <-.
      injection Hret as _ <-. simpl. auto 10.
    - injection Hmalloc as _ <-. simpl. auto 10. }
  destruct Hframe as (Hinfos & Hmap & Harr & Hty & Hidx & Hiw0).
  apply M_bind_Ok in Hrun as (iw & me & Hg & Hrun).
  unfold gets in Hg. injection Hg as <- <-.
  rewrite Hiw0, Hiw in Hrun. cbn [negb] in Hrun.
  apply M_bind_Ok in Hrun as (b & ml & Hloop & Hrun).
  apply M_bind_Ok in Hrun as (cmap' & mf & Hg & Hrun).
  unfold gets in Hg. injection Hg as <- <-.
  exists offs, m0, b, ml. repeat split_and; try assumption.
  intros [cm Hcm]. rewrite Hcm in Hrun. exact Hrun.
Qed.

(** * Further properties *)

(** ** Device strings *)

Lemma regex_match_kind s sm :
  device_kind (sm1 sm) ->
  (s = sm1 sm /\ sm3 sm = None) \/
  (exists ds, ds <> ""%string /\ all_digits ds = true /\
              s = (sm1 sm +:+ String ":" ds)%string /\ sm3 sm = Some ds) ->
  regex_match s = Some sm.
Proof.
  intros Hk Hs.
  assert (Halt : match_alternative (sm1 sm) s = Some sm)
    by (apply match_alternative_Some; split; [reflexivity | exact Hs]).
  unfold regex_match. destruct Hk as [Hk | [Hk | Hk]]; rewrite Hk in *.
  - rewrite Halt. reflexivity.
  - assert (Hcpu : match_alternative "cpu" s = None).
    { destruct Hs as [[-> _] | (ds & _ & _ & -> & _)]; reflexivity. }
    rewrite Hcpu, Halt. reflexivity.
  - assert (Hcpu : match_alternative "cpu" s = None).
    { destruct Hs as [[-> _] | (ds & _ & _ & -> & _)]; reflexivity. }
    assert (Hcuda : match_alternative "cuda" s = None).
    { destruct Hs as [[-> _] | (ds & _ & _ & -> & _)]; reflexivity. }
    rewrite Hcpu, Hcuda, Halt. reflexivity.
Qed.

Lemma is_digit_value c : is_digit c = true -> 0 <= digit_value c <= 9.
Proof.
  unfold is_digit, digit_value. intros H.
  apply andb_true_iff in H as [H1 H2].
  apply Z.leb_le in H1. apply Z.leb_le in H2. lia.
Qed.

Lemma decimal_value_ge ds :
  forall acc, all_digits ds = true -> 0 <= acc -> acc <= decimal_value acc ds.
Proof.
  induction ds as [|c ds IH]; intros acc Hall Hacc; simpl; [lia|].
  simpl in Hall. apply andb_true_iff in Hall as [Hc Hall].
  pose proof (is_digit_value c Hc).
  specialize (IH (10 * acc + digit_value c) Hall ltac:(lia)). lia.
Qed.

(** X1: a kind the build knows, followed by a colon and digits, parses to
    the device of that kind with the decimal value of the digits as index
    (leading zeros allowed), and throws [std::out_of_range] when the value
    does not fit an [int]; the kind alone parses with index [-1]. *)
Theorem parse_device_str_index (cfg : Config) (kind ds : string) :
  device_kind kind ->
  (kind = "xpu"%string -> use_xpu cfg = true) ->
  ds <> ""%string ->
  all_digits ds = true ->
  parse_device_str cfg kind = Ok (device_type_of kind, -1) /\
  parse_device_str cfg (kind +:+ String ":" ds) =
    (if decimal_value 0 ds <=? INT_MAX
     then Ok (device_type_of kind, decimal_value 0 ds)
     else Throw (out_of_range "stoi")).
Proof.
  intros Hk Hxpu Hne Hall.
  assert (Hty : forall s,
    (if String.eqb kind "cpu" then Ok device_type_cpu
     else if String.eqb kind "cuda" then Ok device_type_cuda
     else if use_xpu cfg && String.eqb kind "xpu" then Ok device_type_xpu
     else Throw (invalid_device s)) = Ok (device_type_of kind)).
  { intros s. unfold device_type_of.
    destruct Hk as [-> | [-> | ->]]; try reflexivity.
    rewrite (Hxpu eq_refl). reflexivity. }
  split.
  - unfold parse_device_str.
    rewrite (regex_match_kind kind {| sm1 := kind; sm3 := None |} Hk)
      by (left; split; reflexivity).
    cbn [sm1 sm3]. rewrite Hty. reflexivity.
  - unfold parse_device_str.
    rewrite (regex_match_kind _ {| sm1 := kind; sm3 := Some ds |} Hk)
      by (right; exists ds; repeat split; assumption).
    cbn [sm1 sm3]. rewrite Hty. unfold stoi.
    cbn [mbind outcome_mbind outcome_bind].
    destruct (decimal_value 0 ds <=? INT_MAX); reflexivity.
Qed.

Lemma parse_device_str_index_witness :
  parse_device_str cfg_cuda "cuda:007" = Ok (device_type_cuda, 7) /\
  parse_device_str cfg_xpu "xpu:12" = Ok (device_type_xpu, 12) /\
  parse_device_str cfg_cpu "cuda:4294967296" = Throw (out_of_range "stoi").
Proof.
  split; [|split].
  - exact (proj2 (parse_device_str_index cfg_cuda "cuda" "007"
                    ltac:(right; left; reflexivity) ltac:(discriminate)
                    ltac:(discriminate) eq_refl)).
  - exact (proj2 (parse_device_str_index cfg_xpu "xpu" "12"
                    ltac:(right; right; reflexivity) ltac:(reflexivity)
                    ltac:(discriminate) eq_refl)).
  - exact (proj2 (parse_device_str_index cfg_cpu "cuda" "4294967296"
                    ltac:(right; left; reflexivity) ltac:(discriminate)
                    ltac:(discriminate) eq_refl)).
Defined.

(** X2: whatever the string, a device that [parse_device_str] returns has
    index [-1] or an index from [0] to [INT_MAX], is of the XPU type only in
    a build with [USE_XPU], and comes from a string of the form
    [kind[:index]]. *)
Theorem parse_device_str_Ok (cfg : Config) (s : string) (ty : DeviceType)
    (idx : Z) :
  parse_device_str cfg s = Ok (ty, idx) ->
  (idx = -1 \/ 0 <= idx <= INT_MAX) /\
  (ty = device_type_xpu -> use_xpu cfg = true) /\
  device_form s.
Proof.
  unfold parse_device_str. intros Hparse.
  destruct (regex_match s) as [sm|] eqn:Hm; [|discriminate].
  assert (Hform : device_form s) by (apply regex_match_form; eauto).
  apply regex_match_Some in Hm as [_ Hs].
  cbv [mbind outcome_mbind outcome_bind] in Hparse.
  split; [|split; [|exact Hform]].
  - destruct (if String.eqb (sm1 sm) "cpu" then _ else _); try discriminate.
    destruct Hs as [[_ H3] | (ds & _ & Hall & _ & H3)]; rewrite H3 in Hparse.
    + injection Hparse as _ <-. left. reflexivity.
    + unfold stoi in Hparse.
      destruct (Z.leb_spec (decimal_value 0 ds) INT_MAX); [|discriminate].
      injection Hparse as _ <-. right.
      pose proof (decimal_value_ge ds 0 Hall ltac:(lia)). lia.
  - intros ->.
    destruct (String.eqb (sm1 sm) "cpu");
      [destruct (sm3 sm); [destruct (stoi _)|]; discriminate|].
    destruct (String.eqb (sm1 sm) "cuda");
      [destruct (sm3 sm); [destruct (stoi _)|]; discriminate|].
    destruct (use_xpu cfg); [reflexivity|].
    discriminate.
Qed.

Lemma parse_device_str_Ok_witness :
  (17 = -1 \/ 0 <= 17 <= INT_MAX) /\ device_form "cuda:17".
Proof.
  destruct (parse_device_str_Ok cfg_cpu "cuda:17" device_type_cuda 17 eq_refl)
    as (Hidx & _ & Hform).
  split; assumption.
Defined.

(** ** Constant registry *)

(** X3: [update_constants_map] installs the map it is given before
    anything can fail, so the instance holds that map whatever the outcome.
    The call returns exactly when no rebuild is asked for or the map is not
    null; otherwise it throws [std::runtime_error] and leaves the instance
    without a map, with the array it had.  It never throws a range error.
    Without a rebuild the array is left as it is. *)
Theorem update_constants_map_outcome (m : Model)
    (constants_map : option (gmap string AtenTensorHandle))
    (remap_constants_array : bool) :
  vector_sized (constants_info_ m) ->
  let r := update_constants_map constants_map remap_constants_array m in
  constants_map_ (snd r) = constants_map /\
  (fst r = Ok tt <-> remap_constants_array = false \/ is_Some constants_map) /\
  (fst r <> Ok tt ->
   exists what,
     r = (Throw (runtime_error what), set_constants_map_ None m)) /\
  (remap_constants_array = false ->
   r = (Ok tt, set_constants_map_ constants_map m)).
Proof.
  intros Hsized r. subst r. unfold update_constants_map.
  cbv [mbind M_mbind M_bind modify].
  destruct remap_constants_array; [|cbn; intuition congruence].
  destruct constants_map as [cmap|].
  - destruct (update_constants_array_from_map_spec
                (set_constants_map_ (Some cmap) m) cmap eq_refl Hsized)
      as (arr & -> & _).
    cbn [fst snd constants_map_ set_constants_ set_constants_map_].
    split; [reflexivity|]. split; [split; eauto|].
    split; [intros H; by destruct H | discriminate].
  - cbn. split; [reflexivity|]. split.
    + split; [discriminate|]. intros [H|[? H]]; discriminate.
    + split; [eauto | discriminate].
Qed.

Lemma update_constants_map_outcome_witness :
  let m := mk_model device_type_cpu true registry_infos (Some registry_full)
             (Some [Some handle_a; Some handle_b]) in
  let r := update_constants_map None true m in
  constants_map_ (snd r) = None /\
  exists what, r = (Throw (runtime_error what), set_constants_map_ None m).
Proof.
  intros m r.
  destruct (update_constants_map_outcome m None true) as (Hmap & Hok & Hthrow & _).
  - unfold vector_sized. simpl. lia.
  - split; [exact Hmap|]. apply Hthrow. intros H. apply Hok in H.
    destruct H as [H|[? H]]; discriminate.
Defined.

Lemma rebuilt_array_unique (m : Model) (cmap : gmap string AtenTensorHandle)
    (arr1 arr2 : list ConstantHandle)
    (before : nat -> ConstantHandle) :
  length arr1 = length (constants_info_ m) ->
  length arr2 = length (constants_info_ m) ->
  (forall i info, constants_info_ m !! i = Some info ->
     arr1 !! i = Some (match cmap !! ConstInfo.name info with
                       | Some handle => Some handle
                       | None => before i
                       end)) ->
  (forall i info, constants_info_ m !! i = Some info ->
     arr2 !! i = Some (match cmap !! ConstInfo.name info with
                       | Some handle => Some handle
                       | None => before i
                       end)) ->
  arr1 = arr2.
Proof.
  intros Hlen1 Hlen2 H1 H2. apply list_eq. intros i.
  destruct (constants_info_ m !! i) as [info|] eqn:Hinfo.
  - rewrite (H1 i info Hinfo), (H2 i info Hinfo). reflexivity.
  - apply lookup_ge_None in Hinfo.
    rewrite (lookup_ge_None_2 arr1), (lookup_ge_None_2 arr2) by lia.
    reflexivity.
Qed.

(** X4: rebuilding the array is idempotent: a second
    [update_constants_array_from_map] right after a first changes
    nothing. *)
Theorem update_constants_array_from_map_idempotent (m : Model)
    (cmap : gmap string AtenTensorHandle) :
  constants_map_ m = Some cmap ->
  vector_sized (constants_info_ m) ->
  exists m1,
    update_constants_array_from_map m = (Ok tt, m1) /\
    update_constants_array_from_map m1 = (Ok tt, m1).
Proof.
  intros Hmap Hsized.
  destruct (update_constants_array_from_map_spec m cmap Hmap Hsized)
    as (arr & Hrun & Hlen & Hslots).
  exists (set_constants_ (Some arr) m). split; [exact Hrun|].
  destruct (update_constants_array_from_map_spec (set_constants_ (Some arr) m)
              cmap Hmap Hsized) as (arr2 & Hrun2 & Hlen2 & Hslots2).
  rewrite Hrun2. f_equal.
  assert (Heq : arr2 = arr); [|rewrite Heq; reflexivity].
  apply (rebuilt_array_unique m cmap arr2 arr
           (fun i => default None (arr !! i)) Hlen2 Hlen).
  - exact Hslots2.
  - intros i info Hinfo. rewrite (Hslots i info Hinfo).
    destruct (cmap !! ConstInfo.name info); reflexivity.
Qed.

Lemma update_constants_array_from_map_idempotent_witness :
  exists m1,
    update_constants_array_from_map
      (mk_model device_type_cpu true registry_infos (Some registry_without_b)
         (Some [None; Some handle_b; Some handle_a])) = (Ok tt, m1) /\
    update_constants_array_from_map m1 = (Ok tt, m1).
Proof.
  apply (update_constants_array_from_map_idempotent _ registry_without_b).
  - reflexivity.
  - unfold vector_sized. simpl. lia.
Defined.

(** X5: when the installed map has an entry for the name of every
    constant, the rebuilt array is the list of those entries in ordinal
    order, whatever array the instance had before: nothing stale is left
    and no slot is unset. *)
Theorem update_constants_map_complete (m : Model)
    (cmap : gmap string AtenTensorHandle) :
  vector_sized (constants_info_ m) ->
  (forall info, info ∈ constants_info_ m -> is_Some (cmap !! ConstInfo.name info)) ->
  update_constants_map (Some cmap) true m =
    (Ok tt,
     set_constants_
       (Some ((fun info => cmap !! ConstInfo.name info) <$> constants_info_ m))
       (set_constants_map_ (Some cmap) m)) /\
  unset_slots ((fun info => cmap !! ConstInfo.name info) <$> constants_info_ m)
    = 0%nat.
Proof.
  intros Hsized Hall. split.
  - destruct (update_constants_array_from_map_spec
                (set_constants_map_ (Some cmap) m) cmap eq_refl Hsized)
      as (arr & Hrun & Hlen & Hslots).
    unfold update_constants_map. cbv [mbind M_mbind M_bind modify].
    rewrite Hrun. f_equal. f_equal. f_equal.
    apply list_eq. intros i. rewrite list_lookup_fmap.
    cbn [constants_info_ set_constants_map_] in *.
    destruct (constants_info_ m !! i) as [info|] eqn:Hinfo; simpl.
    + rewrite (Hslots i info Hinfo).
      destruct (Hall info) as [h ->]; [|reflexivity].
      eapply list_elem_of_lookup_2; exact Hinfo.
    + apply lookup_ge_None. apply lookup_ge_None in Hinfo. lia.
  - unfold unset_slots. clear Hsized. revert Hall.
    generalize (constants_info_ m) as infos.
    induction infos as [|info infos IH]; intros Hall; [reflexivity|].
    rewrite fmap_cons, filter_cons.
    destruct (Hall info) as [h Hh]; [apply list_elem_of_here|].
    rewrite Hh. destruct (decide (Some h = None)); [discriminate|].
    apply IH. intros info' Hin. apply Hall. by apply list_elem_of_further.
Qed.

Lemma update_constants_map_complete_witness :
  update_constants_map (Some registry_full) true
    (mk_model device_type_cpu true registry_infos None
       (Some [Some handle_a2; None; Some handle_a2])) =
    (Ok tt,
     set_constants_ (Some [Some handle_a; Some handle_b])
       (set_constants_map_ (Some registry_full)
          (mk_model device_type_cpu true registry_infos None
             (Some [Some handle_a2; None; Some handle_a2])))).
Proof.
  refine (proj1 (update_constants_map_complete _ registry_full _ _)).
  - unfold vector_sized. simpl. lia.
  - intros info Hin.
    apply elem_of_cons in Hin as [-> | Hin]; [by eexists|].
    apply list_elem_of_singleton in Hin as ->. by eexists.
Defined.

(** ** Device blob layout *)

Lemma aligned_total_declared infos :
  Forall (fun info => 0 <= ConstInfo.data_size info < size_t_modulus) infos ->
  declared_total infos <= aligned_total infos
  <= declared_total infos + 63 * Z.of_nat (length infos).
Proof.
  induction 1 as [|x l Hx _ IH]; simpl; [lia|].
  pose proof (round_up_64_bounds _ (proj1 Hx)) as [Hr Hm].
  assert (round_up_64 (ConstInfo.data_size x) <= ConstInfo.data_size x + 63);
    [|lia].
  pose proof (Z.div_mod (round_up_64 (ConstInfo.data_size x)) 64 ltac:(lia)).
  pose proof (Z.div_mod (ConstInfo.data_size x + 64) 64 ltac:(lia)).
  pose proof (Z.mod_pos_bound (ConstInfo.data_size x + 64) 64 ltac:(lia)).
  lia.
Qed.

(** X6: in the layout of the device blob every constant has room for its
    declared bytes: its range starts at its offset, ends at or before the
    offset of every later constant and at or before the end of the blob, so
    no two constants overlap; and the blob is at most 63 bytes per constant
    larger than the declared bytes. *)
Theorem compute_gpu_constant_blob_disjoint (cfg : Config) (m : Model)
    (blob_size : Z) (offs0 : list Z) :
  use_gpu cfg = true ->
  valid_descriptors (constants_info_ m) ->
  length offs0 = length (constants_info_ m) ->
  aligned_total (constants_info_ m) < size_t_modulus ->
  exists total offs,
    compute_gpu_constant_blob cfg m blob_size offs0 = Ok (total, offs) /\
    declared_total (constants_info_ m) <= total
      <= declared_total (constants_info_ m)
         + 63 * Z.of_nat (length (constants_info_ m)) /\
    forall i info o,
      constants_info_ m !! i = Some info ->
      offs !! i = Some o ->
      0 <= o /\
      o + ConstInfo.data_size info <= total /\
      forall j oj, (i < j)%nat -> offs !! j = Some oj ->
                   o + ConstInfo.data_size info <= oj.
Proof.
  intros Hgpu Hvalid Hlen Hsum.
  destruct (compute_gpu_constant_blob_offsets cfg m blob_size offs0
              Hgpu Hvalid Hlen Hsum) as (offs & Hrun & Hlen' & Hoff).
  destruct Hvalid as [Hsized Hall].
  exists (aligned_total (constants_info_ m)), offs.
  split; [exact Hrun|]. split; [by apply aligned_total_declared|].
  intros i info o Hinfo Ho. rewrite (Hoff _ _ Ho).
  assert (Hd : 0 <= ConstInfo.data_size info < size_t_modulus).
  { eapply Forall_lookup_1 in Hall; [exact Hall | exact Hinfo]. }
  pose proof (round_up_64_bounds _ (proj1 Hd)) as [Hr _].
  pose proof (aligned_total_take_S _ _ _ Hinfo) as HS.
  assert (Hnext : forall j, (i < j)%nat ->
            aligned_total (take i (constants_info_ m)) + ConstInfo.data_size info
            <= aligned_total (take j (constants_info_ m))).
  { intros j Hij.
    pose proof (aligned_total_take_le _ (S i) j Hall ltac:(lia)). lia. }
  split; [apply aligned_total_nonneg, Forall_take, Hall|]. split.
  - specialize (Hnext (length (constants_info_ m))
                  (lookup_lt_Some _ _ _ Hinfo)).
    rewrite firstn_all in Hnext. exact Hnext.
  - intros j oj Hij Hj. rewrite (Hoff _ _ Hj). by apply Hnext.
Qed.

Lemma compute_gpu_constant_blob_disjoint_witness :
  exists total offs,
    compute_gpu_constant_blob cfg_xpu
      (mk_model device_type_xpu true
         [mk_const "a" 65 false; mk_const "b" 0 false; mk_const "c" 7 false]
         None None) 0 [0; 0; 0] = Ok (total, offs) /\
    65 + 0 + 7 <= total <= 65 + 0 + 7 + 63 * 3.
Proof.
  destruct (compute_gpu_constant_blob_disjoint cfg_xpu
              (mk_model device_type_xpu true
                 [mk_const "a" 65 false; mk_const "b" 0 false;
                  mk_const "c" 7 false] None None) 0 [0; 0; 0])
    as (total & offs & Hrun & Hbound & _).
  - reflexivity.
  - split; [unfold vector_sized; simpl; lia|].
    repeat constructor; simpl; unfold size_t_modulus; lia.
  - reflexivity.
  - vm_compute. reflexivity.
  - exists total, offs. split; [exact Hrun | exact Hbound].
Defined.

Lemma to_size_t_mod_64 z : to_size_t z mod 64 = z mod 64.
Proof.
  unfold to_size_t, size_t_modulus.
  apply Z.mod_mod_divide. exists (2 ^ 58). reflexivity.
Qed.

Lemma align_data_size_aligned d :
  0 <= d < size_t_modulus ->
  align_data_size d mod 64 = 0 /\ 0 <= align_data_size d < size_t_modulus.
Proof.
  intros Hd. unfold align_data_size, AOTI_CONST_GPU_ALIGNMENT.
  destruct (Z.eqb_spec (d mod 64) 0) as [Hz|Hnz]; [auto|].
  split; [|apply to_size_t_range].
  rewrite to_size_t_mod_64.
  replace (64 + d / 64 * 64) with ((1 + d / 64) * 64) by lia.
  apply Z.mod_mul. lia.
Qed.

Lemma compute_gpu_constant_blob_loop_aligned m count :
  forall i blob offs,
  valid_descriptors (constants_info_ m) ->
  (i + count = length (constants_info_ m))%nat ->
  length offs = length (constants_info_ m) ->
  blob mod 64 = 0 -> 0 <= blob < size_t_modulus ->
  exists total offs',
    compute_gpu_constant_blob_loop m count i blob offs = Ok (total, offs') /\
    total mod 64 = 0 /\ 0 <= total < size_t_modulus /\
    length offs' = length offs /\
    (forall k, (k < i)%nat -> offs' !! k = offs !! k) /\
    (forall k o, (i <= k)%nat -> offs' !! k = Some o ->
       o mod 64 = 0 /\ 0 <= o < size_t_modulus).
Proof.
  induction count as [|count IH]; intros i blob offs Hvalid Hlen Hoffs Hmod Hb.
  - exists blob, offs. simpl.
    split; [reflexivity|]. split; [exact Hmod|]. split; [exact Hb|].
    split; [reflexivity|]. split; [reflexivity|].
    intros k o Hk Ho. apply lookup_lt_Some in Ho. lia.
  - pose proof Hvalid as [Hsized Hall].
    destruct (lookup_lt_is_Some_2 (constants_info_ m) i ltac:(lia)) as [info Hinfo].
    assert (Hd : 0 <= ConstInfo.data_size info < size_t_modulus).
    { eapply Forall_lookup_1 in Hall; [exact Hall | exact Hinfo]. }
    destruct (align_data_size_aligned _ Hd) as [Ha Har].
    cbn [compute_gpu_constant_blob_loop]. unfold constant_data_size.
    rewrite (vector_at_lookup _ _ _ Hsized Hinfo).
    cbn [mbind outcome_mbind outcome_bind].
    unfold vector_store. destruct (decide (i < length offs)%nat) as [Hi|Hi]; [|lia].
    destruct (IH (S i)
                (to_size_t (blob + align_data_size (ConstInfo.data_size info)))
                (<[i := blob]> offs)) as (total & offs' & Hrun & Ht & Htr & Hlen' & Hlow & Hhigh).
    + exact Hvalid.
    + lia.
    + rewrite length_insert. exact Hoffs.
    + rewrite to_size_t_mod_64, Z.add_mod, Hmod, Ha by lia. reflexivity.
    + apply to_size_t_range.
    + exists total, offs'. rewrite length_insert in Hlen'.
      split; [exact Hrun|]. split; [exact Ht|]. split; [exact Htr|].
      split; [exact Hlen'|]. split.
      * intros k Hk. rewrite Hlow by lia. apply list_lookup_insert_ne. lia.
      * intros k o Hk Ho. destruct (decide (k = i)) as [->|Hne].
        -- rewrite Hlow in Ho by lia.
           rewrite list_lookup_insert_eq in Ho by lia. injection Ho as <-. auto.
        -- apply (Hhigh k o); [lia | exact Ho].
Qed.

(** X7: in a build with [USE_CUDA] or [USE_XPU] the layout computation
    returns for all descriptors, and the blob size and every offset it
    returns are multiples of 64 that fit a [size_t], also when the running
    total wraps around. *)
Theorem compute_gpu_constant_blob_aligned (cfg : Config) (m : Model)
    (blob_size : Z) (offs0 : list Z) :
  use_gpu cfg = true ->
  valid_descriptors (constants_info_ m) ->
  length offs0 = length (constants_info_ m) ->
  exists total offs,
    compute_gpu_constant_blob cfg m blob_size offs0 = Ok (total, offs) /\
    length offs = length (constants_info_ m) /\
    total mod 64 = 0 /\ 0 <= total < size_t_modulus /\
    forall i o, offs !! i = Some o -> o mod 64 = 0 /\ 0 <= o < size_t_modulus.
Proof.
  intros Hgpu Hvalid Hlen. unfold compute_gpu_constant_blob. rewrite Hgpu.
  destruct (compute_gpu_constant_blob_loop_aligned m
              (length (constants_info_ m)) 0 0 offs0 Hvalid
              ltac:(lia) Hlen eq_refl ltac:(unfold size_t_modulus; lia))
    as (total & offs & Hrun & Ht & Htr & Hlen' & _ & Hhigh).
  exists total, offs.
  split; [exact Hrun|]. split; [lia|]. split; [exact Ht|]. split; [exact Htr|].
  intros i o Ho. apply (Hhigh i o); [lia | exact Ho].
Qed.

Lemma compute_gpu_constant_blob_aligned_witness :
  exists total offs,
    compute_gpu_constant_blob cfg_cuda
      (mk_model device_type_cuda true
         [mk_const "a" (2 ^ 64 - 1) false; mk_const "b" 100 false] None None)
      0 [0; 0] = Ok (total, offs) /\
    total mod 64 = 0.
Proof.
  destruct (compute_gpu_constant_blob_aligned cfg_cuda
              (mk_model device_type_cuda true
                 [mk_const "a" (2 ^ 64 - 1) false; mk_const "b" 100 false]
                 None None) 0 [0; 0])
    as (total & offs & Hrun & _ & Hmod & _).
  - reflexivity.
  - split; [unfold vector_sized; simpl; lia|].
    repeat constructor; simpl; unfold size_t_modulus; lia.
  - reflexivity.
  - exists total, offs. split; [exact Hrun | exact Hmod].
Defined.

(** ** Payload accessor *)

(** Every way a first call in self-map mode can end. *)
Lemma get_constants_start_outcomes cfg env m r m1 :
  use_mmap_self cfg = true ->
  self_mmap m = None ->
  _get_constants_start cfg env m = (r, m1) ->
  (is_Some (self_mmap m1) /\
   (r = Ok (ptr region_mmap 0) \/ r = Throw weights_corrupt \/ r = Undefined)) \/
  (self_mmap m1 = None /\ r <> Ok (ptr region_mmap 0) /\
   r <> Throw weights_corrupt /\
   constants_map_ m1 = constants_map_ m /\ constants_ m1 = constants_ m).
Proof.
  intros Hcfg Hself. unfold _get_constants_start. rewrite Hcfg. cbn [negb].
  cbv [mbind M_mbind M_bind gets lift modify emit mret M_mret M_ret].
  rewrite Hself. unfold AOTI_RUNTIME_CHECK, weights_corrupt.
  destruct (dladdr_ok env);
    [|intros [= <- <-]; right; repeat split; auto; discriminate].
  destruct (0 <=? open_fd env);
    [|intros [= <- <-]; right; repeat split; auto; discriminate].
  destruct (weights_size env) as [ws|]; cbn [read_or_undefined];
    [|intros [= <- <-]; right; repeat split; auto; discriminate].
  destruct (magic_number env) as [magic|]; cbn [read_or_undefined];
    [|intros [= <- <-]; right; repeat split; auto; discriminate].
  destruct (Z.land _ 16383 =? 0);
    [|intros [= <- <-]; right; repeat split; auto; discriminate].
  destruct (mmap env ws _) as [bytes|];
    [|intros [= <- <-]; right; repeat split; auto; discriminate].
  destruct (read_u64 bytes (ws - 8)) as [trailer|]; cbn [read_or_undefined].
  - destruct (trailer =? magic); intros [= <- <-]; left; simpl;
      (split; [eexists; reflexivity | auto]).
  - intros [= <- <-]. left. simpl. split; [eexists; reflexivity | auto].
Qed.

(** X8: the payload accessor is memoized: once a call has returned the
    start of the payload, every later call on that instance returns the same
    pointer and changes nothing, whatever the operating system would answer
    then. *)
Theorem get_constants_start_idempotent (cfg : Config) (env env' : Env)
    (m m1 : Model) (p : pointer) :
  _get_constants_start cfg env m = (Ok p, m1) ->
  _get_constants_start cfg env' m1 = (Ok p, m1).
Proof.
  intros Hrun. pose proof (get_constants_start_Ok _ _ _ _ _ Hrun) as Hp.
  destruct (use_mmap_self cfg) eqn:Hcfg.
  - subst p. destruct (self_mmap m) as [bytes|] eqn:Hself.
    + rewrite (get_constants_start_memoized cfg env m bytes Hcfg Hself) in Hrun.
      injection Hrun as <-.
      exact (get_constants_start_memoized cfg env' m bytes Hcfg Hself).
    + destruct (get_constants_start_outcomes cfg env m _ m1 Hcfg Hself Hrun)
        as [[[bytes Hb] _] | (_ & Hne & _)]; [|congruence].
      exact (get_constants_start_memoized cfg env' m1 bytes Hcfg Hb).
  - subst p. rewrite (get_constants_start_direct cfg env m Hcfg) in Hrun.
    injection Hrun as <-. exact (get_constants_start_direct cfg env' m Hcfg).
Qed.

Lemma get_constants_start_idempotent_witness :
  let r := _get_constants_start cfg_cpu_mmap (env_self_map 43981)
             (mk_model device_type_cpu true [] None None) in
  _get_constants_start cfg_cpu_mmap env_ok (snd r) = (Ok (ptr region_mmap 0), snd r).
Proof.
  intros r.
  apply (get_constants_start_idempotent cfg_cpu_mmap (env_self_map 43981) env_ok
           (mk_model device_type_cpu true [] None None)).
  vm_compute. reflexivity.
Defined.

(** X9: the mapping is remembered before its trailer is checked: after a
    call has thrown for a corrupt trailer, a later call on the same instance
    returns the start of that mapping without checking it again. *)
Theorem get_constants_start_after_corrupt (cfg : Config) (env env' : Env)
    (m m1 : Model) :
  use_mmap_self cfg = true ->
  self_mmap m = None ->
  _get_constants_start cfg env m = (Throw weights_corrupt, m1) ->
  is_Some (self_mmap m1) /\
  _get_constants_start cfg env' m1 = (Ok (ptr region_mmap 0), m1).
Proof.
  intros Hcfg Hself Hrun.
  destruct (get_constants_start_outcomes cfg env m _ m1 Hcfg Hself Hrun)
    as [[[bytes Hb] _] | (_ & _ & Hne & _)]; [|congruence].
  split; [eexists; exact Hb|].
  exact (get_constants_start_memoized cfg env' m1 bytes Hcfg Hb).
Qed.

Lemma get_constants_start_after_corrupt_witness :
  let r := _get_constants_start cfg_cpu_mmap (env_self_map 0)
             (mk_model device_type_cpu true [] None None) in
  fst r = Throw weights_corrupt /\
  _get_constants_start cfg_cpu_mmap (env_self_map 0) (snd r)
    = (Ok (ptr region_mmap 0), snd r).
Proof.
  intros r. split; [vm_compute; reflexivity|].
  refine (proj2 (get_constants_start_after_corrupt cfg_cpu_mmap (env_self_map 0)
                   (env_self_map 0) (mk_model device_type_cpu true [] None None)
                   (snd r) eq_refl eq_refl _)).
  vm_compute. reflexivity.
Defined.

(** X10: a first call in self-map mode that throws for any other reason
    (artifact not found or not opened, offset not aligned, mapping refused)
    leaves the instance without a mapping, so that a later call starts
    over; the registry is not touched. *)
Theorem get_constants_start_failure (cfg : Config) (env : Env) (m m1 : Model)
    (e : exception) :
  use_mmap_self cfg = true ->
  self_mmap m = None ->
  _get_constants_start cfg env m = (Throw e, m1) ->
  e <> weights_corrupt ->
  self_mmap m1 = None /\
  constants_map_ m1 = constants_map_ m /\ constants_ m1 = constants_ m.
Proof.
  intros Hcfg Hself Hrun Hne.
  destruct (get_constants_start_outcomes cfg env m _ m1 Hcfg Hself Hrun)
    as [[_ [H | [H | H]]] | (Hnone & _ & _ & Hmap & Harr)];
    try discriminate H; [congruence | auto].
Qed.

Lemma get_constants_start_failure_witness :
  self_mmap (snd (_get_constants_start cfg_cpu_mmap env_not_found
                    (mk_model device_type_cpu true [] (Some ∅) None))) = None.
Proof.
  refine (proj1 (get_constants_start_failure cfg_cpu_mmap env_not_found
                   (mk_model device_type_cpu true [] (Some ∅) None) _
                   (runtime_error "Can't find shared library name")
                   eq_refl eq_refl _ _)).
  - vm_compute. reflexivity.
  - discriminate.
Defined.

(** ** Construction and the completion signal *)

Lemma AOTInductorModelBase_Ok cfg env n_in n_out n_const device_str iw m :
  AOTInductorModelBase cfg env n_in n_out n_const device_str iw = Ok m ->
  exists ty idx,
    parse_device_str cfg device_str = Ok (ty, idx) /\
    m = {| inputs_info_ := replicate n_in default_ParamInfo;
           outputs_info_ := replicate n_out default_ParamInfo;
           constants_info_ := replicate n_const default_ConstInfo;
           constants_map_ := None; constants_ := None; constant_blob_ := None;
           self_mmap := None; include_weights := iw;
           run_finished_ := false; run_finished_event_ := None;
           device_type_ := ty;
           device_idx_ := resolved_device_idx cfg env idx;
           effects_ := [] |}.
Proof.
  unfold AOTInductorModelBase, resolved_device_idx, use_gpu, use_cuda, use_xpu.
  cbv [mbind outcome_mbind outcome_bind].
  destruct (parse_device_str cfg device_str) as [[ty idx]| |]; try discriminate.
  intros Hrun. exists ty, idx. split; [reflexivity|].
  destruct (target cfg); cbn [orb andb] in *.
  - injection Hrun as <-. reflexivity.
  - destruct (idx =? -1).
    + destruct (AOTI_RUNTIME_DEVICE_CHECK (get_device_status env));
        try discriminate. injection Hrun as <-. reflexivity.
    + destruct (AOTI_RUNTIME_DEVICE_CHECK (set_device_status env idx));
        try discriminate. injection Hrun as <-. reflexivity.
  - destruct (idx =? -1); injection Hrun as <-; reflexivity.
Qed.

(** X11: the device of a constructed instance is the device the string
    names; the index is the one in the string, and where the string gives
    none it is the current device of the driver in a CUDA or XPU build and
    stays [-1] in a CPU build.  A string that does not parse makes the
    constructor throw what [parse_device_str] throws. *)
Theorem AOTInductorModelBase_device (cfg : Config) (env : Env)
    (n_in n_out n_const : nat) (device_str : string) (iw : bool) :
  (forall m,
     AOTInductorModelBase cfg env n_in n_out n_const device_str iw = Ok m ->
     exists ty idx,
       parse_device_str cfg device_str = Ok (ty, idx) /\
       device_type_ m = ty /\
       device_idx_ m = resolved_device_idx cfg env idx /\
       (idx <> -1 -> device_idx_ m = idx) /\
       (idx = -1 -> use_gpu cfg = true -> device_idx_ m = current_device env)) /\
  (forall e,
     parse_device_str cfg device_str = Throw e ->
     AOTInductorModelBase cfg env n_in n_out n_const device_str iw = Throw e).
Proof.
  split.
  - intros m Hrun.
    apply AOTInductorModelBase_Ok in Hrun as (ty & idx & Hparse & ->).
    exists ty, idx. cbn [device_type_ device_idx_].
    split; [exact Hparse|]. split; [reflexivity|]. split; [reflexivity|].
    unfold resolved_device_idx. split.
    + intros Hne. destruct (Z.eqb_spec idx (-1)); [contradiction|].
      rewrite andb_false_r. reflexivity.
    + intros -> ->. reflexivity.
  - intros e Hparse. unfold AOTInductorModelBase. rewrite Hparse. reflexivity.
Qed.

Lemma AOTInductorModelBase_device_witness :
  AOTInductorModelBase cfg_cpu env_ok 1 1 1 "tpu:0" true
    = Throw (invalid_device "tpu:0").
Proof.
  apply (proj2 (AOTInductorModelBase_device cfg_cpu env_ok 1 1 1 "tpu:0" true)).
  reflexivity.
Defined.

(** X12: on an instance as the constructor leaves it, before any run, the
    completion signal is not armed: in a CPU build [is_finished] answers
    [false] and [wait_for_completion] returns at once; in a CUDA or XPU
    build both throw that the event was not initialized.  The instance has
    no registry map, so rebuilding the array throws as well.  None of these
    calls changes the instance. *)
Theorem fresh_instance_is_unarmed (cfg : Config) (env : Env)
    (n_in n_out n_const : nat) (device_str : string) (iw : bool) (m : Model) :
  AOTInductorModelBase cfg env n_in n_out n_const device_str iw = Ok m ->
  is_finished cfg m =
    (match target cfg with
     | TargetCPU => Ok false
     | TargetCUDA => Throw cuda_event_not_initialized
     | TargetXPU => Throw xpu_event_not_initialized
     end, m) /\
  wait_for_completion cfg m =
    (match target cfg with
     | TargetCPU => Ok tt
     | TargetCUDA | TargetXPU => Throw event_not_initialized
     end, m) /\
  get_constants_array m = (Ok None, m) /\
  exists what, update_constants_array_from_map m = (Throw (runtime_error what), m).
Proof.
  intros Hrun.
  apply AOTInductorModelBase_Ok in Hrun as (ty & idx & _ & ->).
  unfold is_finished, wait_for_completion.
  destruct (target cfg); (split; [reflexivity|]); (split; [reflexivity|]);
    (split; [reflexivity|]); eexists; reflexivity.
Qed.

Lemma fresh_instance_is_unarmed_witness :
  exists m,
    AOTInductorModelBase cfg_cuda env_ok 2 1 3 "cuda" true = Ok m /\
    is_finished cfg_cuda m = (Throw cuda_event_not_initialized, m).
Proof.
  eexists. split; [reflexivity|].
  exact (proj1 (fresh_instance_is_unarmed cfg_cuda env_ok 2 1 3 "cuda" true
                  _ eq_refl)).
Defined.

(** X13: in a build without [USE_CUDA] and [USE_XPU], after [run] or
    [run_const_fold] the answer of [is_finished] says whether that call
    returned: [true] when it returned, [false] when the generated routine
    threw. *)
Theorem is_finished_cpu_tracks_last_run (cfg : Config) (env : Env)
    (run_impl : outcome unit)
    (const_run_impl : outcome (gmap string AtenTensorHandle))
    (latency : nat) (status : Z) (m : Model) :
  target cfg = TargetCPU ->
  (let r := run cfg env run_impl latency status m in
   fst (is_finished cfg (snd r)) =
     Ok (match fst r with Ok _ => true | _ => false end) /\
   fst r = run_impl) /\
  (let r := run_const_fold cfg env const_run_impl latency status m in
   fst (is_finished cfg (snd r)) =
     Ok (match fst r with Ok _ => true | _ => false end) /\
   fst r = const_run_impl).
Proof.
  intros Hcpu.
  unfold run, run_const_fold, run_prologue, run_epilogue, is_finished.
  rewrite Hcpu. cbv [mbind M_mbind M_bind gets lift modify mret M_mret M_ret].
  split.
  - destruct run_impl as [[]| |]; split; reflexivity.
  - destruct const_run_impl as [fc| |]; split; reflexivity.
Qed.

Lemma is_finished_cpu_tracks_last_run_witness :
  let r := run cfg_cpu env_ok (Throw torch_error) 0 0
             (snd (run cfg_cpu env_ok (Ok tt) 0 0
                     (mk_model device_type_cpu true [] None None))) in
  fst (is_finished cfg_cpu (snd r)) = Ok false.
Proof.
  intros r.
  exact (proj1 (proj1 (is_finished_cpu_tracks_last_run cfg_cpu env_ok
                         (Throw torch_error) (Ok ∅) 0 0 _ eq_refl))).
Defined.

(** X14: in an XPU build the event of the previous run is given up before
    the generated routine is called, so a run in which the routine throws
    leaves the instance without an event: [is_finished] and
    [wait_for_completion] then throw that the event was not initialized,
    although runs have occurred. *)
Theorem run_xpu_throw_disarms (cfg : Config) (env : Env) (e : exception)
    (latency : nat) (status : Z) (m : Model) :
  target cfg = TargetXPU ->
  (forall ev, run_finished_event_ m = Some ev ->
              fst (event_synchronize ev) = cudaSuccess) ->
  let r := run cfg env (Throw e) latency status m in
  fst r = Throw e /\
  run_finished_event_ (snd r) = None /\
  fst (is_finished cfg (snd r)) = Throw xpu_event_not_initialized /\
  fst (wait_for_completion cfg (snd r)) = Throw event_not_initialized.
Proof.
  intros Hxpu Hprev.
  unfold run, run_prologue, run_epilogue, is_finished, wait_for_completion,
    wait_and_throw.
  rewrite Hxpu. cbv [mbind M_mbind M_bind gets lift modify mret M_mret M_ret].
  destruct (run_finished_event_ m) as [ev|] eqn:Hev.
  - specialize (Hprev ev eq_refl).
    destruct (event_synchronize ev) as [s ev']. simpl in Hprev. subst s.
    simpl. repeat split.
  - simpl. rewrite Hev. repeat split.
Qed.

Lemma run_xpu_throw_disarms_witness :
  let m1 := snd (run cfg_xpu env_ok (Ok tt) 3 0
                   (mk_model device_type_xpu true [] None None)) in
  fst (is_finished cfg_xpu m1) = Ok false /\
  fst (is_finished cfg_xpu (snd (run cfg_xpu env_ok (Throw torch_error) 0 0 m1)))
    = Throw xpu_event_not_initialized.
Proof.
  intros m1. split; [reflexivity|].
  refine (proj1 (proj2 (proj2 (run_xpu_throw_disarms cfg_xpu env_ok torch_error
                                  0 0 m1 eq_refl _)))).
  intros ev Hev. vm_compute in Hev. injection Hev as <-. reflexivity.
Defined.

(** X15: in a CUDA build the completion event is made once and kept: on an
    instance that has one, [run] does not make another (the answer of
    [cudaEventCreate] does not matter), the event is still there whatever
    the outcome, and a run in which the generated routine throws leaves the
    whole instance as it was, so that [is_finished] goes on answering for
    the run before. *)
Theorem run_cuda_keeps_event (cfg : Config) (env : Env)
    (run_impl : outcome unit) (latency : nat) (status : Z) (m : Model)
    (ev : Event) :
  target cfg = TargetCUDA ->
  run_finished_event_ m = Some ev ->
  let r := run cfg env run_impl latency status m in
  is_Some (run_finished_event_ (snd r)) /\
  (forall env', event_record_status env' = event_record_status env ->
                run cfg env' run_impl latency status m = r) /\
  (run_impl <> Ok tt -> r = (run_impl, m)) /\
  (fst r = Ok tt ->
   run_finished_event_ (snd r) = Some (event_recorded latency status)).
Proof.
  intros Hcuda Hev.
  unfold run, run_prologue, run_epilogue.
  rewrite Hcuda. cbv [mbind M_mbind M_bind gets lift modify mret M_mret M_ret].
  rewrite Hev.
  destruct run_impl as [[]| |]; simpl; rewrite ?Hev.
  - split; [|split; [|split]].
    + destruct (AOTI_RUNTIME_DEVICE_CHECK (event_record_status env));
        simpl; rewrite ?Hev; eauto.
    + intros env' ->. reflexivity.
    + congruence.
    + destruct (AOTI_RUNTIME_DEVICE_CHECK (event_record_status env)) as [[]| |];
        simpl; [reflexivity | discriminate..].
  - split; [eauto|]. split; [reflexivity|]. split; [reflexivity | discriminate].
  - split; [eauto|]. split; [reflexivity|]. split; [reflexivity | discriminate].
Qed.

Lemma run_cuda_keeps_event_witness :
  let m1 := snd (run cfg_cuda env_ok (Ok tt) 0 0
                   (mk_model device_type_cuda true [] None None)) in
  run cfg_cuda env_ok (Throw torch_error) 5 0 m1 = (Throw torch_error, m1) /\
  fst (is_finished cfg_cuda m1) = Ok true.
Proof.
  intros m1. split; [|reflexivity].
  refine (proj1 (proj2 (proj2 (run_cuda_keeps_event cfg_cuda env_ok
                                 (Throw torch_error) 5 0 m1
                                 (event_recorded 0 0) eq_refl eq_refl))) _).
  discriminate.
Defined.

(** X16: [run_const_fold] follows the protocol of [run]: it leaves the
    instance in the state [run] would leave it in for a routine with the
    same outcome, fails as [run] would, and when it returns it returns the
    mapping of the folding routine. *)
Theorem run_const_fold_as_run (cfg : Config) (env : Env)
    (const_run_impl : outcome (gmap string AtenTensorHandle))
    (latency : nat) (status : Z) (m : Model) :
  let as_unit := const_run_impl ≫= (fun _ => Ok tt) in
  let rf := run_const_fold cfg env const_run_impl latency status m in
  let rr := run cfg env as_unit latency status m in
  snd rf = snd rr /\
  (fst rf ≫= (fun _ => Ok tt)) = fst rr /\
  (forall folded, fst rf = Ok folded -> const_run_impl = Ok folded).
Proof.
  unfold run_const_fold, run, run_prologue, run_epilogue, wait_and_throw.
  cbv [mbind M_mbind M_bind outcome_mbind outcome_bind gets lift modify mret
         M_mret M_ret].
  destruct (target cfg).
  - destruct const_run_impl; simpl; repeat split; congruence.
  - destruct (run_finished_event_ m) as [ev|] eqn:Hev.
    + destruct const_run_impl; simpl; rewrite ?Hev;
        try (repeat split; congruence).
      destruct (AOTI_RUNTIME_DEVICE_CHECK (event_record_status env)) as [[]| |];
        simpl; repeat split; congruence.
    + destruct (AOTI_RUNTIME_DEVICE_CHECK (event_create_status env)) as [[]| |];
        simpl; try (repeat split; congruence).
      destruct const_run_impl; simpl; try (repeat split; congruence).
      destruct (AOTI_RUNTIME_DEVICE_CHECK (event_record_status env)) as [[]| |];
        simpl; repeat split; congruence.
  - destruct (run_finished_event_ m) as [ev|] eqn:Hev.
    + destruct (event_synchronize ev) as [s ev'].
      destruct (AOTI_RUNTIME_DEVICE_CHECK s) as [[]| |];
        simpl; try (repeat split; congruence).
      destruct const_run_impl; simpl; repeat split; congruence.
    + destruct const_run_impl; simpl; repeat split; congruence.
Qed.

(** ** Constant loader *)

(** The loop body that returns, for a constant that is not passed over. *)
Lemma load_constants_body_Ok cfg env offs i b m info b1 m1 :
  vector_sized (constants_info_ m) ->
  constants_info_ m !! i = Some info ->
  skipped cfg info = false ->
  load_constants_body cfg env offs i b m = (Ok b1, m1) ->
  exists p mp cmap,
    (if negb (ConstInfo.data_size info =? 0)
     then constant_offset ← lift (read_or_undefined (offs !! i));
          constant_ptr cfg env constant_offset b (ConstInfo.data_size info)
            (ConstInfo.from_folded info)
     else mret nullptr) m = (Ok p, mp) /\
    loader_step cfg [] m mp /\
    constants_map_ mp = Some cmap /\
    b1 = to_size_t (b + ConstInfo.data_size info) /\
    m1 = set_constants_map_
           (Some (map_emplace (ConstInfo.name info) (tensor_for cfg m info p) cmap))
           (set_effects_
              (eff_create_tensor (tensor_for cfg m info p) :: effects_ mp) mp).
Proof.
  intros Hsized Hinfo Hskip Hbody.
  destruct (load_constants_body_Ok_ptr _ _ _ _ _ _ _ _ _ Hsized Hinfo Hskip Hbody)
    as (p & mp & Hptr).
  rewrite (load_constants_body_run _ _ _ _ _ _ _ _ _ Hsized Hinfo Hskip Hptr)
    in Hbody.
  cbv zeta in Hbody.
  destruct (use_create_tensor_v1 cfg && _); [discriminate|].
  destruct (create_tensor_status env _ =? 0); [|discriminate].
  destruct (constants_map_ mp) as [cmap|] eqn:Hmap; [|discriminate].
  injection Hbody as <- <-.
  exists p, mp, cmap. split; [exact Hptr|]. split; [|auto].
  assert (Hkeep : keeps_at (loader_step cfg [])
            (if negb (ConstInfo.data_size info =? 0)
             then constant_offset ← lift (read_or_undefined (offs !! i));
                  constant_ptr cfg env constant_offset b
                    (ConstInfo.data_size info) (ConstInfo.from_folded info)
             else mret nullptr) m).
  { destruct (negb (ConstInfo.data_size info =? 0)); [|keeps_pure].
    keeps_bind; [keeps_pure|]. intros; apply constant_ptr_keeps. }
  exact (Hkeep _ _ Hptr).
Qed.

(** A run of the whole loop that returns, seen from ordinal [i]. *)
Lemma load_constants_loop_at cfg env offs m b m' i info :
  vector_sized (constants_info_ m) ->
  load_constants_loop cfg env offs (length (constants_info_ m)) 0 0 m = (Ok b, m') ->
  constants_info_ m !! i = Some info ->
  skipped cfg info = false ->
  exists bi mi p mp cmap_i cmap',
    load_constants_loop cfg env offs i 0 0 m = (Ok bi, mi) /\
    bi = to_size_t (read_cursor cfg (take i (constants_info_ m))) /\
    loader_step cfg (loaded_names cfg (take i (constants_info_ m))) m mi /\
    (if negb (ConstInfo.data_size info =? 0)
     then constant_offset ← lift (read_or_undefined (offs !! i));
          constant_ptr cfg env constant_offset bi (ConstInfo.data_size info)
            (ConstInfo.from_folded info)
     else mret nullptr) mi = (Ok p, mp) /\
    loader_step cfg [] mi mp /\
    constants_map_ mp = Some cmap_i /\
    constants_map_ m' = Some cmap' /\
    map_emplace (ConstInfo.name info) (tensor_for cfg m info p) cmap_i ⊆ cmap'.
Proof.
  intros Hsized Hloop Hinfo Hskip.
  pose proof (lookup_lt_Some _ _ _ Hinfo) as Hi.
  replace (length (constants_info_ m))
    with (i + S (length (constants_info_ m) - S i))%nat in Hloop by lia.
  rewrite load_constants_loop_app in Hloop.
  apply M_bind_Ok in Hloop as (bi & mi & Hprefix & Hrest).
  rewrite Nat.add_0_l in Hrest. cbn [load_constants_loop] in Hrest.
  apply M_bind_Ok in Hrest as (b1 & m1 & Hbody & Hsuffix).
  destruct (load_constants_loop_spec cfg env offs i 0 0 m (Ok bi) mi Hsized
              ltac:(lia) ltac:(unfold size_t_modulus; lia) Hprefix)
    as [Hstep Hcur].
  rewrite drop_0 in Hstep, Hcur.
  pose proof Hstep as (Hinfos & Hty & Hidx & _).
  assert (Hsized_i : vector_sized (constants_info_ mi))
    by (rewrite Hinfos; exact Hsized).
  assert (Hinfo_i : constants_info_ mi !! i = Some info)
    by (rewrite Hinfos; exact Hinfo).
  destruct (load_constants_body_Ok cfg env offs i bi mi info b1 m1
              Hsized_i Hinfo_i Hskip Hbody)
    as (p & mp & cmap_i & Hptr & Hstep_p & Hmap_p & Hb1 & Hm1).
  rewrite (tensor_for_same_device cfg m mi info p Hty Hidx) in Hm1.
  pose proof Hstep_p as (Hinfos_p & _).
  assert (Hsized_1 : vector_sized (constants_info_ m1)).
  { rewrite Hm1. simpl. rewrite Hinfos_p. exact Hsized_i. }
  destruct (load_constants_loop_spec cfg env offs
              (length (constants_info_ m) - S i) (S i) b1 m1 (Ok b) m'
              Hsized_1) as [(_ & _ & _ & _ & _ & _ & _ & Hreg) _].
  { rewrite Hm1. simpl. rewrite Hinfos_p, Hinfos. lia. }
  { rewrite Hb1. apply to_size_t_range. }
  { exact Hsuffix. }
  rewrite Hm1 in Hreg. cbn [constants_map_ set_constants_map_] in Hreg.
  destruct (constants_map_ m') as [cmap'|]; [|contradiction].
  destruct Hreg as [Hsub _].
  exists bi, mi, p, mp, cmap_i, cmap'.
  split; [exact Hprefix|]. split; [exact (Hcur bi eq_refl)|].
  split; [exact Hstep|]. split; [exact Hptr|]. split; [exact Hstep_p|].
  split; [exact Hmap_p|]. split; [reflexivity | exact Hsub].
Qed.

(** The registry map only grows, and the descriptors stay. *)
Lemma load_constants_loop_registry cfg env offs m r m' :
  vector_sized (constants_info_ m) ->
  load_constants_loop cfg env offs (length (constants_info_ m)) 0 0 m = (r, m') ->
  loader_step cfg (loaded_names cfg (constants_info_ m)) m m'.
Proof.
  intros Hsized Hloop.
  destruct (load_constants_loop_spec cfg env offs (length (constants_info_ m))
              0 0 m r m' Hsized ltac:(lia) ltac:(unfold size_t_modulus; lia)
              Hloop) as [Hstep _].
  rewrite drop_0, firstn_all in Hstep. exact Hstep.
Qed.

Lemma registry_kept_refl m : registry_kept m m.
Proof.
  unfold registry_kept. repeat split_and; try reflexivity.
  destruct (constants_map_ m); [reflexivity | exact I].
Qed.

Lemma registry_kept_trans m1 m2 m3 :
  registry_kept m1 m2 -> registry_kept m2 m3 -> registry_kept m1 m3.
Proof.
  intros (H1 & H2 & H3 & H4 & H5) (G1 & G2 & G3 & G4 & G5).
  unfold registry_kept. repeat split_and; try congruence.
  destruct (constants_map_ m1), (constants_map_ m2), (constants_map_ m3);
    try tauto. by etrans.
Qed.

Lemma loader_step_registry_kept cfg names m m' :
  loader_step cfg names m m' -> registry_kept m m'.
Proof.
  intros (H1 & H2 & H3 & _ & _ & H6 & _ & Hreg).
  unfold registry_kept. repeat split_and; try assumption.
  unfold registry_extends in Hreg.
  destruct (constants_map_ m), (constants_map_ m'); tauto.
Qed.

Ltac kept_pure :=
  apply keeps_at_pure; [intros; apply registry_kept_refl | intros; reflexivity].

Ltac kept_bind :=
  apply keeps_at_bind; [intros ? ? ?; apply registry_kept_trans | |].

Lemma RAII_gpuMalloc_kept cfg env num_bytes m :
  keeps_at registry_kept (RAII_gpuMalloc cfg env num_bytes) m.
Proof.
  intros r m'. unfold RAII_gpuMalloc.
  cbv [mbind M_mbind M_bind gets lift modify emit mret M_mret M_ret].
  assert (Hemit : registry_kept m
                    (set_effects_ (eff_gpu_malloc num_bytes :: effects_ m) m)).
  { unfold registry_kept. simpl. repeat split_and; try reflexivity.
    destruct (constants_map_ m); [reflexivity | exact I]. }
  destruct (use_cuda cfg).
  - destruct (AOTI_RUNTIME_DEVICE_CHECK _); intros [= <- <-]; exact Hemit.
  - intros [= <- <-]. exact Hemit.
Qed.

Lemma set_constant_blob_kept blob m :
  keeps_at registry_kept (modify (set_constant_blob_ blob)) m.
Proof.
  intros r m' [= <- <-]. unfold registry_kept. simpl.
  repeat split_and; try reflexivity.
  destruct (constants_map_ m); [reflexivity | exact I].
Qed.

Lemma update_constants_array_from_map_kept m :
  keeps_at registry_kept update_constants_array_from_map m.
Proof.
  intros r m'. unfold update_constants_array_from_map.
  cbv [mbind M_mbind M_bind gets lift modify].
  destruct (constants_map_ m) as [cmap|] eqn:Hmap.
  - cbn [constants_info_ constants_ set_constants_].
    destruct (update_constants_array_loop _ _ _ _); intros [= <- <-];
      unfold registry_kept; simpl; rewrite Hmap; repeat split_and; reflexivity.
  - intros [= <- <-]. apply registry_kept_refl.
Qed.

(** X17: whatever its outcome, [load_constants] does not change the
    descriptors or the device of the instance, and it never removes or
    replaces an entry of the registry map: every entry the map had before
    the call it still has, with the same handle, after it. *)
Theorem load_constants_keeps_registry (cfg : Config) (env : Env) (m : Model)
    (r : outcome unit) (m' : Model) :
  vector_sized (constants_info_ m) ->
  load_constants cfg env m = (r, m') ->
  registry_kept m m' /\
  forall cmap name handle,
    constants_map_ m = Some cmap ->
    cmap !! name = Some handle ->
    exists cmap', constants_map_ m' = Some cmap' /\ cmap' !! name = Some handle.
Proof.
  intros Hsized Hrun.
  assert (Hkept : registry_kept m m').
  { revert r m' Hrun.
    change (keeps_at registry_kept (load_constants cfg env) m).
    unfold load_constants.
    kept_bind; [kept_pure|]. intros n m1 Hg _.
    unfold gets in Hg. injection Hg as <- <-.
    kept_bind; [kept_pure|]. intros cmap m1 Hg _.
    unfold gets in Hg. injection Hg as <- <-.
    kept_bind; [kept_pure|]. intros [] m1 Hl _.
    unfold lift in Hl. injection Hl as _ <-.
    kept_bind; [kept_pure|]. intros dt m1 Hg _.
    unfold gets in Hg. injection Hg as <- <-.
    kept_bind.
    { destruct (decide (device_type_ m <> device_type_cpu)); [|kept_pure].
      kept_bind; [kept_pure|]. intros [blob offs] m1 _ _.
      kept_bind; [|intros; kept_pure].
      destruct (use_gpu cfg); [|kept_pure].
      kept_bind; [apply RAII_gpuMalloc_kept|].
      intros; apply set_constant_blob_kept. }
    intros offs m0 _ Hm0.
    kept_bind; [kept_pure|]. intros iw m1 Hg _.
    unfold gets in Hg. injection Hg as <- <-.
    destruct (negb (include_weights m0)); [kept_pure|].
    destruct Hm0 as (Hinfos & _).
    kept_bind.
    { intros rl ml Hloop. rewrite <- Hinfos in Hloop.
      apply (loader_step_registry_kept cfg
               (loaded_names cfg (constants_info_ m0))).
      apply (load_constants_loop_registry cfg env offs m0 rl ml);
        [rewrite Hinfos; exact Hsized | exact Hloop]. }
    intros bl ml _ _.
    kept_bind; [kept_pure|]. intros cmap' m1 Hg _.
    unfold gets in Hg. injection Hg as <- <-.
    destruct (constants_map_ ml);
      [apply update_constants_array_from_map_kept | kept_pure]. }
  split; [exact Hkept|].
  intros cmap name handle Hmap Hname.
  destruct Hkept as (_ & _ & _ & _ & Hsub). rewrite Hmap in Hsub.
  destruct (constants_map_ m') as [cmap'|]; [|contradiction].
  exists cmap'. split; [reflexivity|].
  eapply lookup_weaken; [exact Hname | exact Hsub].
Qed.

Lemma load_constants_keeps_registry_witness :
  let m := mk_model device_type_cpu true [mk_const "a" 4 false]
             (Some {["a" := handle_a2]}) None in
  exists cmap',
    constants_map_ (snd (load_constants cfg_cpu env_ok m)) = Some cmap' /\
    cmap' !! "a" = Some handle_a2.
Proof.
  intros m.
  refine (proj2 (load_constants_keeps_registry cfg_cpu env_ok m _ _ _
                   (surjective_pairing _)) {["a" := handle_a2]} "a" handle_a2
            eq_refl eq_refl).
  unfold vector_sized. simpl. lia.
Defined.

Lemma load_constants_Ok_map cfg env m m' :
  load_constants cfg env m = (Ok tt, m') -> is_Some (constants_map_ m).
Proof.
  unfold load_constants. intros Hrun.
  apply M_bind_Ok in Hrun as (n & ma & Hg & Hrun).
  unfold gets in Hg. injection Hg as <- <-.
  apply M_bind_Ok in Hrun as (cmap & mb & Hg & Hrun).
  unfold gets in Hg. injection Hg as <- <-.
  apply M_bind_Ok in Hrun as ([] & mc & Hc & _).
  destruct (constants_map_ m); [eauto | discriminate].
Qed.

(** X18: after a call of [load_constants] with weights that returns, the
    array has one slot per constant, and every constant the loop did not
    pass over has an entry in the registry map under its name, with the
    very handle of that entry in its slot of the array; the slot of any
    other constant holds the entry under its name if there is one and else
    what it held before. *)
Theorem load_constants_fills_slots (cfg : Config) (env : Env) (m m' : Model) :
  vector_sized (constants_info_ m) ->
  include_weights m = true ->
  load_constants cfg env m = (Ok tt, m') ->
  exists cmap' arr,
    constants_map_ m' = Some cmap' /\
    constants_ m' = Some arr /\
    length arr = length (constants_info_ m) /\
    (forall i info,
       constants_info_ m !! i = Some info ->
       skipped cfg info = false ->
       exists handle,
         cmap' !! ConstInfo.name info = Some handle /\
         arr !! i = Some (Some handle)) /\
    (forall i info,
       constants_info_ m !! i = Some info ->
       arr !! i = Some (match cmap' !! ConstInfo.name info with
                        | Some handle => Some handle
                        | None => slot_before m i
                        end)).
Proof.
  intros Hsized Hiw Hrun.
  pose proof (load_constants_Ok_map _ _ _ _ Hrun) as [cmap Hmap].
  destruct (load_constants_runs_loop cfg env m m' Hrun Hiw)
    as (offs & m0 & b & ml & Hinfos & Hmap0 & Harr0 & _ & _ & Hloop & Hrebuild).
  rewrite <- Hinfos in Hloop, Hsized.
  pose proof (load_constants_loop_registry cfg env offs m0 _ ml Hsized Hloop)
    as (Hinfos_l & _ & _ & Harr_l & _ & _ & _ & Hreg).
  rewrite Hmap0, Hmap in Hreg.
  destruct (constants_map_ ml) as [cmap'|] eqn:Hmap_l; [|contradiction].
  specialize (Hrebuild ltac:(eauto)).
  destruct (update_constants_array_from_map_spec ml cmap' Hmap_l)
    as (arr & Hrun' & Hlen & Hslots).
  { rewrite Hinfos_l. exact Hsized. }
  rewrite Hrun' in Hrebuild. injection Hrebuild as <-.
  rewrite Hinfos_l, Hinfos in Hlen. rewrite Hinfos_l in Hslots.
  exists cmap', arr. cbn [constants_map_ constants_ set_constants_].
  split; [exact Hmap_l|]. split; [reflexivity|]. split; [exact Hlen|]. split.
  - intros i info Hinfo Hskip. rewrite <- Hinfos in Hinfo.
    destruct (load_constants_loop_at cfg env offs m0 b ml i info Hsized Hloop
                Hinfo Hskip)
      as (bi & mi & p & mp & cmap_i & cmap'' & _ & _ & _ & _ & _ & _ & Hm & Hsub).
    rewrite Hmap_l in Hm. injection Hm as <-.
    destruct (map_emplace_extends (ConstInfo.name info)
                (tensor_for cfg m0 info p) cmap_i) as (_ & _ & [h Hh] & _).
    exists h. pose proof (lookup_weaken _ _ _ _ Hh Hsub) as Hh'.
    split; [exact Hh'|]. rewrite (Hslots i info Hinfo), Hh'. reflexivity.
  - intros i info Hinfo. rewrite <- Hinfos in Hinfo.
    rewrite (Hslots i info Hinfo).
    destruct (cmap' !! ConstInfo.name info); [reflexivity|].
    unfold slot_before. rewrite Harr_l, Harr0. reflexivity.
Qed.

Lemma load_constants_fills_slots_witness :
  let m := mk_model device_type_cpu true
             [mk_const "f" 8 true; mk_const "w" 4 false] (Some ∅) None in
  exists cmap' arr handle,
    constants_map_ (snd (load_constants cfg_cpu env_ok m)) = Some cmap' /\
    constants_ (snd (load_constants cfg_cpu env_ok m)) = Some arr /\
    cmap' !! "w" = Some handle /\ arr !! 1%nat = Some (Some handle).
Proof.
  intros m.
  destruct (load_constants_fills_slots cfg_cpu env_ok m
              (snd (load_constants cfg_cpu env_ok m)))
    as (cmap' & arr & Hmap & Harr & _ & Hslots & _).
  - unfold vector_sized. simpl. lia.
  - reflexivity.
  - vm_compute. reflexivity.
  - destruct (Hslots 1%nat (mk_const "w" 4 false) eq_refl eq_refl)
      as (handle & Hentry & Hslot).
    exists cmap', arr, handle. repeat split; assumption.
Defined.

Lemma load_constants_runs_loop_offsets cfg env m m' :
  load_constants cfg env m = (Ok tt, m') ->
  include_weights m = true ->
  exists offs m0 b ml,
    constants_info_ m0 = constants_info_ m /\
    constants_map_ m0 = constants_map_ m /\
    constants_ m0 = constants_ m /\
    device_type_ m0 = device_type_ m /\
    device_idx_ m0 = device_idx_ m /\
    load_constants_loop cfg env offs (length (constants_info_ m)) 0 0 m0
      = (Ok b, ml) /\
    (is_Some (constants_map_ ml) ->
     update_constants_array_from_map ml = (Ok tt, m')) /\
    (use_gpu cfg = true ->
     device_type_ m <> device_type_cpu ->
     valid_descriptors (constants_info_ m) ->
     aligned_total (constants_info_ m) < size_t_modulus ->
     forall i o, offs !! i = Some o ->
       o = aligned_total (take i (constants_info_ m))) /\
    (exists pre, effects_ m0 = pre ++ effects_ m).
Proof.
  unfold load_constants. intros Hrun Hiw.
  apply M_bind_Ok in Hrun as (n & ma & Hg & Hrun).
  unfold gets in Hg. injection Hg as <- <-.
  apply M_bind_Ok in Hrun as (cmap & mb & Hg & Hrun).
  unfold gets in Hg. injection Hg as <- <-.
  apply M_bind_Ok in Hrun as ([] & mc & Hc & Hrun).
  unfold lift in Hc. injection Hc as _ <-.
  apply M_bind_Ok in Hrun as (dt & md & Hg & Hrun).
  unfold gets in Hg. injection Hg as <- <-.
  apply M_bind_Ok in Hrun as (offs & m0 & Hprefix & Hrun).
  assert (Hframe :
    (constants_info_ m0 = constants_info_ m /\
     constants_map_ m0 = constants_map_ m /\
     constants_ m0 = constants_ m /\
     device_type_ m0 = device_type_ m /\
     device_idx_ m0 = device_idx_ m /\
     include_weights m0 = include_weights m /\
     exists pre, effects_ m0 = pre ++ effects_ m) /\
    (use_gpu cfg = true ->
     device_type_ m <> device_type_cpu ->
     valid_descriptors (constants_info_ m) ->
     aligned_total (constants_info_ m) < size_t_modulus ->
     forall i o, offs !! i = Some o ->
       o = aligned_total (take i (constants_info_ m)))).
  { destruct (decide (device_type_ m <> device_type_cpu)) as [Hdev|Hdev];
      [|injection Hprefix as _ <-; split;
        [repeat split_and; try reflexivity; by exists [] | intros; contradiction]].
    apply M_bind_Ok in Hprefix as ([blob offs'] & ma & Hcall & Hprefix).
    apply call_Ok in Hcall as [Hlayout ->].
    apply M_bind_Ok in Hprefix as ([] & mb & Halloc & Hret).
    injection Hret as <- <-. split.
    - destruct (use_gpu cfg);
        [|injection Halloc as <-; repeat split_and; try reflexivity; by exists []].
      apply M_bind_Ok in Halloc as (id & mc & Hmalloc & Hset).
      unfold modify in Hset. injection Hset as <-.
      unfold RAII_gpuMalloc in Hmalloc.
      apply M_bind_Ok in Hmalloc as (k & md & Hg & Hmalloc).
      unfold gets in Hg. injection Hg as <- <-.
      apply M_bind_Ok in Hmalloc as ([] & me & Hemit & Hmalloc).
      unfold emit, modify in Hemit. injection Hemit as <-.
      destruct (use_cuda cfg).
      + apply M_bind_Ok in Hmalloc as ([] & mf & Hchk & Hret).
        unfold lift in Hchk. injection Hchk as _ <-.
        injection Hret as _ <-. simpl.
        repeat split_and; try reflexivity. by eexists [_].
      + injection Hmalloc as _ <-. simpl.
        repeat split_and; try reflexivity. by eexists [_].
    - intros Hgpu _ Hvalid Hsum.
      destruct (compute_gpu_constant_blob_offsets cfg m 0
                  (replicate (length (constants_info_ m)) 0) Hgpu Hvalid
                  ltac:(apply length_replicate) Hsum)
        as (offs & Hlayout' & _ & Hoffs).
      rewrite Hlayout' in Hlayout. injection Hlayout as _ <-. exact Hoffs. }
  destruct Hframe as ((Hinfos & Hmap & Harr & Hty & Hidx & Hiw0 & Heff) & Hoffs).
  apply M_bind_Ok in Hrun as (iw & me & Hg & Hrun).
  unfold gets in Hg. injection Hg as <- <-.
  rewrite Hiw0, Hiw in Hrun. cbn [negb] in Hrun.
  apply M_bind_Ok in Hrun as (b & ml & Hloop & Hrun).
  apply M_bind_Ok in Hrun as (cmap' & mf & Hg & Hrun).
  unfold gets in Hg. injection Hg as <- <-.
  exists offs, m0, b, ml. repeat split_and; try assumption.
  intros [cm Hcm]. rewrite Hcm in Hrun. exact Hrun.
Qed.

(** What a returning [load_constants] leaves under the name of a constant
    whose name is not taken when the loop reaches it: the handle made on the
    data pointer [p] that the loop computed for it. *)
Lemma load_constants_entry cfg env m m' cmap i info :
  vector_sized (constants_info_ m) ->
  include_weights m = true ->
  load_constants cfg env m = (Ok tt, m') ->
  constants_map_ m = Some cmap ->
  constants_info_ m !! i = Some info ->
  skipped cfg info = false ->
  cmap !! ConstInfo.name info = None ->
  ConstInfo.name info ∉ loaded_names cfg (take i (constants_info_ m)) ->
  exists (offs : list Z) mi p mp cmap' arr,
    (use_gpu cfg = true ->
     device_type_ m <> device_type_cpu ->
     valid_descriptors (constants_info_ m) ->
     aligned_total (constants_info_ m) < size_t_modulus ->
     forall j o, offs !! j = Some o ->
       o = aligned_total (take j (constants_info_ m))) /\
    constant_blob_ mi = constant_blob_ m' /\
    (ConstInfo.data_size info = 0 -> p = nullptr) /\
    (ConstInfo.data_size info <> 0 ->
     exists o, offs !! i = Some o /\
       constant_ptr cfg env o
         (to_size_t (read_cursor cfg (take i (constants_info_ m))))
         (ConstInfo.data_size info) (ConstInfo.from_folded info) mi
       = (Ok p, mp)) /\
    constants_map_ m' = Some cmap' /\
    cmap' !! ConstInfo.name info = Some (tensor_for cfg m info p) /\
    constants_ m' = Some arr /\
    arr !! i = Some (Some (tensor_for cfg m info p)).
Proof.
  intros Hsized Hiw Hrun Hmap Hinfo Hskip Hfree Hfresh.
  destruct (load_constants_runs_loop_offsets cfg env m m' Hrun Hiw)
    as (offs & m0 & b & ml & Hinfos & Hmap0 & Harr0 & Hty & Hidx & Hloop
        & Hrebuild & Hoffs & _).
  rewrite <- Hinfos in Hloop, Hsized, Hinfo, Hfresh.
  pose proof (load_constants_loop_registry cfg env offs m0 _ ml Hsized Hloop)
    as (Hinfos_l & _ & _ & Harr_l & Hblob_l & _ & _ & Hreg).
  destruct (load_constants_loop_at cfg env offs m0 b ml i info Hsized Hloop
              Hinfo Hskip)
    as (bi & mi & p & mp & cmap_i & cmap' & _ & -> & Hstep_i & Hptr & Hstep_p
        & Hmap_p & Hmap_l & Hsub).
  specialize (Hrebuild ltac:(rewrite Hmap_l; eauto)).
  destruct (update_constants_array_from_map_spec ml cmap' Hmap_l)
    as (arr & Hrun' & Hlen & Hslots).
  { rewrite Hinfos_l. exact Hsized. }
  rewrite Hrun' in Hrebuild. injection Hrebuild as <-.
  rewrite Hinfos_l in Hslots.
  assert (Hentry : cmap' !! ConstInfo.name info = Some (tensor_for cfg m info p)).
  { rewrite <- (tensor_for_same_device cfg m m0 info p Hty Hidx).
    eapply lookup_weaken; [|exact Hsub].
    apply map_emplace_extends.
    destruct Hstep_i as (_ & _ & _ & _ & _ & _ & _ & Hreg_i).
    destruct Hstep_p as (_ & _ & _ & _ & _ & _ & _ & Hreg_p).
    rewrite Hmap_p in Hreg_p. rewrite Hmap0, Hmap in Hreg_i.
    destruct (constants_map_ mi) as [cm|]; [|contradiction].
    destruct Hreg_i as [_ Hi]. destruct Hreg_p as [_ Hp].
    rewrite Hp by apply not_elem_of_nil. rewrite Hi by exact Hfresh.
    exact Hfree. }
  exists offs, mi, p, mp, cmap', arr. rewrite <- Hinfos.
  cbn [constants_map_ constants_ constant_blob_ set_constants_].
  split; [rewrite Hinfos; exact Hoffs|].
  split.
  { destruct Hstep_i as (_ & _ & _ & _ & Hblob_i & _). congruence. }
  split.
  { intros Hzero. rewrite Hzero in Hptr. cbn in Hptr. by injection Hptr as <-. }
  split.
  { intros Hnz. apply Z.eqb_neq in Hnz. rewrite Hnz in Hptr. cbn [negb] in Hptr.
    apply M_bind_Ok in Hptr as (o & ma & Ho & Hptr).
    unfold lift in Ho. injection Ho as Ho <-.
    exists o. split; [|exact Hptr].
    destruct (offs !! i); [by injection Ho as -> | discriminate]. }
  split; [exact Hmap_l|]. split; [exact Hentry|]. split; [reflexivity|].
  rewrite (Hslots i info Hinfo), Hentry. reflexivity.
Qed.

Lemma loaded_names_gpu cfg infos :
  use_gpu cfg = true -> loaded_names cfg infos = ConstInfo.name <$> infos.
Proof.
  intros Hgpu. unfold loaded_names. f_equal.
  induction infos as [|info infos IH]; [reflexivity|].
  rewrite filter_cons.
  destruct (decide (skipped cfg info = false)) as [_|Hskip]; [by rewrite IH|].
  exfalso. apply Hskip. unfold skipped. rewrite Hgpu. reflexivity.
Qed.

(** X19: in a build without [USE_CUDA] and [USE_XPU], after a call of
    [load_constants] with weights that returns, the array slot of a constant
    that is not [from_folded] and whose name was free when the loop reached
    it holds a handle made directly on the payload: its data pointer is the
    payload start plus the declared sizes, summed as a [size_t], of the
    loaded constants before it, and null for a constant of size 0. *)
Theorem load_constants_cpu_in_place (cfg : Config) (env : Env) (m m' : Model)
    (cmap : gmap string AtenTensorHandle) (i : nat) (info : ConstInfo.t) :
  use_gpu cfg = false ->
  vector_sized (constants_info_ m) ->
  include_weights m = true ->
  load_constants cfg env m = (Ok tt, m') ->
  constants_map_ m = Some cmap ->
  constants_info_ m !! i = Some info ->
  ConstInfo.from_folded info = false ->
  cmap !! ConstInfo.name info = None ->
  ConstInfo.name info ∉ loaded_names cfg (take i (constants_info_ m)) ->
  exists arr,
    constants_ m' = Some arr /\
    arr !! i =
      Some (Some (tensor_for cfg m info
              (if ConstInfo.data_size info =? 0 then nullptr
               else ptr (payload_region cfg)
                      (to_size_t (read_cursor cfg (take i (constants_info_ m))))))).
Proof.
  intros Hgpu Hsized Hiw Hrun Hmap Hinfo Hff Hfree Hfresh.
  assert (Hskip : skipped cfg info = false).
  { unfold skipped. rewrite Hff. apply andb_false_r. }
  destruct (load_constants_entry cfg env m m' cmap i info Hsized Hiw Hrun Hmap
              Hinfo Hskip Hfree Hfresh)
    as (offs & mi & p & mp & cmap' & arr & _ & _ & Hzero & Hnz & _ & _ & Harr
        & Hslot).
  exists arr. split; [exact Harr|]. rewrite Hslot. do 3 f_equal.
  destruct (Z.eqb_spec (ConstInfo.data_size info) 0) as [Hd|Hd]; [auto|].
  destruct (Hnz Hd) as (o & _ & Hptr).
  apply constant_ptr_Ok in Hptr. rewrite Hgpu in Hptr. tauto.
Qed.

Lemma load_constants_cpu_in_place_witness :
  let m := mk_model device_type_cpu true
             [mk_const "f" 8 true; mk_const "a" 4 false; mk_const "w" 4 false]
             (Some ∅) None in
  exists arr,
    constants_ (snd (load_constants cfg_cpu env_ok m)) = Some arr /\
    arr !! 2%nat =
      Some (Some (tensor_for cfg_cpu m (mk_const "w" 4 false)
                    (ptr region_embedded 4))).
Proof.
  intros m.
  apply (load_constants_cpu_in_place cfg_cpu env_ok m
           (snd (load_constants cfg_cpu env_ok m)) ∅ 2 (mk_const "w" 4 false)).
  - reflexivity.
  - unfold vector_sized. simpl. lia.
  - reflexivity.
  - vm_compute. reflexivity.
  - reflexivity.
  - reflexivity.
  - reflexivity.
  - reflexivity.
  - vm_compute. intros Hin. apply list_elem_of_singleton in Hin. discriminate.
Defined.

(** X20: in a build with [USE_CUDA] or [USE_XPU] and on a device other than
    the CPU, after a call of [load_constants] with weights that returns, the
    array slot of a constant of non-zero size whose name was free when the
    loop reached it holds a handle whose data pointer lies in the blob the
    call allocated, at the sum of the sizes, each rounded up to a multiple
    of 64, of the constants before it; that offset is a multiple of 64. *)
Theorem load_constants_gpu_in_blob (cfg : Config) (env : Env) (m m' : Model)
    (cmap : gmap string AtenTensorHandle) (id : nat) (i : nat)
    (info : ConstInfo.t) :
  use_gpu cfg = true ->
  device_type_ m <> device_type_cpu ->
  valid_descriptors (constants_info_ m) ->
  aligned_total (constants_info_ m) < size_t_modulus ->
  include_weights m = true ->
  load_constants cfg env m = (Ok tt, m') ->
  constants_map_ m = Some cmap ->
  constant_blob_ m' = Some id ->
  constants_info_ m !! i = Some info ->
  ConstInfo.data_size info <> 0 ->
  cmap !! ConstInfo.name info = None ->
  ConstInfo.name info ∉ (ConstInfo.name <$> take i (constants_info_ m)) ->
  exists arr,
    constants_ m' = Some arr /\
    arr !! i =
      Some (Some (tensor_for cfg m info
              (ptr (region_blob id) (aligned_total (take i (constants_info_ m)))))) /\
    aligned_total (take i (constants_info_ m)) mod 64 = 0.
Proof.
  intros Hgpu Hdev Hvalid Hsum Hiw Hrun Hmap Hblob Hinfo Hd Hfree Hfresh.
  assert (Hskip : skipped cfg info = false).
  { unfold skipped. rewrite Hgpu. reflexivity. }
  rewrite <- (loaded_names_gpu cfg _ Hgpu) in Hfresh.
  destruct (load_constants_entry cfg env m m' cmap i info (proj1 Hvalid) Hiw Hrun
              Hmap Hinfo Hskip Hfree Hfresh)
    as (offs & mi & p & mp & cmap' & arr & Hoffs & Hblob_i & _ & Hnz & _ & _
        & Harr & Hslot).
  destruct (Hnz Hd) as (o & Ho & Hptr).
  rewrite (Hoffs Hgpu Hdev Hvalid Hsum i o Ho) in Hptr.
  apply constant_ptr_Ok in Hptr. rewrite Hgpu in Hptr. destruct Hptr as [Hadd _].
  unfold blob_pointer in Hadd. rewrite Hblob_i, Hblob in Hadd.
  cbn [ptr_add] in Hadd. rewrite Z.add_0_l in Hadd. injection Hadd as <-.
  exists arr. split; [exact Harr|]. split; [exact Hslot|].
  apply aligned_total_mod, Forall_take, (proj2 Hvalid).
Qed.

Lemma load_constants_gpu_in_blob_witness :
  let m := mk_model device_type_cuda true
             [mk_const "a" 4 false; mk_const "f" 100 true; mk_const "w" 4 false]
             (Some ∅) None in
  exists arr,
    constants_ (snd (load_constants cfg_cuda env_ok m)) = Some arr /\
    arr !! 2%nat =
      Some (Some (tensor_for cfg_cuda m (mk_const "w" 4 false)
                    (ptr (region_blob 0) 192))) /\
    192 mod 64 = 0.
Proof.
  intros m.
  apply (load_constants_gpu_in_blob cfg_cuda env_ok m
           (snd (load_constants cfg_cuda env_ok m)) ∅ 0 2 (mk_const "w" 4 false)).
  - reflexivity.
  - discriminate.
  - split; [unfold vector_sized; simpl; lia|].
    repeat constructor; simpl; unfold size_t_modulus; lia.
  - vm_compute. reflexivity.
  - reflexivity.
  - vm_compute. reflexivity.
  - reflexivity.
  - vm_compute. reflexivity.
  - reflexivity.
  - discriminate.
  - reflexivity.
  - vm_compute. intros Hin.
    apply elem_of_cons in Hin as [Hin|Hin]; [discriminate|].
    apply list_elem_of_singleton in Hin. discriminate.
Defined.

(** X21: in a build with [USE_CUDA] and on a device other than the CPU, if
    [cudaMalloc] of the computed blob size fails, [load_constants] throws
    the device error before it reads any weight, whatever [include_weights]
    is: the allocation request is the only outside call made, and the
    registry map, the array and the blob are as before the call. *)
Theorem load_constants_cuda_malloc_failure (cfg : Config) (env : Env) (m : Model)
    (cmap : gmap string AtenTensorHandle) :
  use_cuda cfg = true ->
  device_type_ m <> device_type_cpu ->
  constants_map_ m = Some cmap ->
  valid_descriptors (constants_info_ m) ->
  aligned_total (constants_info_ m) < size_t_modulus ->
  gpu_malloc_status env (aligned_total (constants_info_ m)) <> cudaSuccess ->
  load_constants cfg env m =
    (Throw (device_error
              (gpu_malloc_status env (aligned_total (constants_info_ m)))),
     set_effects_
       (eff_gpu_malloc (aligned_total (constants_info_ m)) :: effects_ m) m).
Proof.
  intros Hcuda Hdev Hmap Hvalid Hsum Hfail.
  assert (Hgpu : use_gpu cfg = true) by (unfold use_gpu; rewrite Hcuda; reflexivity).
  unfold load_constants.
  cbv [mbind M_mbind M_bind gets lift call mret M_mret M_ret].
  rewrite Hmap.
  destruct (decide (device_type_ m <> device_type_cpu)) as [_|Hcpu];
    [|contradiction].
  destruct (compute_gpu_constant_blob_offsets cfg m 0
              (replicate (length (constants_info_ m)) 0) Hgpu Hvalid
              (length_replicate _ _) Hsum) as (offs & -> & _).
  rewrite Hgpu.
  unfold RAII_gpuMalloc, AOTI_RUNTIME_DEVICE_CHECK.
  cbv [mbind M_mbind M_bind gets lift modify emit mret M_mret M_ret].
  rewrite Hcuda. apply Z.eqb_neq in Hfail. rewrite Hfail. reflexivity.
Qed.

Lemma load_constants_cuda_malloc_failure_witness :
  let m := mk_model device_type_cuda true [mk_const "a" 100 false] (Some ∅) None in
  load_constants cfg_cuda env_out_of_memory m =
    (Throw (device_error 2), set_effects_ [eff_gpu_malloc 128] m).
Proof.
  intros m.
  apply (load_constants_cuda_malloc_failure cfg_cuda env_out_of_memory m ∅).
  - reflexivity.
  - discriminate.
  - reflexivity.
  - split; [unfold vector_sized; simpl; lia|].
    repeat constructor; simpl; unfold size_t_modulus; lia.
  - vm_compute. reflexivity.
  - discriminate.
Defined.

(** ** Constants of size 0 *)

(** C10 (amended): for a constant of declared size 0 that the CPU rule for
    folded constants does not pass over, a call of [load_constants] with
    weights that returns has gone through the iteration of that constant:
    during the call a tensor handle was made for it on a null data pointer,
    and the read cursor after the iteration is the cursor before it.  The
    handle is emplaced, not assigned: after the call the name of the
    constant is bound in the registry map; an entry that was under the name
    before the call is still the entry, and the new handle is the entry (and
    fills the slot of the constant in the array) when the name was free
    when the loop reached the constant. *)
Theorem load_constants_zero_size (cfg : Config) (env : Env) (m m' : Model)
    (cmap : gmap string AtenTensorHandle) (i : nat) (info : ConstInfo.t) :
  vector_sized (constants_info_ m) ->
  include_weights m = true ->
  constants_map_ m = Some cmap ->
  load_constants cfg env m = (Ok tt, m') ->
  constants_info_ m !! i = Some info ->
  ConstInfo.data_size info = 0 ->
  skipped cfg info = false ->
  let handle := tensor_for cfg m info nullptr in
  (exists offs m0 bi mi mi' earlier later,
     constants_info_ m0 = constants_info_ m /\
     load_constants_loop cfg env offs i 0 0 m0 = (Ok bi, mi) /\
     load_constants_loop cfg env offs (S i) 0 0 m0 = (Ok bi, mi') /\
     effects_ mi = earlier ++ effects_ m /\
     effects_ mi' = eff_create_tensor handle :: effects_ mi /\
     effects_ m' = later ++ effects_ mi') /\
  exists cmap',
    constants_map_ m' = Some cmap' /\
    is_Some (cmap' !! ConstInfo.name info) /\
    (forall old, cmap !! ConstInfo.name info = Some old ->
       cmap' !! ConstInfo.name info = Some old) /\
    (cmap !! ConstInfo.name info = None ->
     ConstInfo.name info ∉ loaded_names cfg (take i (constants_info_ m)) ->
     cmap' !! ConstInfo.name info = Some handle /\
     exists arr, constants_ m' = Some arr /\ arr !! i = Some (Some handle)).
Proof.
  intros Hsized Hiw Hmap Hrun Hinfo Hzero Hskip handle.
  destruct (load_constants_runs_loop_offsets cfg env m m' Hrun Hiw)
    as (offs & m0 & b & ml & Hinfos & Hmap0 & _ & Hty & Hidx & Hloop
        & Hrebuild & _ & [pre Hpre]).
  assert (Hsized0 : vector_sized (constants_info_ m0)) by (by rewrite Hinfos).
  assert (Hinfo0 : constants_info_ m0 !! i = Some info) by (by rewrite Hinfos).
  rewrite <- Hinfos in Hloop.
  pose proof (lookup_lt_Some _ _ _ Hinfo0) as Hi.
  destruct (load_constants_loop_zero_size cfg env offs m0 b ml Hsized0 Hloop
              i info Hinfo0 Hzero Hskip)
    as (bi & mi & cmap_i & Hprefix & Hmap_i & _ & Hbody & cmap' & Hmap_l & Hbound
        & _).
  rewrite (tensor_for_same_device cfg m m0 info nullptr Hty Hidx) in Hbody.
  fold handle in Hbody.
  set (mi' := set_constants_map_
                (Some (map_emplace (ConstInfo.name info) handle cmap_i))
                (set_effects_ (eff_create_tensor handle :: effects_ mi) mi))
    in Hbody.
  assert (Hsucc : load_constants_loop cfg env offs (S i) 0 0 m0 = (Ok bi, mi')).
  { replace (S i) with (i + 1)%nat by lia. rewrite load_constants_loop_app.
    erewrite M_bind_run by exact Hprefix. cbn [load_constants_loop].
    erewrite M_bind_run by exact Hbody. reflexivity. }
  destruct (load_constants_loop_spec cfg env offs i 0 0 m0 (Ok bi) mi Hsized0
              ltac:(lia) ltac:(unfold size_t_modulus; lia) Hprefix)
    as [(Hinfos_i & _ & _ & _ & _ & _ & [new_i [Heff_i _]] & _) Hcur].
  assert (Hbi : 0 <= bi < size_t_modulus).
  { rewrite (Hcur bi eq_refl). apply to_size_t_range. }
  replace (length (constants_info_ m0))
    with (S i + (length (constants_info_ m0) - S i))%nat in Hloop by lia.
  rewrite load_constants_loop_app in Hloop.
  apply M_bind_Ok in Hloop as (b1 & m1 & Hsucc' & Hsuffix).
  rewrite Hsucc in Hsucc'. injection Hsucc' as <- <-.
  destruct (load_constants_loop_spec cfg env offs
              (length (constants_info_ m0) - S i) (0 + S i) bi mi' (Ok b) ml)
    as [(_ & _ & _ & _ & _ & _ & [new_l [Heff_l _]] & _) _].
  { subst mi'. simpl. rewrite Hinfos_i. exact Hsized0. }
  { subst mi'. simpl. rewrite Hinfos_i. lia. }
  { exact Hbi. }
  { exact Hsuffix. }
  specialize (Hrebuild ltac:(rewrite Hmap_l; eauto)).
  destruct (update_constants_array_from_map_frame ml _ m' Hrebuild)
    as (_ & Hmap' & _ & _ & Heff').
  split.
  { exists offs, m0, bi, mi, mi', (new_i ++ pre), new_l.
    split; [exact Hinfos|]. split; [exact Hprefix|]. split; [exact Hsucc|].
    split; [rewrite Heff_i, Hpre; apply app_assoc|].
    split; [reflexivity|]. rewrite Heff'. exact Heff_l. }
  exists cmap'. rewrite Hmap'. split; [exact Hmap_l|]. split; [exact Hbound|].
  split.
  - intros old Hold.
    destruct (load_constants_loop_spec cfg env offs i 0 0 m0 (Ok bi) mi Hsized0
                ltac:(lia) ltac:(unfold size_t_modulus; lia) Hprefix)
      as [(_ & _ & _ & _ & _ & _ & _ & Hreg_i) _].
    destruct (load_constants_loop_spec cfg env offs
                (length (constants_info_ m0) - S i) (0 + S i) bi mi' (Ok b) ml)
      as [(_ & _ & _ & _ & _ & _ & _ & Hreg_l) _].
    { subst mi'. simpl. rewrite Hinfos_i. exact Hsized0. }
    { subst mi'. simpl. rewrite Hinfos_i. lia. }
    { exact Hbi. }
    { exact Hsuffix. }
    rewrite Hmap0, Hmap, Hmap_i in Hreg_i. destruct Hreg_i as [Hsub_i _].
    subst mi'. cbn [constants_map_ set_constants_map_] in Hreg_l.
    rewrite Hmap_l in Hreg_l. destruct Hreg_l as [Hsub_l _].
    eapply lookup_weaken; [|exact Hsub_l].
    eapply lookup_weaken; [|apply map_emplace_extends].
    eapply lookup_weaken; [exact Hold | exact Hsub_i].
  - intros Hfree Hfresh.
    destruct (load_constants_entry cfg env m m' cmap i info Hsized Hiw Hrun Hmap
                Hinfo Hskip Hfree Hfresh)
      as (offs2 & mi2 & p & mp & cmap2 & arr & _ & _ & Hnull & _ & Hmap2 & Hentry
          & Harr & Hslot).
    rewrite (Hnull Hzero) in Hentry, Hslot.
    rewrite Hmap', Hmap_l in Hmap2. injection Hmap2 as <-.
    split; [exact Hentry|]. exists arr. split; [exact Harr | exact Hslot].
Qed.

Lemma load_constants_zero_size_witness :
  let m := mk_model device_type_cpu true
             [mk_const "a" 8 false; mk_const "z" 0 false] (Some ∅) None in
  let m' := snd (load_constants cfg_cpu env_ok m) in
  let handle := tensor_for cfg_cpu m (mk_const "z" 0 false) nullptr in
  exists cmap' arr,
    constants_map_ m' = Some cmap' /\
    cmap' !! "z" = Some handle /\
    constants_ m' = Some arr /\
    arr !! 1%nat = Some (Some handle).
Proof.
  intros m m' handle.
  destruct (load_constants_zero_size cfg_cpu env_ok m m' ∅ 1
              (mk_const "z" 0 false))
    as (_ & cmap' & Hmap & _ & _ & Hfree).
  - unfold vector_sized. simpl. lia.
  - reflexivity.
  - reflexivity.
  - vm_compute. reflexivity.
  - reflexivity.
  - reflexivity.
  - reflexivity.
  - destruct Hfree as (Hentry & arr & Harr & Hslot).
    + reflexivity.
    + vm_compute. intros Hin. apply list_elem_of_singleton in Hin. discriminate.
    + exists cmap', arr. repeat split; assumption.
Defined.

(** C10 as stated fails in two ways.  With a name that is already bound in
    the registry map, the call makes the handle on the null pointer and
    drops it: the entry under the name is the old one.  And without weights
    the call returns before the loop: no handle is made and the name stays
    free. *)
Lemma load_constants_zero_size_not_inserted :
  let infos := [mk_const "z" 0 false] in
  let handle m := tensor_for cfg_cpu m (mk_const "z" 0 false) nullptr in
  (let m := mk_model device_type_cpu true infos (Some {["z" := handle_a]}) None in
   let r := load_constants cfg_cpu env_ok m in
   fst r = Ok tt /\
   effects_ (snd r) = [eff_create_tensor (handle m)] /\
   (constants_map_ (snd r) ≫= (.!! "z")) = Some handle_a /\
   handle_a <> handle m) /\
  (let m := mk_model device_type_cpu false infos (Some ∅) None in
   let r := load_constants cfg_cpu env_ok m in
   fst r = Ok tt /\
   effects_ (snd r) = [] /\
   (constants_map_ (snd r) ≫= (.!! "z")) = None).
Proof.
  split.
  - split; [vm_compute; reflexivity|]. split; [vm_compute; reflexivity|].
    split; [vm_compute; reflexivity|]. discriminate.
  - split; [vm_compute; reflexivity|]. split; vm_compute; reflexivity.
Qed.
